(** * intake.gui: the catalog-adding widgets and the lazy GUI root

    A shallow embedding of [intake/gui/catalog/add.py] (FileSelector,
    URLSelector, CatAdder) and of [intake/gui/__init__.py] (do_import,
    InstanceMaker), with the properties of the specification stated over it.

    Python strings are [string] (UTF-8 bytes: the byte-wise lexicographic
    order coincides with Python's code-point order), [os.path] is the POSIX
    flavour ([os.path.sep = "/"]). *)

From Stdlib Require Import List String Ascii Bool Arith ZArith Lia.
From Stdlib Require Import Sorted Permutation.
Import ListNotations.

Open Scope string_scope.
Open Scope list_scope.

(** ** Python outcomes *)

Module Py.

(** An exception instance: its class and [str(e)].  Only instances of
    [Exception] are modelled (the class that [except Exception] catches);
    [KeyboardInterrupt] and [SystemExit] are not failures of a callee. *)
Inductive exn : Type :=
| TypeError (msg : string)
| ValueError (msg : string)
| IndexError (msg : string)
| AttributeError (msg : string)
| RuntimeError (msg : string)
| ImportError (msg : string)
| OtherError (cls msg : string).

Inductive result (A : Type) : Type :=
| Ok (a : A)
| Raise (e : exn).
Arguments Ok {A} a.
Arguments Raise {A} e.

(** A computation over a mutable object of type [S] that may raise and that
    emits the calls it makes to the outside (callbacks, watchers of an owner)
    as events of type [E], in order. *)
Definition M (E S A : Type) : Type := S -> result A * S * list E.

Definition ret {E S A} (a : A) : M E S A := fun s => (Ok a, s, []).

Definition bind {E S A B} (m : M E S A) (k : A -> M E S B) : M E S B :=
  fun s =>
    match m s with
    | (Ok a, s1, ev1) =>
        match k a s1 with (r, s2, ev2) => (r, s2, ev1 ++ ev2) end
    | (Raise e, s1, ev1) => (Raise e, s1, ev1)
    end.

Definition raise {E S A} (e : exn) : M E S A := fun s => (Raise e, s, []).

Definition get {E S} : M E S S := fun s => (Ok s, s, []).

Definition modify {E S} (f : S -> S) : M E S unit := fun s => (Ok tt, f s, []).

Definition emit {E S} (e : E) : M E S unit := fun s => (Ok tt, s, [e]).

Definition lift_result {E S A} (r : result A) : M E S A := fun s => (r, s, []).

(** [try: body / except Exception as e: handler e]. *)
Definition try_except {E S A} (body : M E S A) (handler : exn -> M E S A)
  : M E S A :=
  fun s =>
    match body s with
    | (Ok a, s1, ev1) => (Ok a, s1, ev1)
    | (Raise e, s1, ev1) =>
        match handler e s1 with (r, s2, ev2) => (r, s2, ev1 ++ ev2) end
    end.

Definition when {E S} (b : bool) (m : M E S unit) : M E S unit :=
  if b then m else ret tt.

(** The three components of a run. *)
Definition result_of {E S A} (x : result A * S * list E) : result A :=
  fst (fst x).
Definition state_of {E S A} (x : result A * S * list E) : S := snd (fst x).
Definition events_of {E S A} (x : result A * S * list E) : list E := snd x.

End Py.

Import Py.

Declare Scope py_scope.
Delimit Scope py_scope with py.
Notation "x <- m ;; k" := (bind m (fun x => k))
  (at level 61, m at next level, right associativity) : py_scope.
Notation "m ;;; k" := (bind m (fun _ => k))
  (at level 61, right associativity) : py_scope.

(** ** str methods and os.path (posixpath) *)

Module OsPath.

Definition sep : string := "/".
Definition sep_char : ascii := "/"%char.

(** [s.startswith(p)] *)
Definition startswith (s p : string) : bool := String.prefix p s.

Fixpoint rev_string_acc (s acc : string) : string :=
  match s with
  | EmptyString => acc
  | String c s' => rev_string_acc s' (String c acc)
  end.

Definition rev_string (s : string) : string := rev_string_acc s EmptyString.

(** [s.endswith(p)] *)
Definition endswith (s p : string) : bool :=
  String.prefix (rev_string p) (rev_string s).

Fixpoint lstrip_sep (s : string) : string :=
  match s with
  | EmptyString => EmptyString
  | String c s' => if Ascii.eqb c sep_char then lstrip_sep s' else s
  end.

(** [s.rstrip(os.path.sep)]: every trailing separator is removed. *)
Definition rstrip_sep (s : string) : string :=
  rev_string (lstrip_sep (rev_string s)).

(** [s.rfind(sep)]: index of the last separator, [-1] when there is none. *)
Fixpoint rfind_sep_from (s : string) (i last : Z) : Z :=
  match s with
  | EmptyString => last
  | String c s' =>
      rfind_sep_from s' (i + 1) (if Ascii.eqb c sep_char then i else last)
  end.

Definition rfind_sep (s : string) : Z := rfind_sep_from s 0 (-1).

(** [s[:i]] for [0 <= i]. *)
Definition slice_to (s : string) (i : Z) : string :=
  String.substring 0 (Z.to_nat i) s.

Fixpoint all_sep (s : string) : bool :=
  match s with
  | EmptyString => true
  | String c s' => Ascii.eqb c sep_char && all_sep s'
  end.

(** posixpath.dirname:
<<
    i = p.rfind(sep) + 1
    head = p[:i]
    if head and head != sep*len(head):
        head = head.rstrip(sep)
    return head
>> *)
Definition dirname (p : string) : string :=
  let i := (rfind_sep p + 1)%Z in
  let head := slice_to p i in
  if negb (String.eqb head "") && negb (all_sep head)
  then rstrip_sep head
  else head.

(** posixpath.join with two string arguments:
<<
    if b.startswith(sep):   path = b
    elif not path or path.endswith(sep):   path += b
    else:   path += sep + b
>> *)
Definition join (a b : string) : string :=
  if startswith b sep then b
  else if String.eqb a "" || endswith a sep then (a ++ b)%string
  else (a ++ sep ++ b)%string.

End OsPath.

(** ** Collaborators: filesystem, sorting, dict, icons *)

(** The filesystem as the widgets consult it ([os.getcwd], [os.path.isdir],
    [os.path.isfile], [os.listdir]).  [os.path.isdir] and [os.path.isfile]
    answer for every path; [os.listdir] yields the entry names or raises:
    a directory that exists but cannot be read is a directory for
    [os.path.isdir] and a PermissionError for [os.listdir]. *)
Record filesystem : Type := {
  getcwd : string;
  isdir : string -> bool;
  isfile : string -> bool;
  listdir : string -> result (list string)
}.

(** The values that [FileSelector.selected] and the ['selected'] entry of a
    captured state can hold. *)
Inductive pyval : Type :=
| PNone
| PStr (s : string)
| PList (l : list string).

(** An indicator asset, named by its key. *)
Inductive icon : Type := ICON (key : string).

(** Modelled from the spec: [ICONS] of [intake/gui/base.py], which is not
    among the sources; [ICONS['error']] is the indicator asset under the
    "error" icon key. *)
Definition ICONS_error : icon := ICON "error".

Module Builtins.

(** [sorted(names)] on strings: the ascending rearrangement for [<=] on
    [str]. *)
Fixpoint insert (x : string) (l : list string) : list string :=
  match l with
  | [] => [x]
  | y :: l' => if String.leb x y then x :: l else y :: insert x l'
  end.

Fixpoint sorted (l : list string) : list string :=
  match l with
  | [] => []
  | x :: l' => insert x (sorted l')
  end.

(** A [dict] keeps its keys in insertion order; setting an existing key
    keeps the key's position and replaces the value. *)
Definition pydict : Type := list (string * string).

Fixpoint dict_set (d : pydict) (k v : string) : pydict :=
  match d with
  | [] => [(k, v)]
  | (k', v') :: d' =>
      if String.eqb k k' then (k', v) :: d' else (k', v') :: dict_set d' k v
  end.

(** [dict(pairs)] *)
Definition dict (pairs : list (string * string)) : pydict :=
  fold_left (fun d kv => dict_set d (fst kv) (snd kv)) pairs [].

Definition keys (d : pydict) : list string := map fst d.

(** [zip] is [List.combine]. *)
Definition zip := @List.combine string string.

Fixpoint list_eqb (a b : list string) : bool :=
  match a, b with
  | [], [] => true
  | x :: a', y :: b' => String.eqb x y && list_eqb a' b'
  | _, _ => false
  end.

(** Python list indexing [l[i]] on a two-element list. *)
Definition index2 {A} (x0 x1 : A) (i : Z) : result A :=
  if (i =? 0)%Z || (i =? -2)%Z then Ok x0
  else if (i =? 1)%Z || (i =? -1)%Z then Ok x1
  else Raise (IndexError "list index out of range").

End Builtins.

Import Builtins.

(** ** FileSelector (the PathBrowser of the specification)

    The component after [setup]: its widgets exist and the five watchers of
    [setup] are registered.  A watcher is, in the words of the
    specification, "a registered callback invoked when an observed value
    changes": the assignments below ([path_text_assign],
    [main_value_assign]) run the watchers of the assigned value, in
    registration order, when the new value differs from the old one.  This
    is how [move_up] and [go_home], which only assign the path text, refresh
    the entries. *)

Module FileSelector.

(** What a FileSelector does to its surroundings: calls of [done_callback]
    and changes of [main.value], which an owning CatAdder watches. *)
Inductive event : Type :=
| DoneCallback (b : bool)
| MainValueChanged (new : list string).

Record t : Type := {
  filters : list string;
  has_done_callback : bool;        (* [self.done_callback] is not None *)
  path_text_value : string;        (* [self.path_text.value] *)
  validator_object : option icon;  (* [self.validator.object] *)
  main_value : list string;        (* [self.main.value] *)
  main_options : pydict            (* [self.main.options] *)
}.

Definition set_path_text_value (v : string) (s : t) : t :=
  {| filters := filters s; has_done_callback := has_done_callback s;
     path_text_value := v; validator_object := validator_object s;
     main_value := main_value s; main_options := main_options s |}.

Definition set_validator_object (v : option icon) (s : t) : t :=
  {| filters := filters s; has_done_callback := has_done_callback s;
     path_text_value := path_text_value s; validator_object := v;
     main_value := main_value s; main_options := main_options s |}.

Definition set_main_value (v : list string) (s : t) : t :=
  {| filters := filters s; has_done_callback := has_done_callback s;
     path_text_value := path_text_value s;
     validator_object := validator_object s;
     main_value := v; main_options := main_options s |}.

Definition set_main_options (v : pydict) (s : t) : t :=
  {| filters := filters s; has_done_callback := has_done_callback s;
     path_text_value := path_text_value s;
     validator_object := validator_object s;
     main_value := main_value s; main_options := v |}.

(** The captured state, [{'path': ..., 'selected': ...}]. *)
Record state : Type := {
  st_path : string;
  st_selected : pyval
}.

(** The values with which [done_callback] was called, in order. *)
Definition notifications (evs : list event) : list bool :=
  flat_map (fun e => match e with
                     | DoneCallback b => [b]
                     | MainValueChanged _ => []
                     end) evs.

(** [path] property *)
Definition path (s : t) : string :=
  let p := path_text_value s in
  if OsPath.endswith p OsPath.sep then p else (p ++ OsPath.sep)%string.

(** [selected] property:
    [self.main.value[0] if len(self.main.value) > 0 else []] *)
Definition selected (s : t) : pyval :=
  match main_value s with
  | x :: _ => PStr x
  | [] => PList []
  end.

(** [os.path.join(a, b)] for a [str] [a] and any [b]: a list is refused. *)
Definition os_path_join (a : string) (b : pyval) : result string :=
  match b with
  | PStr x => Ok (OsPath.join a x)
  | PList _ =>
      Raise (TypeError
        "join() argument must be str, bytes, or os.PathLike object, not 'list'")
  | PNone =>
      Raise (TypeError
        "join() argument must be str, bytes, or os.PathLike object, not 'NoneType'")
  end.

(** [url] property: joins when [self.selected is not None], and falls off
    the end (returns [None]) otherwise. *)
Definition url (s : t) : result (option string) :=
  match selected s with
  | PNone => Ok None
  | v =>
      match os_path_join (path s) v with
      | Ok p => Ok (Some p)
      | Raise e => Raise e
      end
  end.

Section WithFilesystem.

Variable fs : filesystem.

Local Open Scope py_scope.

(** [validate] *)
Definition validate : M event t unit :=
  s <- get ;;
  if isdir fs (path s)
  then modify (set_validator_object None)
  else modify (set_validator_object (Some ICONS_error)).

(** The loop of [make_options] over the sorted names. *)
Fixpoint collect (flt : list string) (dir : string) (names : list string)
  : list string :=
  match names with
  | [] => []
  | f :: rest =>
      if OsPath.startswith f "." then collect flt dir rest
      else if isdir fs (OsPath.join dir f)
           then (f ++ OsPath.sep)%string :: collect flt dir rest
      else if existsb (fun ext => OsPath.endswith f ext) flt
           then f :: collect flt dir rest
      else collect flt dir rest
  end.

(** [out] as [make_options] computes it; a failure of [os.listdir] is not
    caught. *)
Definition options_out (s : t) : result (list string) :=
  if isdir fs (path s)
  then match listdir fs (path s) with
       | Ok names => Ok (collect (filters s) (path s) (sorted names))
       | Raise e => Raise e
       end
  else Ok [].

(** [self.main.value = []].  When this changes the value, the watchers of
    [main.value] run: [move_down] sees [len(event.new) = 0] and does nothing,
    then the owner's watcher is told. *)
Definition main_value_clear : M event t unit :=
  s <- get ;;
  match main_value s with
  | [] => ret tt
  | _ :: _ => modify (set_main_value []) ;;; emit (MainValueChanged [])
  end.

(** [make_options]: the callback is told first, then the directory is
    listed, then the selection and the options are assigned. *)
Definition make_options : M event t unit :=
  s <- get ;;
  when (has_done_callback s) (emit (DoneCallback false)) ;;;
  out <- lift_result (options_out s) ;;
  main_value_clear ;;;
  modify (set_main_options (dict (zip out out))).

(** [self.path_text.value = v], with the watchers [validate] and
    [make_options] of [setup], in this order; the value is assigned before
    the watchers run, and a watcher that raises ends the assignment with
    its exception. *)
Definition path_text_assign (v : string) : M event t unit :=
  s <- get ;;
  if String.eqb v (path_text_value s) then ret tt
  else modify (set_path_text_value v) ;;; validate ;;; make_options.

(** [move_up] *)
Definition move_up : M event t unit :=
  s <- get ;;
  path_text_assign
    (OsPath.dirname (OsPath.rstrip_sep (path s)) ++ OsPath.sep)%string.

(** [go_home] *)
Definition go_home : M event t unit :=
  path_text_assign (getcwd fs ++ OsPath.sep)%string.

(** [os.path.isfile(p)] for [p] a [str] or [None]. *)
Definition os_path_isfile (p : option string) : result bool :=
  match p with
  | Some p => Ok (isfile fs p)
  | None =>
      Raise (TypeError
        "stat: path should be string, bytes, os.PathLike or integer, not NoneType")
  end.

(** [move_down] on one ['value'] event whose [new] is [new]. *)
Definition move_down (new : list string) : M event t unit :=
  match new with
  | [] => ret tt
  | fn :: _ =>
      if OsPath.endswith fn OsPath.sep
      then s <- get ;;
           path_text_assign (path s ++ fn)%string ;;;
           make_options
      else s <- get ;;
           u <- lift_result (url s) ;;
           b <- lift_result (os_path_isfile u) ;;
           when (b && has_done_callback s) (emit (DoneCallback true))
  end.

(** [self.main.value = v] for a list [v], with the watcher [move_down] of
    [setup] and then the owner's watcher. *)
Definition main_value_assign (v : list string) : M event t unit :=
  s <- get ;;
  if list_eqb v (main_value s) then ret tt
  else modify (set_main_value v) ;;; move_down v ;;;
       emit (MainValueChanged v).

(** [self.main.value = v] for any value: [main] is a MultiSelect of the
    widget framework, whose [value] is declared a list parameter; assigning
    anything but a list is refused with a ValueError. *)
Definition main_value_assign_any (v : pyval) : M event t unit :=
  match v with
  | PList l => main_value_assign l
  | PStr _ => raise (ValueError "List parameter 'value' must be a list, not an object of type <class 'str'>.")
  | PNone => raise (ValueError "List parameter 'value' must be a list, not an object of type <class 'NoneType'>.")
  end.

(** [__getstate__] *)
Definition getstate (s : t) : state :=
  {| st_path := path s; st_selected := selected s |}.

(** [__setstate__] *)
Definition setstate (st : state) : M event t unit :=
  path_text_assign (st_path st) ;;;
  main_value_assign_any (st_selected st).

(** [__init__] followed by [setup] (the constructor of [Base], which is not
    among the sources, sets up a component that starts visible): the widgets
    at their initial values, then [make_options], before any watcher is
    registered. *)
Definition widgets_at_setup (flt : list string) (cb : bool) : t :=
  {| filters := flt; has_done_callback := cb;
     path_text_value := (getcwd fs ++ OsPath.sep)%string;
     validator_object := None;
     main_value := [];
     main_options := [] |}.

Definition setup (flt : list string) (cb : bool) : result unit * t * list event :=
  make_options (widgets_at_setup flt cb).

(** The component that [FileSelector(filters, done_callback)] builds.  When
    the listing of the working directory raises, so does the constructor;
    [fresh] is then the object as the exception left it. *)
Definition fresh (flt : list string) (cb : bool) : t :=
  state_of (setup flt cb).

End WithFilesystem.

(** The default [filters]. *)
Definition default_filters : list string := ["yaml"; "yml"].

End FileSelector.

(** ** URLSelector (the RemoteLocator of the specification) *)

Module URLSelector.

Inductive event : Type :=
| MainValueChanged (new : string).

Record t : Type := {
  main_value : string   (* [self.main.value], the text of the input *)
}.

Record state : Type := {
  st_url : string
}.

Local Open Scope py_scope.

(** [url] property *)
Definition url (s : t) : string := main_value s.

(** [self.main.value = v]; the owner watches the value. *)
Definition main_value_assign (v : string) : M event t unit :=
  s <- get ;;
  if String.eqb v (main_value s) then ret tt
  else modify (fun _ => {| main_value := v |}) ;;; emit (MainValueChanged v).

(** [__getstate__] *)
Definition getstate (s : t) : state := {| st_url := url s |}.

(** [__setstate__] *)
Definition setstate (st : state) : M event t unit :=
  main_value_assign (st_url st).

(** [URLSelector()]: an empty text input. *)
Definition fresh : t := {| main_value := "" |}.

End URLSelector.

(** ** CatAdder (the CatalogAdder of the specification)

    The component after [setup]: [tabs], [validator] and the watchers exist.
    The children are owned, not shared; what a child does to its owner (its
    [done_callback], the owner's watchers of its [main.value]) reaches the
    owner as the child's events, which touch only the owner's own button and
    indicator. *)

Module CatAdder.

Record t : Type := {
  visible : bool;                  (* [self.visible] *)
  watching : bool;                 (* the watchers of [setup] are registered *)
  widget_disabled : bool;          (* [self.widget.disabled] *)
  validator_object : option icon;  (* [self.validator.object] *)
  tabs_active : Z;                 (* [self.tabs.active] *)
  fs : FileSelector.t;             (* [self.fs] *)
  url : URLSelector.t              (* [self.url] *)
}.

Definition set_visible_field (v : bool) (s : t) : t :=
  {| visible := v; watching := watching s;
     widget_disabled := widget_disabled s;
     validator_object := validator_object s; tabs_active := tabs_active s;
     fs := fs s; url := url s |}.

Definition set_watching (v : bool) (s : t) : t :=
  {| visible := visible s; watching := v;
     widget_disabled := widget_disabled s;
     validator_object := validator_object s; tabs_active := tabs_active s;
     fs := fs s; url := url s |}.

Definition set_widget_disabled (v : bool) (s : t) : t :=
  {| visible := visible s; watching := watching s;
     widget_disabled := v;
     validator_object := validator_object s; tabs_active := tabs_active s;
     fs := fs s; url := url s |}.

Definition set_validator_object (v : option icon) (s : t) : t :=
  {| visible := visible s; watching := watching s;
     widget_disabled := widget_disabled s;
     validator_object := v; tabs_active := tabs_active s;
     fs := fs s; url := url s |}.

Definition set_tabs_active (v : Z) (s : t) : t :=
  {| visible := visible s; watching := watching s;
     widget_disabled := widget_disabled s;
     validator_object := validator_object s; tabs_active := v;
     fs := fs s; url := url s |}.

Definition set_fs (v : FileSelector.t) (s : t) : t :=
  {| visible := visible s; watching := watching s;
     widget_disabled := widget_disabled s;
     validator_object := validator_object s; tabs_active := tabs_active s;
     fs := v; url := url s |}.

Definition set_url (v : URLSelector.t) (s : t) : t :=
  {| visible := visible s; watching := watching s;
     widget_disabled := widget_disabled s;
     validator_object := validator_object s; tabs_active := tabs_active s;
     fs := fs s; url := v |}.

(** The two entries of [self.selectors = [self.fs, self.url]]. *)
Inductive selector : Type := Local | Remote.

(** The captured state.  ['visible'] is read with [state.get('visible', True)],
    so it may be missing. *)
Record state : Type := {
  st_visible : option bool;
  st_local : FileSelector.state;
  st_remote : URLSelector.state;
  st_active : Z
}.

(** Modelled from the spec: [enable_widget] of [intake/gui/base.py], which is
    not among the sources.  A notification with value true enables the
    confirm action, one with value false disables it. *)
Definition enable_widget (enable : bool) (s : t) : t :=
  set_widget_disabled (negb enable) s.

(** Modelled from the spec: the setter of [visible], of the class [Base] in
    [intake/gui/base.py], which is not among the sources.  It assigns the
    flag; the watchers registered at setup are torn down when the flag is set
    false. *)
Definition visible_assign (v : bool) (s : t) : t :=
  if v then set_visible_field true s
  else set_watching false (set_visible_field false s).

(** [remove_error] *)
Definition remove_error (s : t) : t := set_validator_object None s.

(** The owner's reaction to what its FileSelector does:
    [done_callback = partial(enable_widget, self.widget)] and the watcher
    [self.fs.main.param.watch(self.remove_error, 'value')]. *)
Definition on_fs_event (s : t) (e : FileSelector.event) : t :=
  match e with
  | FileSelector.DoneCallback b => enable_widget b s
  | FileSelector.MainValueChanged _ =>
      if watching s then remove_error s else s
  end.

(** The watcher [self.url.main.param.watch(self.remove_error, 'value')]. *)
Definition on_url_event (s : t) (e : URLSelector.event) : t :=
  match e with
  | URLSelector.MainValueChanged _ =>
      if watching s then remove_error s else s
  end.

(** Two states that differ at most in the button and the error indicator:
    what the owner does on its children's events touches only these. *)
Definition same_frame (a b : t) : Prop :=
  visible a = visible b /\ watching a = watching b /\
  tabs_active a = tabs_active b /\ fs a = fs b /\ url a = url b.

Section WithCollaborators.

(** The catalog handles, [intake.open_catalog], the filesystem and the
    [done_callback] given to the constructor ([None] by default). *)
Variable catalog : Type.
Variable open_catalog : option string -> result catalog.
Variable filesys : filesystem.
Variable done_callback : option (catalog -> result unit).

(** The calls that leave the component. *)
Inductive event : Type :=
| OpenCatalog (location : option string)
| DoneCallback (cat : catalog).

Local Open Scope py_scope.

(** Running a method of [self.fs] inside the CatAdder. *)
Definition in_fs {A} (m : M FileSelector.event FileSelector.t A)
  : M event t A :=
  fun s =>
    match m (fs s) with
    | (r, f, evs) => (r, fold_left on_fs_event evs (set_fs f s), [])
    end.

(** Running a method of [self.url] inside the CatAdder. *)
Definition in_url {A} (m : M URLSelector.event URLSelector.t A)
  : M event t A :=
  fun s =>
    match m (url s) with
    | (r, u, evs) => (r, fold_left on_url_event evs (set_url u s), [])
    end.

(** [cat_url] property: [self.selectors[self.tabs.active].url] with
    [self.selectors = [self.fs, self.url]]. *)
Definition cat_url : M event t (option string) :=
  s <- get ;;
  sel <- lift_result (index2 Local Remote (tabs_active s)) ;;
  match sel with
  | Local => lift_result (FileSelector.url (fs s))
  | Remote => ret (Some (URLSelector.url (url s)))
  end.

(** [cat] property: [intake.open_catalog(self.cat_url)] *)
Definition cat : M event t catalog :=
  u <- cat_url ;;
  emit (OpenCatalog u) ;;;
  lift_result (open_catalog u).

(** [self.done_callback(c)]: calling [None] is a TypeError. *)
Definition call_done_callback (c : catalog) : M event t unit :=
  match done_callback with
  | None => raise (TypeError "'NoneType' object is not callable")
  | Some f => emit (DoneCallback c) ;;; lift_result (f c)
  end.

(** [add_cat]:
<<
    try:
        self.done_callback(self.cat)
        self.visible = False
    except Exception as e:
        self.validator.object = ICONS['error']
        raise e
>> *)
Definition add_cat : M event t unit :=
  try_except
    (c <- cat ;;
     call_done_callback c ;;;
     modify (visible_assign false))
    (fun e =>
       modify (set_validator_object (Some ICONS_error)) ;;;
       raise e).

(** [tab_change] on an event whose [new] is [new]. *)
Definition tab_change (new : Z) : M event t unit :=
  modify remove_error ;;;
  when (new =? 1)%Z (modify (set_widget_disabled false)).

(** [self.tabs.active = v], with the watcher [tab_change] of [setup].  The
    tabs keep [active] within the indices of the two tabs: another value is
    refused with a ValueError and [active] stays as it was. *)
Definition tabs_active_assign (v : Z) : M event t unit :=
  s <- get ;;
  if (v <? 0)%Z || (1 <? v)%Z
  then raise (ValueError "Integer parameter 'active' must be within the bounds of the tabs")
  else if (v =? tabs_active s)%Z then ret tt
  else modify (set_tabs_active v) ;;;
       when (watching s) (tab_change v).

(** [__getstate__]; [self.tabs] exists after [setup]. *)
Definition getstate (s : t) : state :=
  {| st_visible := Some (visible s);
     st_local := FileSelector.getstate (fs s);
     st_remote := URLSelector.getstate (url s);
     st_active := tabs_active s |}.

(** [__setstate__] *)
Definition setstate (st : state) : M event t unit :=
  in_fs (FileSelector.setstate filesys (st_local st)) ;;;
  in_url (URLSelector.setstate (st_remote st)) ;;;
  modify (visible_assign
            (match st_visible st with Some v => v | None => true end)) ;;;
  s <- get ;;
  when (visible s) (tabs_active_assign (st_active st)).

(** [CatAdder(done_callback)]: the button starts disabled, the FileSelector
    is built with [done_callback=partial(enable_widget, self.widget)], then
    [setup] runs because the component starts visible. *)
Definition at_init : t :=
  {| visible := true; watching := false;
     widget_disabled := true; validator_object := None;
     tabs_active := 0;
     fs := FileSelector.widgets_at_setup filesys FileSelector.default_filters true;
     url := URLSelector.fresh |}.

Definition fresh : t :=
  match in_fs (FileSelector.make_options filesys) at_init with
  | (_, s, _) => set_watching true s
  end.

(** The handles with which [done_callback] was called, in order. *)
Definition done_callback_calls (evs : list event) : list catalog :=
  flat_map (fun e => match e with
                     | DoneCallback c => [c]
                     | OpenCatalog _ => []
                     end) evs.

End WithCollaborators.

Arguments OpenCatalog {catalog} location.
Arguments DoneCallback {catalog} cat.

End CatAdder.

(** ** The lazy GUI root: do_import and InstanceMaker *)

Module Gui.

(** A component of a version as LooseVersion parses it: a number or a run
    of letters (["0.9.5a1"] is [0, 9, 5, 'a', 1]). *)
Inductive component : Type :=
| VInt (n : nat)
| VStr (s : string).

(** The components of a version made of numbers only. *)
Definition numeric (l : list nat) : list component := map VInt l.

(** [import panel]: it raises ImportError, it raises something else, or it
    gives a module with its parsed [__version__]. *)
Inductive panel_import : Type :=
| PanelMissing (error : string)        (* ImportError, with [str(e)] *)
| PanelBroken (e : exn)                (* an exception that is not an ImportError *)
| PanelVersion (version : list component).

(** The four operations that InstanceMaker intercepts. *)
Inductive access : Type :=
| GetAttr (attr : string)   (* [__getattr__] *)
| GetItem (item : string)   (* [__getitem__] *)
| Repr                      (* [__repr__] *)
| Dir.                      (* [__dir__] *)

(** The class that [do_import] returns. *)
Inductive gui_class : Type :=
| StubInstall (error : option string)  (* lines 19-23; [error] is [False] or the ImportError *)
| StubUpdate                           (* lines 38-43 *)
| RealGUI.                             (* [from .gui import GUI] *)

Section WithEnvironment.

(** What the operations return. *)
Variable value : Type.

Record environment : Type := {
  import_panel : panel_import;
  (* [from .gui import GUI], the css registration and [pn.extension()] *)
  init_gui : result unit;
  (* [GUI()] for the real class, which [intake/gui/gui.py] defines *)
  construct_gui : result unit;
  (* the real GUI root answering an operation *)
  real_gui : access -> result value;
  (* [getattr(o, attr)] and [dir(o)] on an object whose class defines only
     [__repr__]: the attributes every object has *)
  object_getattr : string -> option value;
  object_dir : value
}.

(** [x == y] on components: a number never equals a run of letters. *)
Definition component_eqb (x y : component) : bool :=
  match x, y with
  | VInt n, VInt m => Nat.eqb n m
  | VStr a, VStr b => String.eqb a b
  | _, _ => false
  end.

(** [x < y] on components: a number and a run of letters do not compare. *)
Definition component_lt (x y : component) : result bool :=
  match x, y with
  | VInt n, VInt m => Ok (Nat.ltb n m)
  | VStr a, VStr b => Ok (String.ltb a b)
  | VInt _, VStr _ =>
      Raise (TypeError "'<' not supported between instances of 'int' and 'str'")
  | VStr _, VInt _ =>
      Raise (TypeError "'<' not supported between instances of 'str' and 'int'")
  end.

(** [LooseVersion(a) < LooseVersion(b)]: the order of Python lists, which
    compares the first pair of components that are not equal. *)
Fixpoint version_lt (a b : list component) : result bool :=
  match a, b with
  | _, [] => Ok false
  | [], _ :: _ => Ok true
  | x :: a', y :: b' =>
      if component_eqb x y then version_lt a' b' else component_lt x y
  end.

Definition minimum_version : list component := numeric [0; 9; 5].   (* "0.9.5" *)

(** [do_import]: only an ImportError of [import panel] is caught; another
    exception, or a TypeError of the comparison of the versions, leaves
    [do_import]. *)
Definition do_import (env : environment) : result gui_class :=
  match import_panel env with
  | PanelBroken e => Raise e
  | PanelMissing e => Ok (StubInstall (Some e))
  | PanelVersion v =>
      match version_lt v minimum_version with
      | Raise e => Raise e
      | Ok true => Ok (StubInstall None)
      | Ok false =>
          match init_gui env with
          | Ok _ => Ok RealGUI
          | Raise _ => Ok StubUpdate
          end
      end
  end.

(** [GUI()]: a stub class has no constructor of its own. *)
Definition construct (env : environment) (c : gui_class) : result unit :=
  match c with
  | RealGUI => construct_gui env
  | StubInstall _ | StubUpdate => Ok tt
  end.

(** The factory of the instance: [do_import()] and then [GUI()]. *)
Definition factory (env : environment) : result gui_class :=
  match do_import env with
  | Ok c => match construct env c with
            | Ok _ => Ok c
            | Raise e => Raise e
            end
  | Raise e => Raise e
  end.

(** The factory fails: panel is missing, or older than the minimum. *)
Definition factory_fails (env : environment) : Prop :=
  match import_panel env with
  | PanelMissing _ => True
  | PanelBroken _ => False
  | PanelVersion v => version_lt v minimum_version = Ok true
  end.

(** ["%s" % error] for [error = False] or an ImportError. *)
Definition format_error (error : option string) : string :=
  match error with
  | None => "False"
  | Some m => m
  end.

Definition install_message (error : option string) : string :=
  ("Please install panel to use the GUI `conda "
   ++ "install -c conda-forge panel>=0.8.0`. Import "
   ++ "failed with error: " ++ format_error error)%string.

Definition update_message : string :=
  ("Initialisation of GUI failed, even though "
   ++ "panel is installed. Please update it "
   ++ "to a more recent version (`conda install -c"
   ++ " conda-forge panel>=0.9.5`).")%string.

(** An operation on an instance of a stub class, which defines [__repr__]
    and nothing else. *)
Definition stub (env : environment) (message : string) (a : access)
  : result value :=
  match a with
  | Repr => Raise (RuntimeError message)
  | GetAttr attr =>
      match object_getattr env attr with
      | Some v => Ok v
      | None =>
          Raise (AttributeError
                   ("'GUI' object has no attribute '" ++ attr ++ "'")%string)
      end
  | GetItem _ => Raise (TypeError "'GUI' object is not subscriptable")
  | Dir => Ok (object_dir env)
  end.

(** An object: its identity and its class. *)
Record instance : Type := {
  id : nat;
  cls : gui_class
}.

(** The operation [a] on the instance [i]. *)
Definition respond (env : environment) (i : instance) (a : access)
  : result value :=
  match cls i with
  | RealGUI => real_gui env a
  | StubInstall error => stub env (install_message error) a
  | StubUpdate => stub env update_message a
  end.

(** InstanceMaker, with the count of the objects that [GUI()] has created
    (each call creates a new one). *)
Record t : Type := {
  _instance : option instance;
  created : nat
}.

Inductive event : Type :=
| DoImport                               (* the factory runs *)
| Forward (i : instance) (a : access).   (* [a] is applied to [i] *)

Local Open Scope py_scope.

(** [__init__] *)
Definition init : t := {| _instance := None; created := 0 |}.

(** [_instantiate]: nothing is cached when [do_import()] or [GUI()]
    raises. *)
Definition _instantiate (env : environment) : M event t unit :=
  s <- get ;;
  match _instance s with
  | Some _ => ret tt
  | None =>
      emit DoImport ;;;
      GUI <- lift_result (do_import env) ;;
      lift_result (construct env GUI) ;;;
      modify (fun s => {| _instance := Some {| id := created s; cls := GUI |};
                          created := S (created s) |})
  end.

(** [__getattr__], [__getitem__], [__repr__] and [__dir__]: instantiate,
    then apply the operation to [self._instance]. *)
Definition perform (env : environment) (a : access) : M event t value :=
  _instantiate env ;;;
  s <- get ;;
  match _instance s with
  | Some i => emit (Forward i a) ;;; lift_result (respond env i a)
  | None => raise (AttributeError "'NoneType' object")
  end.

(** A sequence of accesses by a caller who survives each failure: the
    outcomes, the final object and the events. *)
Fixpoint session (env : environment) (l : list access) (s : t)
  : list (result value) * t * list event :=
  match l with
  | [] => ([], s, [])
  | a :: l' =>
      match perform env a s with
      | (r, s1, ev1) =>
          match session env l' s1 with
          | (rs, s2, ev2) => (r :: rs, s2, ev1 ++ ev2)
          end
      end
  end.

(** The names that normal attribute lookup finds on an InstanceMaker: its
    instance attribute, what its class defines, and what every object has.
    [__getattr__] is called for the other names only. *)
Definition own_names : list string :=
  ["_instance"; "_instantiate"; "__init__"; "__getattr__"; "__getitem__";
   "__repr__"; "__dir__"].

Definition found_by_normal_lookup (env : environment) (attr : string) : bool :=
  existsb (String.eqb attr) own_names ||
  match object_getattr env attr with Some _ => true | None => false end.

(** Who answered an attribute access: the InstanceMaker itself, or the
    instance with a value. *)
Inductive answer : Type :=
| OwnAttribute (attr : string)
| FromInstance (v : value).

(** The attribute access [maker.attr]. *)
Definition getattribute (env : environment) (attr : string)
  : M event t answer :=
  if found_by_normal_lookup env attr
  then ret (OwnAttribute attr)
  else v <- perform env (GetAttr attr) ;; ret (FromInstance v).

Definition is_do_import (e : event) : bool :=
  match e with DoImport => true | Forward _ _ => false end.

(** How often the factory ran. *)
Definition factory_calls (evs : list event) : nat :=
  List.length (filter is_do_import evs).

End WithEnvironment.

(** [sub in s] *)
Fixpoint contains (s sub : string) : bool :=
  String.prefix sub s ||
  match s with
  | EmptyString => false
  | String _ s' => contains s' sub
  end.

End Gui.

(** ** Vocabulary for the entries of a listing *)

Module Entries.

(** [a <= b] on [str]. *)
Definition str_le (a b : string) : Prop := String.leb a b = true.

(** A name is hidden when it starts with a dot. *)
Definition hidden (f : string) : bool := OsPath.startswith f ".".

(** [f] names a subdirectory of [dir]. *)
Definition subdir (fs : filesystem) (dir f : string) : bool :=
  isdir fs (OsPath.join dir f).

(** [f] ends with one of the filters. *)
Definition matches (flt : list string) (f : string) : bool :=
  existsb (fun ext => OsPath.endswith f ext) flt.

(** The names that are shown. *)
Definition keep (fs : filesystem) (flt : list string) (dir f : string) : bool :=
  negb (hidden f) && (subdir fs dir f || matches flt f).

(** How a name is shown: a subdirectory gets the separator appended. *)
Definition annotate (fs : filesystem) (dir f : string) : string :=
  if subdir fs dir f then (f ++ OsPath.sep)%string else f.

(** The keys of a dict built from a list of pairs: each key at the place of
    its first occurrence. *)
Definition add_key (ks : list string) (k : string) : list string :=
  if existsb (String.eqb k) ks then ks else ks ++ [k].

Definition first_occurrences (l : list string) : list string :=
  fold_left add_key l [].

End Entries.

(** ** Sequences of operations on a FileSelector *)

Module Browse.

(** What can happen to a FileSelector: the two buttons, an edit of the path
    text, a change of the selection, a direct call of [make_options] or
    [validate], and [__setstate__]. *)
Inductive action : Type :=
| MoveUp
| GoHome
| TypePath (v : string)
| Select (v : list string)
| Refresh
| Validate
| Restore (st : FileSelector.state).

Definition step (fs : filesystem) (a : action)
  : M FileSelector.event FileSelector.t unit :=
  match a with
  | MoveUp => FileSelector.move_up fs
  | GoHome => FileSelector.go_home fs
  | TypePath v => FileSelector.path_text_assign fs v
  | Select v => FileSelector.main_value_assign fs v
  | Refresh => FileSelector.make_options fs
  | Validate => FileSelector.validate fs
  | Restore st => FileSelector.setstate fs st
  end.

(** The actions in order; an action that raises leaves the component as it
    was when the exception left it, and the next action goes on from there. *)
Fixpoint run (fs : filesystem) (l : list action) (s : FileSelector.t)
  : FileSelector.t * list FileSelector.event :=
  match l with
  | [] => (s, [])
  | a :: l' =>
      match step fs a s with
      | (_, s1, ev1) =>
          match run fs l' s1 with
          | (s2, ev2) => (s2, ev1 ++ ev2)
          end
      end
  end.

(** The entries shown are the listing of the current directory. *)
Definition listed (fs : filesystem) (s : FileSelector.t) : Prop :=
  exists out, FileSelector.options_out fs s = Ok out /\
              FileSelector.main_options s = dict (zip out out).

(** The assignment of [v] to the path text runs to its end: the text is
    the one already there, or the listing of the new directory succeeds. *)
Definition assignable (fs : filesystem) (v : string) (s : FileSelector.t)
  : Prop :=
  String.eqb v (FileSelector.path_text_value s) = true \/
  exists out,
    FileSelector.options_out fs (FileSelector.set_path_text_value v s)
    = Ok out.

(** Every directory of the filesystem can be listed. *)
Definition all_readable (fs : filesystem) : Prop :=
  forall d, isdir fs d = true -> exists names, listdir fs d = Ok names.

(** The first selected entry, if any, is not a directory entry. *)
Definition no_directory_selected (s : FileSelector.t) : Prop :=
  match FileSelector.main_value s with
  | [] => True
  | fn :: _ => OsPath.endswith fn OsPath.sep = false
  end.

(** The error indicator tells whether the current directory is valid. *)
Definition indicator_current (fs : filesystem) (s : FileSelector.t) : Prop :=
  FileSelector.validator_object s =
  if isdir fs (FileSelector.path s) then None else Some ICONS_error.

(** An operation keeps a property of the component. *)
Definition kept (P : FileSelector.t -> Prop)
  (m : M FileSelector.event FileSelector.t unit) : Prop :=
  forall s, P s -> P (state_of (m s)).

(** The entries are the listing, no directory entry is selected, and the
    configuration is the one given to the constructor. *)
Definition steady (fs : filesystem) (flt : list string) (cb : bool)
  (s : FileSelector.t) : Prop :=
  listed fs s /\ no_directory_selected s /\
  FileSelector.filters s = flt /\ FileSelector.has_done_callback s = cb.

(** The string holds a separator. *)
Fixpoint has_sep (s : string) : bool :=
  match s with
  | EmptyString => false
  | String c s' => Ascii.eqb c OsPath.sep_char || has_sep s'
  end.

End Browse.

(** ** Concrete surroundings used in the examples *)

Module Examples.

Definition in_list (p : string) (l : list string) : bool :=
  existsb (String.eqb p) l.

(** A small tree: [/a/b/] holds a subdirectory [data], the catalogs
    [data.yaml] and [x.yml], a hidden catalog and a text file. *)
Definition tree : filesystem :=
  {| getcwd := "/a/b";
     isdir := fun p =>
       in_list p ["/"; "//"; "/a"; "/a/"; "/a/b"; "/a/b/"; "/a/b/data";
                  "/a/b/data/"; "/tmp"; "/tmp/"];
     isfile := fun p =>
       in_list p ["/a/b/data.yaml"; "/a/b/x.yml"; "/a/b/.hid.yaml";
                  "/a/b/notes.txt"];
     listdir := fun p =>
       if String.eqb p "/a/b/"
       then Ok ["x.yml"; "notes.txt"; "data.yaml"; ".hid.yaml"; "data"]
       else if String.eqb p "/a/" then Ok ["b"]
       else if in_list p ["/"; "//"] then Ok ["a"; "tmp"]
       else Ok [] |}.

(** A home directory with a subdirectory that exists and cannot be read. *)
Definition permission_denied : exn :=
  OtherError "PermissionError" "[Errno 13] Permission denied: '/home/private/'".

Definition locked : filesystem :=
  {| getcwd := "/home";
     isdir := fun p => in_list p ["/"; "/home"; "/home/"; "/home/private";
                                  "/home/private/"];
     isfile := fun p => in_list p ["/home/cat.yaml"];
     listdir := fun p =>
       if String.eqb p "/home/" then Ok ["private"; "cat.yaml"]
       else if String.eqb p "/home/private/" then Raise permission_denied
       else if String.eqb p "/" then Ok ["home"]
       else Ok [] |}.

(** Catalog handles are named after their location; only three locations
    hold a catalog. *)
Definition open_catalog (location : option string) : result string :=
  match location with
  | Some p =>
      if in_list p ["/a/b/data.yaml"; "/a/b/x.yml"; "https://example.org/cat.yml"]
      then Ok ("catalog at " ++ p)%string
      else Raise (OtherError "FileNotFoundError" p)
  | None => Ok "empty catalog"
  end.

Definition accepting_callback : option (string -> result unit) :=
  Some (fun _ => Ok tt).

Definition failing_callback : option (string -> result unit) :=
  Some (fun _ => Raise (RuntimeError "callback failed")).

(** A fresh CatAdder after the user went to the remote tab and typed
    [text]. *)
Definition remote (text : string) : CatAdder.t :=
  let s0 := CatAdder.fresh string tree in
  let s1 := state_of (CatAdder.tabs_active_assign string 1 s0) in
  state_of (CatAdder.in_url string (URLSelector.main_value_assign text) s1).

(** The same component after its catalog was added: hidden, still on the
    remote tab. *)
Definition added_remote : CatAdder.t :=
  state_of (CatAdder.add_cat string open_catalog accepting_callback
              (remote "https://example.org/cat.yml")).

(** Python without panel, and with a panel that is too old.  The values
    of the operations are shown as strings. *)
Definition plain_object_getattr (attr : string) : option string :=
  if in_list attr ["__class__"; "__doc__"; "__repr__"]
  then Some ("<" ++ attr ++ ">")%string
  else None.

Definition no_panel : Gui.environment string :=
  {| Gui.import_panel := Gui.PanelMissing "No module named 'panel'";
     Gui.init_gui := Ok tt;
     Gui.construct_gui := Ok tt;
     Gui.real_gui := fun _ => Ok "<GUI>";
     Gui.object_getattr := plain_object_getattr;
     Gui.object_dir := "['__class__', '__doc__', '__repr__']" |}.

Definition old_panel : Gui.environment string :=
  {| Gui.import_panel := Gui.PanelVersion (Gui.numeric [0; 8; 3]);
     Gui.init_gui := Ok tt;
     Gui.construct_gui := Ok tt;
     Gui.real_gui := fun _ => Ok "<GUI>";
     Gui.object_getattr := plain_object_getattr;
     Gui.object_dir := "['__class__', '__doc__', '__repr__']" |}.

(** A development version whose third component is a run of letters. *)
Definition dev_panel : Gui.environment string :=
  {| Gui.import_panel :=
       Gui.PanelVersion [Gui.VInt 0; Gui.VInt 9; Gui.VStr "dev"];
     Gui.init_gui := Ok tt;
     Gui.construct_gui := Ok tt;
     Gui.real_gui := fun _ => Ok "<GUI>";
     Gui.object_getattr := plain_object_getattr;
     Gui.object_dir := "['__class__', '__doc__', '__repr__']" |}.

Definition recent_panel : Gui.environment string :=
  {| Gui.import_panel := Gui.PanelVersion (Gui.numeric [0; 9; 5]);
     Gui.init_gui := Ok tt;
     Gui.construct_gui := Ok tt;
     Gui.real_gui := fun _ => Ok "<GUI>";
     Gui.object_getattr := plain_object_getattr;
     Gui.object_dir := "['__class__', '__doc__', '__repr__']" |}.

End Examples.

(** * Properties *)

(** ** Strings and paths *)

Example dirname_a_b : OsPath.dirname "/a/b" = "/a".
Proof. reflexivity. Qed.

Example dirname_a : OsPath.dirname "/a" = "/".
Proof. reflexivity. Qed.

Example dirname_rel : OsPath.dirname "a" = "".
Proof. reflexivity. Qed.

Example dirname_slashes : OsPath.dirname "//a//b//c" = "//a//b".
Proof. reflexivity. Qed.

Example join_abs : OsPath.join "/a/" "/b" = "/b".
Proof. reflexivity. Qed.

Example join_nosep : OsPath.join "/a" "b" = "/a/b".
Proof. reflexivity. Qed.

Example rstrip_ex : OsPath.rstrip_sep "/a/b///" = "/a/b".
Proof. reflexivity. Qed.

Example endswith_ex : OsPath.endswith "cat.yaml" "yaml" = true.
Proof. reflexivity. Qed.

Section StringFacts.

Lemma rev_string_acc_app (s acc : string) :
  OsPath.rev_string_acc s acc = (OsPath.rev_string s ++ acc)%string.
Proof.
  unfold OsPath.rev_string.
  revert acc; induction s as [|c s IH]; intros acc; simpl.
  - reflexivity.
  - rewrite IH, (IH (String c EmptyString)).
    clear IH. induction (OsPath.rev_string_acc s "") as [|d r IHr]; simpl.
    + reflexivity.
    + now rewrite IHr.
Qed.

Lemma string_app_assoc (a b c : string) :
  ((a ++ b) ++ c = a ++ (b ++ c))%string.
Proof. induction a as [|x a IH]; simpl; [reflexivity | now rewrite IH]. Qed.

Lemma string_app_nil_r (a : string) : (a ++ "")%string = a.
Proof. induction a as [|x a IH]; simpl; [reflexivity | now rewrite IH]. Qed.

Lemma rev_string_app (a b : string) :
  OsPath.rev_string (a ++ b) = (OsPath.rev_string b ++ OsPath.rev_string a)%string.
Proof.
  induction a as [|x a IH]; simpl.
  - now rewrite string_app_nil_r.
  - unfold OsPath.rev_string in *; simpl.
    rewrite rev_string_acc_app, (rev_string_acc_app a).
    unfold OsPath.rev_string. rewrite IH. apply string_app_assoc.
Qed.

Lemma rev_string_involutive (a : string) :
  OsPath.rev_string (OsPath.rev_string a) = a.
Proof.
  induction a as [|x a IH]; [reflexivity|].
  change (String x a) with ((String x "") ++ a)%string.
  rewrite rev_string_app, rev_string_app, IH. reflexivity.
Qed.

Lemma prefix_app (p r : string) : String.prefix p (p ++ r) = true.
Proof.
  induction p as [|x p IH]; simpl.
  - destruct r; reflexivity.
  - destruct (ascii_dec x x) as [_|n]; [exact IH | now destruct n].
Qed.

Lemma prefix_exists (p s : string) :
  String.prefix p s = true -> exists r, s = (p ++ r)%string.
Proof.
  revert s; induction p as [|x p IH]; intros s H.
  - exists s. reflexivity.
  - destruct s as [|y s]; simpl in H; [discriminate|].
    destruct (ascii_dec x y) as [->|]; [|discriminate].
    destruct (IH _ H) as [r ->]. now exists r.
Qed.

(** [s.startswith(p)] holds exactly when [s] is [p] followed by something. *)
Lemma startswith_iff (s p : string) :
  OsPath.startswith s p = true <-> exists r, s = (p ++ r)%string.
Proof.
  split.
  - apply prefix_exists.
  - intros [r ->]. apply prefix_app.
Qed.

(** [s.endswith(p)] holds exactly when [s] is something followed by [p]. *)
Lemma endswith_iff (s p : string) :
  OsPath.endswith s p = true <-> exists r, s = (r ++ p)%string.
Proof.
  unfold OsPath.endswith. split.
  - intros H. apply prefix_exists in H as [r Hr].
    exists (OsPath.rev_string r).
    rewrite <- (rev_string_involutive s), Hr, rev_string_app.
    now rewrite rev_string_involutive.
  - intros [r ->]. rewrite rev_string_app. apply prefix_app.
Qed.

Lemma endswith_app (r p : string) : OsPath.endswith (r ++ p) p = true.
Proof. apply endswith_iff. now exists r. Qed.

End StringFacts.

(** ** FileSelector *)

Section FileSelectorFacts.

Variable fs : filesystem.

Import FileSelector.

(** The current directory always carries the trailing separator. *)
Lemma path_endswith_sep (s : t) : OsPath.endswith (path s) OsPath.sep = true.
Proof.
  unfold path.
  destruct (OsPath.endswith (path_text_value s) OsPath.sep) eqn:E.
  - exact E.
  - apply endswith_app.
Qed.

Lemma path_of_normalized (s : t) (p : string) :
  path_text_value s = p -> OsPath.endswith p OsPath.sep = true -> path s = p.
Proof. intros <- H. unfold path. now rewrite H. Qed.

Lemma validate_run (s : t) :
  validate fs s =
  (Ok tt,
   set_validator_object
     (if isdir fs (path s) then None else Some ICONS_error) s,
   []).
Proof.
  unfold validate, bind, get, modify.
  destruct (isdir fs (path s)); reflexivity.
Qed.

Lemma main_value_clear_run (s : t) :
  main_value_clear s =
  (Ok tt, set_main_value [] s,
   match main_value s with [] => [] | _ :: _ => [MainValueChanged []] end).
Proof.
  unfold main_value_clear, bind, get, modify, emit, ret.
  destruct s as [f c p v m o]; destruct m; reflexivity.
Qed.

(** [make_options] notifies [False] when a callback is configured; then,
    if the listing succeeds, it clears the selection and installs the
    entries; if the listing raises, it raises and assigns nothing. *)
Lemma make_options_run (s : t) :
  make_options fs s =
  match options_out fs s with
  | Ok out =>
      (Ok tt,
       set_main_options (dict (zip out out)) (set_main_value [] s),
       (if has_done_callback s then [DoneCallback false] else [])
       ++ match main_value s with
          | [] => []
          | _ :: _ => [MainValueChanged []]
          end)
  | Raise e =>
      (Raise e, s, if has_done_callback s then [DoneCallback false] else [])
  end.
Proof.
  unfold make_options, bind, get, when, lift_result.
  destruct (options_out fs s) as [out|e];
    destruct (has_done_callback s); unfold emit, ret; simpl;
    rewrite ?main_value_clear_run; unfold modify; simpl;
    rewrite ?app_nil_r; reflexivity.
Qed.

Lemma path_text_assign_run (v : string) (s : t) :
  path_text_assign fs v s =
  if String.eqb v (path_text_value s) then (Ok tt, s, [])
  else
    let s1 := set_validator_object
                (if isdir fs (path (set_path_text_value v s))
                 then None else Some ICONS_error)
                (set_path_text_value v s) in
    make_options fs s1.
Proof.
  unfold path_text_assign, bind, get. simpl.
  destruct (String.eqb v (path_text_value s)); [reflexivity|].
  unfold modify; simpl. rewrite validate_run. simpl.
  destruct (make_options fs _) as [[r s2] ev]. reflexivity.
Qed.

Lemma path_text_assign_value (v : string) (s : t) :
  path_text_value (state_of (path_text_assign fs v s)) = v.
Proof.
  rewrite path_text_assign_run.
  destruct (String.eqb_spec v (path_text_value s)) as [->|_].
  - reflexivity.
  - cbv zeta. rewrite make_options_run.
    destruct (options_out fs _); reflexivity.
Qed.

End FileSelectorFacts.

(** C4 (navigateUp).  From the directory [/a/b/], [move_up] makes [/a/] the
    current directory; applied again, from [/a/], the code makes it [//]
    and not [/]: [os.path.dirname("/a")] is already ["/"], and the separator
    is appended to it once more. *)
Theorem move_up_twice_from_a_b (fs : filesystem) (s : FileSelector.t) :
  let s0 := FileSelector.set_path_text_value "/a/b/" s in
  let s1 := state_of (FileSelector.move_up fs s0) in
  let s2 := state_of (FileSelector.move_up fs s1) in
  FileSelector.path s0 = "/a/b/" /\
  FileSelector.path s1 = "/a/" /\
  FileSelector.path_text_value s2 = "//" /\
  FileSelector.path s2 = "//" /\
  FileSelector.path s2 <> "/".
Proof.
  intros s0 s1 s2.
  assert (H1 : FileSelector.path_text_value s1 = "/a/").
  { subst s1. unfold FileSelector.move_up, bind, get.
    change (FileSelector.path s0) with "/a/b/".
    change (OsPath.dirname (OsPath.rstrip_sep "/a/b/") ++ OsPath.sep)%string
      with "/a/".
    pose proof (path_text_assign_value fs "/a/" s0) as H.
    unfold state_of in *.
    destruct (FileSelector.path_text_assign fs "/a/" s0) as [[r x] ev].
    destruct r; exact H. }
  assert (P1 : FileSelector.path s1 = "/a/").
  { apply path_of_normalized; [exact H1 | reflexivity]. }
  assert (H2 : FileSelector.path_text_value s2 = "//").
  { subst s2. unfold FileSelector.move_up, bind, get.
    rewrite P1.
    change (OsPath.dirname (OsPath.rstrip_sep "/a/") ++ OsPath.sep)%string
      with "//".
    pose proof (path_text_assign_value fs "//" s1) as H.
    unfold state_of in *.
    destruct (FileSelector.path_text_assign fs "//" s1) as [[r x] ev].
    destruct r; exact H. }
  assert (P2 : FileSelector.path s2 = "//").
  { apply path_of_normalized; [exact H2 | reflexivity]. }
  repeat split; try assumption.
  rewrite P2. discriminate.
Qed.

(** C6 (resolvedLocation).  With an entry selected, [url] is the current
    directory joined with the first selected entry.  With nothing selected,
    [selected] is the empty list, which is not [None]: [url] passes it to
    [os.path.join] and fails with a TypeError instead of being absent. *)
Theorem url_by_selection (s : FileSelector.t) :
  match FileSelector.main_value s with
  | x :: _ =>
      FileSelector.url s = Ok (Some (OsPath.join (FileSelector.path s) x))
  | [] =>
      FileSelector.url s <> Ok None /\
      exists msg, FileSelector.url s = Raise (TypeError msg)
  end.
Proof.
  unfold FileSelector.url, FileSelector.selected.
  destruct (FileSelector.main_value s) as [|x rest]; simpl.
  - split; [discriminate | eexists; reflexivity].
  - reflexivity.
Qed.

(** ** Sorting and the entries of a listing *)

Section SortingFacts.

Import Entries.

Lemma ascii_compare_refl (a : ascii) : Ascii.compare a a = Eq.
Proof. unfold Ascii.compare. apply N.compare_refl. Qed.

Lemma ascii_compare_lt_trans (a b c : ascii) :
  Ascii.compare a b = Lt -> Ascii.compare b c = Lt -> Ascii.compare a c = Lt.
Proof.
  unfold Ascii.compare. rewrite !N.compare_lt_iff. apply N.lt_trans.
Qed.

Lemma string_compare_trans (a b c : string) :
  String.compare a b <> Gt -> String.compare b c <> Gt ->
  String.compare a c <> Gt.
Proof.
  revert b c; induction a as [|x a IH]; intros [|y b] [|z c]; simpl;
    try congruence.
  destruct (Ascii.compare x y) eqn:Exy; try congruence;
    destruct (Ascii.compare y z) eqn:Eyz; try congruence.
  - apply Ascii.compare_eq_iff in Exy, Eyz. subst.
    rewrite ascii_compare_refl. apply IH.
  - apply Ascii.compare_eq_iff in Exy. subst. rewrite Eyz. congruence.
  - apply Ascii.compare_eq_iff in Eyz. subst. rewrite Exy. congruence.
  - rewrite (ascii_compare_lt_trans _ _ _ Exy Eyz). congruence.
Qed.

Lemma leb_compare (a b : string) :
  String.leb a b = true <-> String.compare a b <> Gt.
Proof.
  unfold String.leb. destruct (String.compare a b); split; congruence.
Qed.

Lemma str_le_trans : Relations_1.Transitive str_le.
Proof.
  intros a b c. unfold str_le. rewrite !leb_compare.
  apply string_compare_trans.
Qed.

Lemma insert_perm (x : string) (l : list string) :
  Permutation (insert x l) (x :: l).
Proof.
  induction l as [|y l IH]; simpl.
  - reflexivity.
  - destruct (String.leb x y).
    + reflexivity.
    + rewrite IH. apply perm_swap.
Qed.

(** [sorted] rearranges its argument. *)
Lemma sorted_perm (l : list string) : Permutation (sorted l) l.
Proof.
  induction l as [|x l IH]; simpl.
  - reflexivity.
  - rewrite insert_perm. now constructor.
Qed.

Lemma insert_sorted (x : string) (l : list string) :
  Sorted str_le l -> Sorted str_le (insert x l).
Proof.
  induction 1 as [|y l Hl IH Hd]; simpl.
  - repeat constructor.
  - destruct (String.leb x y) eqn:E.
    + constructor; [now constructor | constructor; exact E].
    + constructor; [exact IH|].
      assert (Hyx : str_le y x).
      { destruct (String.leb_total x y) as [H|H]; [congruence | exact H]. }
      destruct l as [|z l]; simpl.
      * constructor; exact Hyx.
      * destruct (String.leb x z); constructor; [exact Hyx|].
        now inversion Hd.
Qed.

(** [sorted] yields an ascending list. *)
Lemma sorted_ascending (l : list string) : StronglySorted str_le (sorted l).
Proof.
  apply Sorted_StronglySorted; [exact str_le_trans|].
  induction l as [|x l IH]; simpl.
  - constructor.
  - now apply insert_sorted.
Qed.

Lemma StronglySorted_filter (f : string -> bool) (l : list string) :
  StronglySorted str_le l -> StronglySorted str_le (filter f l).
Proof.
  induction 1 as [|x l Hl IH Hx]; simpl.
  - constructor.
  - destruct (f x); [|exact IH].
    constructor; [exact IH|].
    rewrite Forall_forall in *. intros y Hy.
    apply filter_In in Hy. now apply Hx.
Qed.

Lemma keys_dict_set (d : pydict) (k v : string) :
  keys (dict_set d k v) = add_key (keys d) k.
Proof.
  unfold add_key.
  induction d as [|[k' v'] d IH]; simpl.
  - reflexivity.
  - destruct (String.eqb k k'); simpl.
    + reflexivity.
    + rewrite IH. now destruct (existsb (String.eqb k) (keys d)).
Qed.

Lemma keys_fold_dict_set (pairs : list (string * string)) (d : pydict) :
  keys (fold_left (fun d kv => dict_set d (fst kv) (snd kv)) pairs d) =
  fold_left add_key (map fst pairs) (keys d).
Proof.
  revert d; induction pairs as [|[k v] pairs IH]; intros d; simpl.
  - reflexivity.
  - rewrite IH, keys_dict_set. reflexivity.
Qed.

Lemma map_fst_zip (l : list string) : map fst (zip l l) = l.
Proof.
  unfold zip. induction l as [|x l IH]; simpl; [reflexivity | now rewrite IH].
Qed.

(** The keys of [dict(zip(out, out))] are the entries of [out], each at its
    first occurrence. *)
Lemma keys_dict_zip (out : list string) :
  keys (dict (zip out out)) = first_occurrences out.
Proof.
  unfold dict, first_occurrences.
  now rewrite keys_fold_dict_set, map_fst_zip.
Qed.

Lemma existsb_eqb_In (k : string) (ks : list string) :
  existsb (String.eqb k) ks = true <-> In k ks.
Proof.
  rewrite existsb_exists. split.
  - intros [y [Hy E]]. apply String.eqb_eq in E. now subst.
  - intros H. exists k. split; [exact H | apply String.eqb_refl].
Qed.

Lemma fold_add_key_In (l ks : list string) (e : string) :
  In e (fold_left add_key l ks) <-> In e ks \/ In e l.
Proof.
  revert ks; induction l as [|k l IH]; intros ks; simpl.
  - tauto.
  - rewrite IH. unfold add_key.
    destruct (existsb (String.eqb k) ks) eqn:E.
    + apply existsb_eqb_In in E. split; [tauto|].
      intros [H|[->|H]]; tauto.
    + rewrite in_app_iff. simpl. tauto.
Qed.

Lemma first_occurrences_In (l : list string) (e : string) :
  In e (first_occurrences l) <-> In e l.
Proof. unfold first_occurrences. rewrite fold_add_key_In. simpl. tauto. Qed.

Lemma fold_add_key_NoDup (l ks : list string) :
  NoDup (ks ++ l) -> fold_left add_key l ks = ks ++ l.
Proof.
  revert ks; induction l as [|k l IH]; intros ks H; simpl.
  - now rewrite app_nil_r.
  - unfold add_key at 2.
    destruct (existsb (String.eqb k) ks) eqn:E.
    + apply existsb_eqb_In in E. apply NoDup_remove_2 in H.
      exfalso. apply H. apply in_or_app. now left.
    + change (k :: l) with ([k] ++ l) in *. rewrite app_assoc in *.
      now apply IH.
Qed.

(** Without repeats, every entry is its own first occurrence. *)
Lemma first_occurrences_NoDup (l : list string) :
  NoDup l -> first_occurrences l = l.
Proof. intros H. unfold first_occurrences. now rewrite fold_add_key_NoDup. Qed.

Lemma dict_set_self (d : pydict) (k : string) :
  (forall a b, In (a, b) d -> a = b) ->
  forall a b, In (a, b) (dict_set d k k) -> a = b.
Proof.
  induction d as [|[k' v'] d IH]; simpl; intros Hd a b.
  - intros [E|[]]. congruence.
  - destruct (String.eqb_spec k k') as [->|_]; simpl.
    + intros [E|H]; [congruence | now apply Hd; right].
    + intros [E|H]; [now apply Hd; left|].
      apply IH; [|exact H]. intros x y Hxy. apply Hd. now right.
Qed.

(** Every option of [dict(zip(out, out))] maps an entry to itself. *)
Lemma dict_zip_self (out : list string) :
  forall a b, In (a, b) (dict (zip out out)) -> a = b.
Proof.
  unfold dict.
  assert (G : forall l d, (forall a b, In (a, b) d -> a = b) ->
            forall a b,
              In (a, b) (fold_left (fun d kv => dict_set d (fst kv) (snd kv))
                           (zip l l) d) -> a = b).
  { induction l as [|x l IH]; simpl; intros d Hd a b H.
    - now apply Hd.
    - apply (IH _ (dict_set_self d x Hd) a b H). }
  apply G. intros a b [].
Qed.

Variable fs : filesystem.

(** The loop of [make_options] annotates the names that are kept, in the
    order in which it meets them. *)
Lemma collect_map_filter (flt : list string) (dir : string)
  (names : list string) :
  FileSelector.collect fs flt dir names =
  map (annotate fs dir) (filter (keep fs flt dir) names).
Proof.
  unfold keep, annotate, hidden, subdir, matches.
  induction names as [|f rest IH]; simpl.
  - reflexivity.
  - destruct (OsPath.startswith f "."); simpl; [exact IH|].
    destruct (isdir fs (OsPath.join dir f)) eqn:D; simpl.
    + rewrite D, IH. reflexivity.
    + destruct (existsb (fun ext => OsPath.endswith f ext) flt); simpl.
      * rewrite D, IH. reflexivity.
      * exact IH.
Qed.

Lemma keep_iff (flt : list string) (dir f : string) :
  keep fs flt dir f = true <->
  hidden f = false /\
  (subdir fs dir f = true \/
   exists ext, In ext flt /\ OsPath.endswith f ext = true).
Proof.
  unfold keep, matches.
  rewrite andb_true_iff, negb_true_iff, orb_true_iff, existsb_exists.
  tauto.
Qed.

End SortingFacts.

(** C5 (refreshEntries), as the code has it.  When the current directory is
    not a valid directory, [make_options] resets the selection and the
    entries are empty.  When it is a valid directory whose listing succeeds,
    [make_options] resets the selection and the entries are exactly the
    non-hidden subdirectories, shown with the separator appended, and the
    non-hidden other names that end with one of the filters; they come in
    the ascending order of the names as they are in the directory (the
    separator is appended after sorting), each entry mapped to itself.
    When the listing itself raises, so does [make_options]. *)
Theorem make_options_entries (fs : filesystem) (s : FileSelector.t) :
  let run := FileSelector.make_options fs s in
  let s' := state_of run in
  let dir := FileSelector.path s in
  let flt := FileSelector.filters s in
  let entries := keys (FileSelector.main_options s') in
  if isdir fs dir then
    match listdir fs dir with
    | Raise e => result_of run = Raise e
    | Ok names =>
        let kept := filter (Entries.keep fs flt dir) (sorted names) in
        result_of run = Ok tt /\
        FileSelector.main_value s' = [] /\
        (forall a b, In (a, b) (FileSelector.main_options s') -> a = b) /\
        entries
          = Entries.first_occurrences (map (Entries.annotate fs dir) kept) /\
        (NoDup (map (Entries.annotate fs dir) kept) ->
         entries = map (Entries.annotate fs dir) kept) /\
        StronglySorted Entries.str_le kept /\
        (forall f, In f kept <->
           In f names /\ Entries.hidden f = false /\
           (Entries.subdir fs dir f = true \/
            exists ext, In ext flt /\ OsPath.endswith f ext = true)) /\
        (forall e, In e entries <->
           exists f, In f names /\ Entries.hidden f = false /\
             ((Entries.subdir fs dir f = true /\
               e = (f ++ OsPath.sep)%string) \/
              (Entries.subdir fs dir f = false /\
               (exists ext, In ext flt /\ OsPath.endswith f ext = true) /\
               e = f)))
    end
  else
    result_of run = Ok tt /\
    FileSelector.main_value s' = [] /\
    FileSelector.main_options s' = [].
Proof.
  intros run s' dir flt entries.
  subst run s' entries. rewrite make_options_run.
  unfold FileSelector.options_out. fold dir flt.
  destruct (isdir fs dir) eqn:D;
    [|unfold result_of, state_of; simpl; repeat split].
  destruct (listdir fs dir) as [names|e]; [|reflexivity].
  unfold result_of, state_of; simpl.
  split; [reflexivity|]. split; [reflexivity|].
  split; [apply dict_zip_self|].
  rewrite keys_dict_zip, collect_map_filter.
  set (kept := filter (Entries.keep fs flt dir) (sorted names)).
  assert (Hkept : forall f, In f kept <->
       In f names /\ Entries.hidden f = false /\
       (Entries.subdir fs dir f = true \/
        exists ext, In ext flt /\ OsPath.endswith f ext = true)).
  { intros f. subst kept. rewrite filter_In, keep_iff.
    split; intros [H1 H2]; (split; [|exact H2]).
    - eapply Permutation_in; [apply sorted_perm | exact H1].
    - eapply Permutation_in; [symmetry; apply sorted_perm | exact H1]. }
  split; [reflexivity|].
  split; [intros N; now apply first_occurrences_NoDup|].
  split; [apply StronglySorted_filter, sorted_ascending|].
  split; [exact Hkept|].
  intros e. rewrite first_occurrences_In, in_map_iff. split.
  - intros [f [Hf Hin]]. apply Hkept in Hin as [Hl [Hh Hk]].
    exists f. split; [exact Hl|]. split; [exact Hh|].
    unfold Entries.annotate in Hf.
    destruct (Entries.subdir fs dir f) eqn:Sd.
    + left. split; [reflexivity | now symmetry].
    + right. split; [reflexivity|]. split; [|now symmetry].
      destruct Hk as [Hk|Hk]; [discriminate | exact Hk].
  - intros [f [Hl [Hh Hc]]]. exists f. split.
    + unfold Entries.annotate.
      destruct Hc as [[Sd ->]|[Sd [_ ->]]]; now rewrite Sd.
    + apply Hkept. split; [exact Hl|]. split; [exact Hh|].
      destruct Hc as [[Sd _]|[_ [He _]]]; [now left | now right].
Qed.

(** C5 as stated fails on the order: in a directory with the subdirectory
    [data] and the file [data.yaml], the entries are [data/] and then
    [data.yaml], although ["data.yaml" < "data/"]. *)
Lemma make_options_entries_not_ascending :
  let s := FileSelector.fresh Examples.tree FileSelector.default_filters true in
  let s' := state_of (FileSelector.make_options Examples.tree s) in
  FileSelector.path s = "/a/b/" /\
  keys (FileSelector.main_options s') = ["data/"; "data.yaml"; "x.yml"] /\
  String.ltb "data.yaml" "data/" = true /\
  ~ Sorted Entries.str_le (keys (FileSelector.main_options s')).
Proof.
  cbv zeta.
  split; [reflexivity|]. split; [reflexivity|]. split; [reflexivity|].
  change (keys _) with ["data/"; "data.yaml"; "x.yml"].
  intros H. inversion H as [|a l Hs Hd]; subst.
  inversion Hd as [|b l' Hle]; subst.
  unfold Entries.str_le in Hle. vm_compute in Hle. discriminate.
Qed.

(** On the example tree the hidden catalog and the text file are left out. *)
Example make_options_tree :
  keys (FileSelector.main_options
          (state_of (FileSelector.make_options Examples.tree
             (FileSelector.fresh Examples.tree FileSelector.default_filters true))))
  = ["data/"; "data.yaml"; "x.yml"].
Proof. reflexivity. Qed.

(** ** CatAdder: the confirm action *)

Section CatAdderFacts.

Variable catalog : Type.
Variable open_catalog : option string -> result catalog.

Import CatAdder.

(** Reading [cat_url] changes nothing and calls nothing. *)
Lemma cat_url_pure (s : t) :
  state_of (cat_url catalog s) = s /\ events_of (cat_url catalog s) = [].
Proof.
  unfold cat_url, bind, get, lift_result, ret, state_of, events_of.
  simpl. destruct (index2 Local Remote (tabs_active s)) as [[|]|e]; simpl.
  - destruct (FileSelector.url (fs s)); simpl; auto.
  - auto.
  - auto.
Qed.

Lemma cat_run (s : t) :
  cat catalog open_catalog s =
  match result_of (cat_url catalog s) with
  | Ok u => (open_catalog u, s, [OpenCatalog u])
  | Raise e => (Raise e, s, [])
  end.
Proof.
  unfold cat, bind.
  destruct (cat_url_pure s) as [Hs He].
  unfold state_of, events_of, result_of in *.
  destruct (cat_url catalog s) as [[r s1] ev]; simpl in *; subst.
  destruct r as [u|e]; [|reflexivity].
  unfold emit, lift_result; simpl. destruct (open_catalog u); reflexivity.
Qed.

End CatAdderFacts.

(** C1.  Whenever building the catalog handle fails, or the handle is built
    and calling the done-callback with it fails, [add_cat] sets the error
    indicator, raises that same failure to its caller and changes nothing
    else: the visible flag is as before, so a visible component stays
    visible. *)
Theorem add_cat_failure (catalog : Type)
  (open_catalog : option string -> result catalog)
  (done_callback : option (catalog -> result unit))
  (s : CatAdder.t) (e : exn) :
  result_of (CatAdder.cat catalog open_catalog s) = Raise e \/
  (exists c,
     result_of (CatAdder.cat catalog open_catalog s) = Ok c /\
     result_of (CatAdder.call_done_callback catalog done_callback c s)
       = Raise e) ->
  let run := CatAdder.add_cat catalog open_catalog done_callback s in
  result_of run = Raise e /\
  CatAdder.validator_object (state_of run) = Some ICONS_error /\
  CatAdder.visible (state_of run) = CatAdder.visible s /\
  (CatAdder.visible s = true -> CatAdder.visible (state_of run) = true) /\
  state_of run = CatAdder.set_validator_object (Some ICONS_error) s.
Proof.
  intros H run.
  assert (G : result_of run = Raise e /\
              state_of run = CatAdder.set_validator_object (Some ICONS_error) s).
  { subst run. unfold CatAdder.add_cat, try_except, bind.
    rewrite cat_run in *.
    destruct (result_of (CatAdder.cat_url catalog s)) as [u|e0];
      unfold result_of, state_of in *; simpl in *.
    - destruct (open_catalog u) as [c|e0]; simpl in *.
      + destruct H as [H|[c' [Hc H]]]; [discriminate|].
        injection Hc as <-.
        unfold CatAdder.call_done_callback in *.
        destruct done_callback as [f|]; simpl in *.
        * unfold bind, emit, lift_result in *; simpl in *.
          destruct (f c) as [[]|e1]; simpl in *; [discriminate|].
          injection H as <-. split; reflexivity.
        * unfold raise in *; simpl in *. injection H as <-.
          split; reflexivity.
      + destruct H as [H|[c' [Hc _]]]; [|discriminate].
        injection H as <-. split; reflexivity.
    - destruct H as [H|[c' [Hc _]]]; [|discriminate].
      injection H as <-. split; reflexivity. }
  destruct G as [G1 G2]. rewrite G2.
  repeat split; auto.
Qed.

(** The confirm action on the location [/tmp/nonexistent.yaml], where no
    catalog is. *)
Lemma add_cat_failure_witness :
  let s := Examples.remote "/tmp/nonexistent.yaml" in
  let run := CatAdder.add_cat string Examples.open_catalog
               Examples.accepting_callback s in
  CatAdder.visible s = true /\
  result_of run = Raise (OtherError "FileNotFoundError" "/tmp/nonexistent.yaml") /\
  CatAdder.validator_object (state_of run) = Some ICONS_error /\
  CatAdder.visible (state_of run) = true.
Proof.
  cbv zeta.
  pose proof (add_cat_failure string Examples.open_catalog
                Examples.accepting_callback
                (Examples.remote "/tmp/nonexistent.yaml")
                (OtherError "FileNotFoundError" "/tmp/nonexistent.yaml")
                (or_introl eq_refl)) as H.
  cbv zeta in H. destruct H as [H1 [H2 [H3 [H4 _]]]].
  split; [reflexivity|]. split; [exact H1|]. split; [exact H2|].
  apply H4. reflexivity.
Defined.

(** C2.  Whenever the location resolves, the catalog is built and the
    done-callback accepts it, [add_cat] opens the catalog once, calls the
    done-callback exactly once, with that handle, and then hides the
    component; nothing else changes. *)
Theorem add_cat_success (catalog : Type)
  (open_catalog : option string -> result catalog)
  (f : catalog -> result unit)
  (s : CatAdder.t) (u : option string) (c : catalog) :
  result_of (CatAdder.cat_url catalog s) = Ok u ->
  open_catalog u = Ok c ->
  f c = Ok tt ->
  let run := CatAdder.add_cat catalog open_catalog (Some f) s in
  result_of run = Ok tt /\
  events_of run = [CatAdder.OpenCatalog u; CatAdder.DoneCallback c] /\
  CatAdder.done_callback_calls catalog (events_of run) = [c] /\
  CatAdder.visible (state_of run) = false /\
  state_of run = CatAdder.visible_assign false s.
Proof.
  intros Hu Ho Hf run. subst run.
  unfold CatAdder.add_cat, try_except, bind.
  rewrite cat_run, Hu, Ho. simpl.
  unfold emit, lift_result; simpl. rewrite Hf. simpl.
  unfold result_of, events_of, state_of; simpl.
  repeat split.
Qed.

(** The confirm action on a location that holds a catalog. *)
Lemma add_cat_success_witness :
  let s := Examples.remote "https://example.org/cat.yml" in
  let run := CatAdder.add_cat string Examples.open_catalog
               (Some (fun _ => Ok tt)) s in
  CatAdder.visible s = true /\
  events_of run =
    [CatAdder.OpenCatalog (Some "https://example.org/cat.yml");
     CatAdder.DoneCallback "catalog at https://example.org/cat.yml"] /\
  CatAdder.visible (state_of run) = false.
Proof.
  cbv zeta.
  pose proof (add_cat_success string Examples.open_catalog (fun _ => Ok tt)
                (Examples.remote "https://example.org/cat.yml")
                (Some "https://example.org/cat.yml")
                "catalog at https://example.org/cat.yml"
                eq_refl eq_refl eq_refl) as H.
  cbv zeta in H. destruct H as [_ [H2 [_ [H4 _]]]].
  split; [reflexivity|]. split; [exact H2 | exact H4].
Defined.

(** C10.  [tab_change] never fails, calls nothing, clears the error
    indicator and never disables the confirm button: it enables it when the
    new tab is the remote one and leaves it alone otherwise.  So, from a
    fresh component (button disabled, nothing selected), going to the remote
    tab and back to the local one leaves the button enabled although no file
    is selected and the path was not touched. *)
Theorem tab_change_never_disables (catalog : Type) (filesys : filesystem)
  (s : CatAdder.t) (new : Z) :
  let run := CatAdder.tab_change catalog new s in
  let s0 := CatAdder.fresh catalog filesys in
  let s1 := state_of (CatAdder.tabs_active_assign catalog 1 s0) in
  let s2 := state_of (CatAdder.tabs_active_assign catalog 0 s1) in
  (result_of run = Ok tt /\ events_of run = [] /\
   CatAdder.validator_object (state_of run) = None /\
   state_of run =
     (if (new =? 1)%Z
      then CatAdder.set_widget_disabled false (CatAdder.remove_error s)
      else CatAdder.remove_error s) /\
   (CatAdder.widget_disabled s = false ->
    CatAdder.widget_disabled (state_of run) = false) /\
   (new = 1%Z -> CatAdder.widget_disabled (state_of run) = false)) /\
  (CatAdder.widget_disabled s0 = true /\
   CatAdder.tabs_active s0 = 0%Z /\
   CatAdder.tabs_active s1 = 1%Z /\
   CatAdder.widget_disabled s1 = false /\
   CatAdder.tabs_active s2 = 0%Z /\
   CatAdder.widget_disabled s2 = false /\
   CatAdder.fs s2 = CatAdder.fs s0 /\
   FileSelector.main_value (CatAdder.fs s2) = []).
Proof.
  intros run s0 s1 s2. split.
  - subst run. unfold CatAdder.tab_change, bind, modify, when, ret.
    unfold result_of, events_of, state_of.
    destruct (new =? 1)%Z eqn:E; simpl.
    + repeat split.
    + repeat split; auto; intros ->; discriminate.
  - subst s0 s1 s2.
    unfold CatAdder.fresh, CatAdder.in_fs.
    rewrite make_options_run.
    destruct (FileSelector.options_out filesys _); simpl; repeat split.
Qed.

(** ** Capturing and restoring state *)

Section RestoreFacts.

Variable fs : filesystem.

Import FileSelector.

(** Assigning the empty list to [main.value] is [main_value_clear]: the
    watcher [move_down] has nothing to do on an empty selection. *)
Lemma main_value_assign_nil (s : t) :
  main_value_assign fs [] s = main_value_clear s.
Proof.
  rewrite main_value_clear_run.
  unfold main_value_assign, bind, get; simpl.
  destruct s as [f c p v m o]; destruct m; reflexivity.
Qed.

(** The two cases of an assignment to the path text.  When the text is the
    one already there, nothing happens and nothing is notified.  Otherwise
    the text is assigned and the watchers run: [validate] sets the error
    indicator exactly when the new directory is not valid, [make_options]
    calls the callback, if one is configured, once with [False], and then
    lists the new directory: when the listing succeeds the selection is
    cleared and the entries are installed; when it raises, the assignment
    raises and the selection and the entries stay as they were. *)
Lemma path_text_assign_cases (v : string) (s : t) :
  let run := path_text_assign fs v s in
  let s' := state_of run in
  if String.eqb v (path_text_value s)
  then run = (Ok tt, s, [])
  else
    path_text_value s' = v /\
    Browse.indicator_current fs s' /\
    filters s' = filters s /\
    has_done_callback s' = has_done_callback s /\
    notifications (events_of run) =
      (if has_done_callback s then [false] else []) /\
    match options_out fs (set_path_text_value v s) with
    | Ok out =>
        result_of run = Ok tt /\
        main_value s' = [] /\
        main_options s' = dict (zip out out) /\
        Browse.listed fs s'
    | Raise e =>
        result_of run = Raise e /\
        main_value s' = main_value s /\
        main_options s' = main_options s
    end.
Proof.
  cbv zeta. rewrite path_text_assign_run.
  destruct (String.eqb v (path_text_value s)); [reflexivity|].
  cbv zeta. rewrite make_options_run.
  change (options_out fs
            (set_validator_object
               (if isdir fs (path (set_path_text_value v s))
                then None else Some ICONS_error)
               (set_path_text_value v s)))
    with (options_out fs (set_path_text_value v s)).
  cbn [has_done_callback main_value set_validator_object set_path_text_value].
  destruct (options_out fs (set_path_text_value v s)) as [out|e] eqn:O;
    unfold result_of, state_of, events_of; cbn [fst snd].
  - split; [reflexivity|]. split; [reflexivity|]. split; [reflexivity|].
    split; [reflexivity|]. split.
    { destruct (has_done_callback s), (main_value s); reflexivity. }
    split; [reflexivity|]. split; [reflexivity|]. split; [reflexivity|].
    exists out. split; [exact O | reflexivity].
  - split; [reflexivity|]. split; [reflexivity|]. split; [reflexivity|].
    split; [reflexivity|]. split.
    { destruct (has_done_callback s); reflexivity. }
    repeat split.
Qed.

Lemma path_text_assign_ok (v : string) (s : t) :
  Browse.assignable fs v s <-> result_of (path_text_assign fs v s) = Ok tt.
Proof.
  pose proof (path_text_assign_cases v s) as H. cbv zeta in H.
  unfold Browse.assignable.
  destruct (String.eqb v (path_text_value s)).
  - rewrite H. split; [reflexivity | now left].
  - destruct H as [_ [_ [_ [_ [_ H]]]]].
    destruct (options_out fs (set_path_text_value v s)) as [out|e].
    + destruct H as [H _]. split; [intros _; exact H|].
      intros _. right. now exists out.
    + destruct H as [H _]. rewrite H. split.
      * intros [E|[out E]]; discriminate.
      * discriminate.
Qed.

(** What an assignment to the path text keeps and what it notifies, in all
    its cases. *)
Lemma path_text_assign_props (v : string) (s : t) :
  let run := path_text_assign fs v s in
  path_text_value (state_of run) = v /\
  filters (state_of run) = filters s /\
  has_done_callback (state_of run) = has_done_callback s /\
  (main_value s = [] -> main_value (state_of run) = []) /\
  (result_of run = Ok tt \/ exists e, result_of run = Raise e) /\
  notifications (events_of run) =
    (if String.eqb v (path_text_value s) then []
     else if has_done_callback s then [false] else []).
Proof.
  pose proof (path_text_assign_cases v s) as H. cbv zeta in *.
  destruct (String.eqb_spec v (path_text_value s)) as [E|_].
  - rewrite H. repeat split; auto.
  - destruct H as [H1 [_ [H3 [H4 [H5 H6]]]]].
    split; [exact H1|]. split; [exact H3|]. split; [exact H4|].
    destruct (options_out fs (set_path_text_value v s)) as [out|e].
    + destruct H6 as [R [M _]]. split; [intros _; exact M|].
      split; [now left | exact H5].
    + destruct H6 as [R [M _]]. split; [intros E; now rewrite M|].
      split; [right; now exists e | exact H5].
Qed.

(** Restoring a state that holds no selection.  The path text is the
    restored one in any case, and [done_callback] is called exactly when the
    path text changes, through the watcher [make_options], with [False].
    The restore returns exactly when the assignment of the path text runs
    to its end, and then the selection is empty. *)
Lemma setstate_no_selection (st : state) (s : t) :
  st_selected st = PList [] ->
  let run := setstate fs st s in
  path_text_value (state_of run) = st_path st /\
  notifications (events_of run) =
    (if String.eqb (st_path st) (path_text_value s) then []
     else if has_done_callback s then [false] else []) /\
  (Browse.assignable fs (st_path st) s <-> result_of run = Ok tt) /\
  (result_of run = Ok tt -> main_value (state_of run) = []).
Proof.
  intros Hsel. cbv zeta. unfold setstate, bind. rewrite Hsel.
  destruct (path_text_assign_props (st_path st) s)
    as [H1 [_ [_ [_ [HR H4]]]]].
  pose proof (path_text_assign_ok (st_path st) s) as HA.
  unfold result_of, state_of, events_of in *.
  destruct (path_text_assign fs (st_path st) s) as [[r s1] ev1].
  cbn [fst snd] in *.
  destruct r as [[]|e].
  - cbn [main_value_assign_any].
    rewrite main_value_assign_nil, main_value_clear_run. cbn [fst snd].
    split; [exact H1|]. split.
    { unfold notifications in *. rewrite flat_map_app, H4.
      destruct (main_value s1); simpl; now rewrite app_nil_r. }
    split; [rewrite HA; tauto | reflexivity].
  - cbn [fst snd]. split; [exact H1|]. split; [exact H4|].
    split; [rewrite HA; tauto | discriminate].
Qed.

Lemma getstate_eq (s s' : t) :
  path_text_value s' = path s -> main_value s' = main_value s ->
  getstate s' = getstate s.
Proof.
  intros Hp Hm. unfold getstate, selected. rewrite Hm. f_equal.
  apply path_of_normalized; [exact Hp | apply path_endswith_sep].
Qed.

(** A FileSelector with nothing selected is reproduced by restoring its
    captured state into a FileSelector in which the assignment of the
    captured directory runs to its end. *)
Lemma setstate_getstate_no_selection (s s0 : t) :
  main_value s = [] ->
  Browse.assignable fs (path s) s0 ->
  let run := setstate fs (getstate s) s0 in
  result_of run = Ok tt /\ getstate (state_of run) = getstate s.
Proof.
  intros Hm Ha. cbv zeta.
  assert (Hsel : st_selected (getstate s) = PList []).
  { unfold getstate, selected; simpl. now rewrite Hm. }
  destruct (setstate_no_selection (getstate s) s0 Hsel) as [H1 [_ [H3 H4]]].
  cbn [st_path getstate] in *.
  apply H3 in Ha. split; [exact Ha|].
  apply getstate_eq; [exact H1 | rewrite Hm; now apply H4].
Qed.

End RestoreFacts.

(** C9, as the code has it.  [__setstate__] assigns the path text and the
    selection through the watched widgets.  For a state that holds no
    selection the path text becomes the restored one, and [done_callback]
    is called exactly when the restored path differs from the current path
    text: then the watcher [make_options] runs and, if a callback is
    configured, calls it once, with [False].  When the path text is
    unchanged there is no call at all.  When the assignment of the path
    text runs to its end, the restore returns with an empty selection. *)
Theorem setstate_notification (fs : filesystem) (st : FileSelector.state)
  (s : FileSelector.t) :
  FileSelector.st_selected st = PList [] ->
  let run := FileSelector.setstate fs st s in
  FileSelector.path_text_value (state_of run) = FileSelector.st_path st /\
  FileSelector.notifications (events_of run) =
    (if String.eqb (FileSelector.st_path st) (FileSelector.path_text_value s)
     then []
     else if FileSelector.has_done_callback s then [false] else []) /\
  (Browse.assignable fs (FileSelector.st_path st) s ->
   result_of run = Ok tt /\ FileSelector.main_value (state_of run) = []).
Proof.
  intros Hsel. cbv zeta.
  destruct (setstate_no_selection fs st s Hsel) as [H1 [H2 [H3 H4]]].
  split; [exact H1|]. split; [exact H2|].
  intros Ha. apply H3 in Ha. split; [exact Ha | now apply H4].
Qed.

(** Restoring the directory that a fresh FileSelector already shows. *)
Lemma setstate_notification_witness :
  let s := FileSelector.fresh Examples.tree FileSelector.default_filters true in
  let st := {| FileSelector.st_path := "/a/b/";
               FileSelector.st_selected := PList [] |} in
  FileSelector.st_selected st = PList [] /\
  FileSelector.notifications
    (events_of (FileSelector.setstate Examples.tree st s)) = [].
Proof.
  cbv zeta. split; [reflexivity|].
  pose proof (setstate_notification Examples.tree
                {| FileSelector.st_path := "/a/b/";
                   FileSelector.st_selected := PList [] |}
                (FileSelector.fresh Examples.tree
                   FileSelector.default_filters true)
                eq_refl) as H.
  cbv zeta in H. destruct H as [_ [H _]]. exact H.
Defined.

(** C9 as stated fails: the state captured from a FileSelector that was
    moved up to [/a/], restored into a fresh one (at [/a/b/], with a
    callback), calls [done_callback(False)]. *)
Lemma setstate_fires_notification :
  let fresh := FileSelector.fresh Examples.tree FileSelector.default_filters true in
  let st := FileSelector.getstate
              (state_of (FileSelector.move_up Examples.tree fresh)) in
  st = {| FileSelector.st_path := "/a/";
          FileSelector.st_selected := PList [] |} /\
  FileSelector.notifications
    (events_of (FileSelector.setstate Examples.tree st fresh)) = [false] /\
  FileSelector.notifications
    (events_of (FileSelector.setstate Examples.tree st fresh)) <> [].
Proof.
  cbv zeta. split; [reflexivity|]. split; [reflexivity | discriminate].
Qed.

Section CatAdderRestoreFacts.

Variable catalog : Type.
Variable filesys : filesystem.

Import CatAdder.

Lemma same_frame_refl (a : t) : same_frame a a.
Proof. repeat split. Qed.

Lemma same_frame_trans (a b c : t) :
  same_frame a b -> same_frame b c -> same_frame a c.
Proof.
  unfold same_frame. intros [? [? [? [? ?]]]] [? [? [? [? ?]]]].
  repeat split; congruence.
Qed.

Lemma on_fs_events_frame (evs : list FileSelector.event) (s : t) :
  same_frame (fold_left on_fs_event evs s) s.
Proof.
  revert s; induction evs as [|e evs IH]; intros s; simpl.
  - apply same_frame_refl.
  - eapply same_frame_trans; [apply IH|].
    destruct e; simpl; [repeat split|].
    destruct (watching s); repeat split.
Qed.

Lemma on_url_events_frame (evs : list URLSelector.event) (s : t) :
  same_frame (fold_left on_url_event evs s) s.
Proof.
  revert s; induction evs as [|e evs IH]; intros s; simpl.
  - apply same_frame_refl.
  - eapply same_frame_trans; [apply IH|].
    destruct e; simpl. destruct (watching s); repeat split.
Qed.

Lemma in_fs_frame {A} (m : M FileSelector.event FileSelector.t A) (s : t) :
  let run := in_fs catalog m s in
  result_of run = result_of (m (fs s)) /\
  events_of run = [] /\
  same_frame (state_of run) (set_fs (state_of (m (fs s))) s).
Proof.
  cbv zeta. unfold in_fs, result_of, events_of, state_of.
  destruct (m (fs s)) as [[r f] evs]; simpl.
  split; [reflexivity|]. split; [reflexivity|]. apply on_fs_events_frame.
Qed.

Lemma in_url_frame {A} (m : M URLSelector.event URLSelector.t A) (s : t) :
  let run := in_url catalog m s in
  result_of run = result_of (m (url s)) /\
  events_of run = [] /\
  same_frame (state_of run) (set_url (state_of (m (url s))) s).
Proof.
  cbv zeta. unfold in_url, result_of, events_of, state_of.
  destruct (m (url s)) as [[r u] evs]; simpl.
  split; [reflexivity|]. split; [reflexivity|]. apply on_url_events_frame.
Qed.

(** A fresh CatAdder is visible, on the local tab, with its watchers on;
    its FileSelector shows the working directory with nothing selected. *)
Lemma fresh_frame :
  let s := fresh catalog filesys in
  visible s = true /\ watching s = true /\ tabs_active s = 0%Z /\
  url s = URLSelector.fresh /\
  FileSelector.path_text_value (fs s) = (getcwd filesys ++ OsPath.sep)%string.
Proof.
  cbv zeta. unfold fresh, in_fs. rewrite make_options_run.
  destruct (FileSelector.options_out filesys _); simpl; repeat split.
Qed.

Lemma url_setstate_run (st : URLSelector.state) (u : URLSelector.t) :
  let run := URLSelector.setstate st u in
  result_of run = Ok tt /\
  URLSelector.main_value (state_of run) = URLSelector.st_url st.
Proof.
  cbv zeta. unfold URLSelector.setstate, URLSelector.main_value_assign.
  unfold bind, get; simpl.
  destruct (String.eqb_spec (URLSelector.st_url st) (URLSelector.main_value u))
    as [E|_]; simpl.
  - split; [reflexivity | now symmetry].
  - split; reflexivity.
Qed.

(** An assignment to [tabs.active]: a value that names a tab is stored, and
    the owner's state is otherwise that of [tab_change]; another value is
    refused and nothing changes. *)
Lemma tabs_active_assign_run (v : Z) (s : t) :
  let run := tabs_active_assign catalog v s in
  events_of run = [] /\
  visible (state_of run) = visible s /\
  fs (state_of run) = fs s /\ url (state_of run) = url s /\
  if (0 <=? v)%Z && (v <=? 1)%Z
  then result_of run = Ok tt /\ tabs_active (state_of run) = v
  else (exists msg, result_of run = Raise (ValueError msg)) /\
       state_of run = s.
Proof.
  cbv zeta. unfold tabs_active_assign, bind, get; cbn [fst snd].
  destruct (Z.ltb_spec v 0) as [L|L];
    destruct (Z.ltb_spec 1 v) as [U|U];
    destruct (Z.leb_spec 0 v) as [L'|L'];
    destruct (Z.leb_spec v 1) as [U'|U']; try lia;
    cbn [orb andb];
    try (unfold raise, result_of, state_of, events_of; cbn [fst snd];
         repeat split; eexists; reflexivity).
  destruct (Z.eqb_spec v (tabs_active s)) as [->|_]; simpl.
  - repeat split.
  - unfold when, tab_change, bind, modify, ret; simpl.
    destruct (watching s); simpl; [destruct (v =? 1)%Z|]; repeat split.
Qed.

(** Restoring a state without selection into any CatAdder, when the
    assignment of the restored directory runs to its end. *)
Lemma setstate_any_target (st : state) (s : t) :
  FileSelector.st_selected (st_local st) = PList [] ->
  Browse.assignable filesys (FileSelector.st_path (st_local st)) (fs s) ->
  let run := setstate catalog filesys st s in
  let v := match st_visible st with Some v => v | None => true end in
  events_of run = [] /\
  visible (state_of run) = v /\
  FileSelector.path_text_value (fs (state_of run))
    = FileSelector.st_path (st_local st) /\
  FileSelector.main_value (fs (state_of run)) = [] /\
  URLSelector.main_value (url (state_of run))
    = URLSelector.st_url (st_remote st) /\
  if v && negb ((0 <=? st_active st)%Z && (st_active st <=? 1)%Z)
  then (exists msg, result_of run = Raise (ValueError msg)) /\
       tabs_active (state_of run) = tabs_active s
  else result_of run = Ok tt /\
       tabs_active (state_of run)
         = (if v then st_active st else tabs_active s).
Proof.
  intros Hsel Ha. cbv zeta. unfold setstate, bind.
  pose proof (in_fs_frame
                (FileSelector.setstate filesys (st_local st)) s)
    as [R1 [E1 [V1 [_ [A1 [F1 U1]]]]]].
  destruct (setstate_no_selection filesys (st_local st) (fs s) Hsel)
    as [P1 [_ [Q1 M1]]].
  apply Q1 in Ha. specialize (M1 Ha).
  unfold result_of, events_of, state_of in *.
  destruct (in_fs catalog _ s) as [[r1 c1] ev1].
  cbn [fst snd] in *. rewrite Ha in R1. subst r1 ev1.
  cbn [set_fs visible tabs_active fs url] in *.
  pose proof (in_url_frame (URLSelector.setstate (st_remote st)) c1)
    as [R2 [E2 [V2 [_ [A2 [F2 U2]]]]]].
  destruct (url_setstate_run (st_remote st) (url c1)) as [Q2 G2].
  unfold result_of, events_of, state_of in *.
  destruct (in_url catalog _ c1) as [[r2 c2] ev2].
  cbn [fst snd] in *. rewrite Q2 in R2. subst r2 ev2.
  cbn [set_url visible tabs_active fs url] in *.
  unfold modify; cbn [fst snd app].
  unfold get; cbn [fst snd app].
  assert (Hp : FileSelector.path_text_value (fs c2)
               = FileSelector.st_path (st_local st)).
  { now rewrite F2, F1. }
  assert (Hm : FileSelector.main_value (fs c2) = []).
  { now rewrite F2, F1. }
  assert (Hu : URLSelector.main_value (url c2)
               = URLSelector.st_url (st_remote st)).
  { now rewrite U2. }
  assert (Ht : tabs_active c2 = tabs_active s) by congruence.
  destruct (match st_visible st with Some v => v | None => true end);
    cbn [visible_assign andb].
  - cbn [visible set_visible_field when].
    pose proof (tabs_active_assign_run (st_active st)
                  (set_visible_field true c2)) as [E3 [V3 [F3 [U3 C3]]]].
    unfold result_of, events_of, state_of in *.
    destruct (tabs_active_assign catalog _ _) as [[r3 c3] ev3].
    cbn [fst snd] in *. subst ev3.
    cbn [visible fs url set_visible_field] in *.
    rewrite V3, F3, U3.
    split; [reflexivity|]. split; [reflexivity|]. split; [exact Hp|].
    split; [exact Hm|]. split; [exact Hu|].
    destruct ((0 <=? st_active st)%Z && (st_active st <=? 1)%Z);
      cbn [negb].
    + exact C3.
    + destruct C3 as [C3 C4]. split; [exact C3|]. rewrite C4. exact Ht.
  - cbn [visible set_visible_field set_watching when ret fst snd app
         tabs_active fs url].
    repeat split; assumption.
Qed.

(** Restoring the captured state of a CatAdder whose FileSelector holds no
    selection into a fresh CatAdder. *)
Lemma setstate_getstate_fresh (s : t) :
  FileSelector.main_value (fs s) = [] ->
  Browse.assignable filesys (FileSelector.path (fs s))
    (fs (fresh catalog filesys)) ->
  (0 <= tabs_active s <= 1)%Z ->
  let run := setstate catalog filesys (getstate s) (fresh catalog filesys) in
  result_of run = Ok tt /\
  getstate (state_of run) =
    {| st_visible := Some (visible s);
       st_local := FileSelector.getstate (fs s);
       st_remote := URLSelector.getstate (url s);
       st_active := if visible s then tabs_active s else 0%Z |}.
Proof.
  intros Hm Ha Hb. cbv zeta.
  assert (Hsel : FileSelector.st_selected (st_local (getstate s)) = PList []).
  { cbn. unfold FileSelector.selected. now rewrite Hm. }
  destruct fresh_frame as [_ [_ [Fa _]]].
  destruct (setstate_any_target (getstate s) (fresh catalog filesys) Hsel Ha)
    as [_ [V [P [M [U T]]]]].
  cbv zeta in T.
  cbn [getstate st_visible st_local st_remote st_active
       FileSelector.getstate FileSelector.st_path
       URLSelector.getstate URLSelector.st_url] in *.
  assert (Hr : (0 <=? tabs_active s)%Z && (tabs_active s <=? 1)%Z = true).
  { apply andb_true_iff. split; apply Z.leb_le; lia. }
  rewrite Hr, andb_false_r in T. destruct T as [R T].
  split; [exact R|].
  unfold getstate at 1. rewrite V, T, Fa. f_equal.
  - apply getstate_eq; [exact P | now rewrite Hm].
  - unfold URLSelector.getstate, URLSelector.url. now rewrite U.
Qed.

End CatAdderRestoreFacts.

(** C3, as the code has it.  Restoring a captured state into a fresh
    component of the same kind returns and reproduces the captured
    observations in these cases: a URLSelector, always; a FileSelector with
    nothing selected, when the assignment of the captured directory runs to
    its end (it is the directory of the fresh component, or its listing
    succeeds); a CatAdder whose FileSelector is such and whose active tab
    names a tab, except that the active tab is restored only when the
    captured state is visible: a hidden state leaves the fresh component on
    its tab 0. *)
Theorem restore_captured_state (catalog : Type) (filesys : filesystem) :
  (forall s : URLSelector.t,
     let run := URLSelector.setstate (URLSelector.getstate s)
                  URLSelector.fresh in
     result_of run = Ok tt /\
     URLSelector.getstate (state_of run) = URLSelector.getstate s) /\
  (forall (flt : list string) (cb : bool) (s : FileSelector.t),
     FileSelector.main_value s = [] ->
     Browse.assignable filesys (FileSelector.path s)
       (FileSelector.fresh filesys flt cb) ->
     let run := FileSelector.setstate filesys (FileSelector.getstate s)
                  (FileSelector.fresh filesys flt cb) in
     result_of run = Ok tt /\
     FileSelector.getstate (state_of run) = FileSelector.getstate s) /\
  (forall s : CatAdder.t,
     FileSelector.main_value (CatAdder.fs s) = [] ->
     Browse.assignable filesys (FileSelector.path (CatAdder.fs s))
       (CatAdder.fs (CatAdder.fresh catalog filesys)) ->
     (0 <= CatAdder.tabs_active s <= 1)%Z ->
     let run := CatAdder.setstate catalog filesys (CatAdder.getstate s)
                  (CatAdder.fresh catalog filesys) in
     result_of run = Ok tt /\
     CatAdder.getstate (state_of run) =
       {| CatAdder.st_visible := Some (CatAdder.visible s);
          CatAdder.st_local := FileSelector.getstate (CatAdder.fs s);
          CatAdder.st_remote := URLSelector.getstate (CatAdder.url s);
          CatAdder.st_active :=
            if CatAdder.visible s then CatAdder.tabs_active s else 0%Z |}).
Proof.
  split; [|split].
  - intros s run. subst run.
    destruct (url_setstate_run (URLSelector.getstate s) URLSelector.fresh)
      as [H1 H2].
    split; [exact H1|].
    unfold URLSelector.getstate, URLSelector.url in *. now rewrite H2.
  - intros flt cb s Hm Ha. now apply setstate_getstate_no_selection.
  - intros s Hm Ha Hb. now apply setstate_getstate_fresh.
Qed.

(** A visible CatAdder on the remote tab is reproduced entirely. *)
Lemma restore_captured_state_witness :
  let s := Examples.remote "https://example.org/cat.yml" in
  FileSelector.main_value (CatAdder.fs s) = [] /\
  Browse.assignable Examples.tree (FileSelector.path (CatAdder.fs s))
    (CatAdder.fs (CatAdder.fresh string Examples.tree)) /\
  (0 <= CatAdder.tabs_active s <= 1)%Z /\
  CatAdder.visible s = true /\
  CatAdder.getstate
    (state_of (CatAdder.setstate string Examples.tree (CatAdder.getstate s)
                 (CatAdder.fresh string Examples.tree)))
  = CatAdder.getstate s.
Proof.
  cbv zeta.
  assert (A : Browse.assignable Examples.tree
                (FileSelector.path
                   (CatAdder.fs (Examples.remote "https://example.org/cat.yml")))
                (CatAdder.fs (CatAdder.fresh string Examples.tree))).
  { left. reflexivity. }
  assert (B : (0 <= CatAdder.tabs_active
                      (Examples.remote "https://example.org/cat.yml") <= 1)%Z).
  { vm_compute. split; discriminate. }
  split; [reflexivity|]. split; [exact A|]. split; [exact B|].
  split; [reflexivity|].
  destruct (restore_captured_state string Examples.tree) as [_ [_ H]].
  destruct (H (Examples.remote "https://example.org/cat.yml") eq_refl A B)
    as [_ H2].
  rewrite H2. reflexivity.
Defined.

(** C3 as stated fails on the active tab: a CatAdder that added a catalog
    from its remote tab is hidden with tab 1 active; its captured state,
    restored into a fresh CatAdder, leaves tab 0 active. *)
Lemma restore_hidden_loses_active_tab :
  let s := Examples.added_remote in
  let restored :=
    state_of (CatAdder.setstate string Examples.tree (CatAdder.getstate s)
                (CatAdder.fresh string Examples.tree)) in
  CatAdder.visible s = false /\
  CatAdder.tabs_active s = 1%Z /\
  CatAdder.tabs_active restored = 0%Z /\
  CatAdder.st_active (CatAdder.getstate restored) <>
  CatAdder.st_active (CatAdder.getstate s) /\
  CatAdder.getstate restored <> CatAdder.getstate s.
Proof.
  cbv zeta.
  split; [reflexivity|]. split; [reflexivity|]. split; [reflexivity|].
  split; [vm_compute; discriminate|].
  intros H. apply (f_equal CatAdder.st_active) in H.
  vm_compute in H. discriminate.
Qed.

(** ** The lazy GUI root *)

Section GuiFacts.

Variable value : Type.
Variable env : Gui.environment value.

Import Gui.

(** Once an instance is cached, every access goes to it and the factory
    does not run. *)
Lemma session_cached (l : list access) (i : instance) (n : nat) :
  session value env l {| _instance := Some i; created := n |} =
  (map (respond value env i) l,
   {| _instance := Some i; created := n |},
   map (Forward i) l).
Proof.
  induction l as [|a l IH]; simpl.
  - reflexivity.
  - unfold perform, _instantiate, bind, get, ret, emit, lift_result; simpl.
    rewrite IH. destruct (respond value env i a); reflexivity.
Qed.

Lemma factory_calls_forward (l : list access) (i : instance) :
  factory_calls (map (Forward i) l) = 0.
Proof.
  unfold factory_calls. induction l as [|a l IH]; simpl; [reflexivity | exact IH].
Qed.

Lemma factory_calls_repeat (l : list access) :
  factory_calls (map (fun _ => DoImport) l) = List.length l.
Proof.
  unfold factory_calls. induction l as [|a l IH]; simpl;
    [reflexivity | now rewrite IH].
Qed.

(** An access on an InstanceMaker that has nothing cached: the factory
    runs; when it yields a class and an instance, the instance is cached and
    answers; when it raises, the access raises and nothing is cached. *)
Lemma perform_uncached (a : access) (n : nat) :
  perform value env a {| _instance := None; created := n |} =
  match factory value env with
  | Ok c =>
      (respond value env {| id := n; cls := c |} a,
       {| _instance := Some {| id := n; cls := c |}; created := S n |},
       [DoImport; Forward {| id := n; cls := c |} a])
  | Raise e => (Raise e, {| _instance := None; created := n |}, [DoImport])
  end.
Proof.
  unfold perform, _instantiate, factory, bind, get, emit, modify, lift_result.
  cbn [fst snd _instance created].
  destruct (do_import value env) as [c|e]; [|reflexivity].
  destruct (construct value env c) as [[]|e]; [|reflexivity].
  cbn. destruct (respond value env _ a); reflexivity.
Qed.

(** A session on an InstanceMaker that has nothing cached. *)
Lemma session_uncached (l : list access) (n : nat) :
  session value env l {| _instance := None; created := n |} =
  match factory value env with
  | Ok c =>
      (map (respond value env {| id := n; cls := c |}) l,
       match l with
       | [] => {| _instance := None; created := n |}
       | _ :: _ =>
           {| _instance := Some {| id := n; cls := c |}; created := S n |}
       end,
       match l with
       | [] => []
       | _ :: _ => DoImport :: map (Forward {| id := n; cls := c |}) l
       end)
  | Raise e =>
      (map (fun _ => Raise e) l,
       {| _instance := None; created := n |},
       map (fun _ => DoImport) l)
  end.
Proof.
  destruct (factory value env) as [c|e] eqn:F.
  - destruct l as [|a l]; [reflexivity|].
    cbn [session]. rewrite perform_uncached, F, session_cached.
    reflexivity.
  - induction l as [|a l IH]; [reflexivity|].
    cbn [session]. rewrite perform_uncached, F, IH. reflexivity.
Qed.

Lemma contains_app_l (a b sub : string) :
  contains a sub = true -> contains (a ++ b) sub = true.
Proof.
  induction a as [|c a IH].
  - cbn [contains]. rewrite orb_false_r. intros H.
    destruct sub; [|discriminate]. destruct b; reflexivity.
  - change (String c a ++ b)%string with (String c (a ++ b)).
    cbn [contains]. rewrite !orb_true_iff. intros [H|H].
    + left. apply prefix_exists in H as [r Hr].
      change (String c (a ++ b)) with (String c a ++ b)%string.
      rewrite Hr, string_app_assoc. apply prefix_app.
    + right. now apply IH.
Qed.

(** Whatever the import error, the message of the first stub names panel. *)
Lemma install_message_names_panel (error : option string) :
  contains (install_message error) "panel" = true.
Proof.
  unfold install_message. apply contains_app_l. reflexivity.
Qed.

Lemma factory_fails_stub :
  factory_fails value env ->
  exists error,
    do_import value env = Ok (StubInstall error) /\
    factory value env = Ok (StubInstall error).
Proof.
  unfold factory_fails, factory, do_import.
  destruct (import_panel value env) as [e|e|v].
  - intros _. now exists (Some e).
  - intros [].
  - intros ->. now exists None.
Qed.

End GuiFacts.

(** C8, as the code has it.  For every sequence of calls of the four
    intercepted operations on a new InstanceMaker: when the factory
    ([do_import()] and then [GUI()]) yields an instance, it runs exactly
    once, before the first access is forwarded, the instance is cached, and
    every access, the first included, is forwarded to that one instance,
    whose answer is the outcome of the access; when the factory raises,
    nothing is cached, every access raises that failure and runs the
    factory again.  An attribute that normal lookup finds on the
    InstanceMaker is answered by the InstanceMaker itself: the factory does
    not run and nothing is forwarded; any other attribute goes through
    [__getattr__]. *)
Theorem factory_runs_once (value : Type) (env : Gui.environment value)
  (l : list Gui.access) :
  let run := Gui.session value env l Gui.init in
  match Gui.factory value env with
  | Ok c =>
      let i0 := {| Gui.id := 0; Gui.cls := c |} in
      fst (fst run) = map (Gui.respond value env i0) l /\
      snd run = match l with
                | [] => []
                | _ :: _ => Gui.DoImport :: map (Gui.Forward i0) l
                end /\
      Gui.factory_calls (snd run) = match l with [] => 0 | _ :: _ => 1 end /\
      Gui._instance (snd (fst run)) = match l with
                                      | [] => None
                                      | _ :: _ => Some i0
                                      end
  | Raise e =>
      fst (fst run) = map (fun _ => Raise e) l /\
      snd run = map (fun _ => Gui.DoImport) l /\
      Gui.factory_calls (snd run) = List.length l /\
      snd (fst run) = Gui.init
  end /\
  forall (attr : string) (s : Gui.t),
    let look := Gui.getattribute value env attr s in
    let call := Gui.perform value env (Gui.GetAttr attr) s in
    if Gui.found_by_normal_lookup value env attr
    then look = (Ok (Gui.OwnAttribute value attr), s, [])
    else
      state_of look = state_of call /\
      events_of look = events_of call /\
      result_of look =
        match result_of call with
        | Ok v => Ok (Gui.FromInstance value v)
        | Raise e => Raise e
        end.
Proof.
  cbv zeta. split.
  - unfold Gui.init. rewrite session_uncached.
    destruct (Gui.factory value env) as [c|e]; cbn [fst snd].
    + split; [reflexivity|]. split; [reflexivity|].
      destruct l as [|a l]; [repeat split|].
      split; [|reflexivity].
      change (Gui.factory_calls (Gui.DoImport :: ?x))
        with (S (Gui.factory_calls x)).
      now rewrite factory_calls_forward.
    + split; [reflexivity|]. split; [reflexivity|].
      split; [apply factory_calls_repeat | reflexivity].
  - intros attr s. cbv zeta. unfold Gui.getattribute.
    destruct (Gui.found_by_normal_lookup value env attr); [reflexivity|].
    unfold bind, ret, state_of, events_of, result_of.
    destruct (Gui.perform value env (Gui.GetAttr attr) s) as [[[v|e] s'] evs];
      cbn [fst snd]; rewrite ?app_nil_r; repeat split.
Qed.

(** C8 as stated fails.  With a panel whose version is [0.9.dev], the
    comparison of the versions raises: two accesses run the factory twice
    and nothing is cached.  And in any environment the attribute [__doc__],
    which every object has, is answered by the InstanceMaker itself: the
    factory does not run. *)
Lemma factory_runs_again :
  let run := Gui.session string Examples.dev_panel [Gui.Repr; Gui.Repr]
               Gui.init in
  (exists msg, fst (fst run) = [Raise (TypeError msg); Raise (TypeError msg)]) /\
  snd run = [Gui.DoImport; Gui.DoImport] /\
  Gui.factory_calls (snd run) = 2 /\
  Gui._instance (snd (fst run)) = None /\
  Gui.getattribute string Examples.recent_panel "__doc__" Gui.init =
    (Ok (Gui.OwnAttribute string "__doc__"), Gui.init, []).
Proof.
  cbv zeta. split; [eexists; reflexivity|]. repeat split.
Qed.

(** C7, as the code has it.  When the factory fails (panel missing or older
    than the minimum), the cached instance is a stub that defines
    [__repr__] only.  In every session each access gets the stub's answer:
    the string representation always raises the same RuntimeError, whose
    message names panel as the dependency to install; the other operations
    are those of a plain object, so member enumeration succeeds. *)
Theorem stub_answers (value : Type) (env : Gui.environment value)
  (l : list Gui.access) :
  Gui.factory_fails value env ->
  exists error,
    Gui.do_import value env = Ok (Gui.StubInstall error) /\
    fst (fst (Gui.session value env l Gui.init)) =
      map (Gui.stub value env (Gui.install_message error)) l /\
    Gui.stub value env (Gui.install_message error) Gui.Repr =
      Raise (RuntimeError (Gui.install_message error)) /\
    Gui.contains (Gui.install_message error) "panel" = true /\
    Gui.stub value env (Gui.install_message error) Gui.Dir =
      Ok (Gui.object_dir value env).
Proof.
  intros H. destruct (factory_fails_stub value env H) as [error [E F]].
  exists error. split; [exact E|].
  split.
  - unfold Gui.init. rewrite session_uncached, F. reflexivity.
  - split; [reflexivity|].
    split; [apply install_message_names_panel | reflexivity].
Qed.

(** A session without panel: the representation fails twice in the same
    way, an attribute is simply missing, the members are listed. *)
Lemma stub_answers_witness :
  Gui.factory_fails string Examples.no_panel /\
  fst (fst (Gui.session string Examples.no_panel
              [Gui.Repr; Gui.GetAttr "panel"; Gui.Dir; Gui.Repr] Gui.init)) =
  [Raise (RuntimeError
     (Gui.install_message (Some "No module named 'panel'")));
   Raise (AttributeError "'GUI' object has no attribute 'panel'");
   Ok "['__class__', '__doc__', '__repr__']";
   Raise (RuntimeError
     (Gui.install_message (Some "No module named 'panel'")))].
Proof.
  split; [exact I|].
  destruct (stub_answers string Examples.no_panel
              [Gui.Repr; Gui.GetAttr "panel"; Gui.Dir; Gui.Repr] I)
    as [error [E [R _]]].
  rewrite R. vm_compute in E. injection E as <-. reflexivity.
Defined.

(** C7 as stated fails: without panel, enumerating the members of the GUI
    root succeeds, and a missing attribute is reported by an AttributeError
    that names neither panel nor a version. *)
Lemma stub_use_that_succeeds :
  Gui.factory_fails string Examples.no_panel /\
  fst (fst (Gui.session string Examples.no_panel
              [Gui.Dir; Gui.GetAttr "panel"] Gui.init)) =
  [Ok "['__class__', '__doc__', '__repr__']";
   Raise (AttributeError "'GUI' object has no attribute 'panel'")] /\
  Gui.contains "'GUI' object has no attribute 'panel'" "0." = false.
Proof.
  split; [exact I|]. split; reflexivity.
Qed.

(** With a panel older than 0.9.5 the stub's message is the one that asks
    for [panel>=0.8.0], and reports the import error [False]. *)
Example old_panel_message :
  Gui.version_lt (Gui.numeric [0; 8; 3]) Gui.minimum_version = Ok true /\
  fst (fst (Gui.session string Examples.old_panel [Gui.Repr] Gui.init)) =
  [Raise (RuntimeError
     "Please install panel to use the GUI `conda install -c conda-forge panel>=0.8.0`. Import failed with error: False")].
Proof. split; reflexivity. Qed.

(** With panel 0.9.5 the real GUI answers, and the factory ran once. *)
Example recent_panel_session :
  Gui.session string Examples.recent_panel [Gui.Repr; Gui.Dir] Gui.init =
  ([Ok "<GUI>"; Ok "<GUI>"],
   {| Gui._instance := Some {| Gui.id := 0; Gui.cls := Gui.RealGUI |};
      Gui.created := 1 |},
   [Gui.DoImport;
    Gui.Forward {| Gui.id := 0; Gui.cls := Gui.RealGUI |} Gui.Repr;
    Gui.Forward {| Gui.id := 0; Gui.cls := Gui.RealGUI |} Gui.Dir]).
Proof. reflexivity. Qed.

(** A pre-release of a recent panel compares without failure: the letters
    come after the three numbers. *)
Example prerelease_is_recent :
  Gui.version_lt
    [Gui.VInt 0; Gui.VInt 9; Gui.VInt 5; Gui.VStr "a"; Gui.VInt 1]
    Gui.minimum_version = Ok false.
Proof. reflexivity. Qed.

(** ** Evaluations on the example tree *)

(** A fresh FileSelector has nothing selected: asking for its [url] fails. *)
Example url_of_fresh_raises :
  FileSelector.url
    (FileSelector.fresh Examples.tree FileSelector.default_filters true)
  = Raise (TypeError
      "join() argument must be str, bytes, or os.PathLike object, not 'list'").
Proof. reflexivity. Qed.

(** Selecting the catalog [data.yaml] notifies [True] and resolves to its
    full path. *)
Example select_data_yaml :
  let run := FileSelector.main_value_assign Examples.tree ["data.yaml"]
               (FileSelector.fresh Examples.tree
                  FileSelector.default_filters true) in
  FileSelector.notifications (events_of run) = [true] /\
  FileSelector.url (state_of run) = Ok (Some "/a/b/data.yaml").
Proof. split; reflexivity. Qed.

(** Selecting the subdirectory [data/] navigates into it and notifies
    [False], once through the watcher of the path text and once through the
    explicit [make_options]. *)
Example select_data_directory :
  let run := FileSelector.main_value_assign Examples.tree ["data/"]
               (FileSelector.fresh Examples.tree
                  FileSelector.default_filters true) in
  FileSelector.notifications (events_of run) = [false; false] /\
  FileSelector.path (state_of run) = "/a/b/data/" /\
  FileSelector.main_value (state_of run) = [].
Proof. repeat split. Qed.

(** A done-callback that fails: the catalog was opened, the callback was
    called once, the failure reaches the caller and the component stays
    visible with its error indicator. *)
Example add_cat_callback_fails :
  let run := CatAdder.add_cat string Examples.open_catalog
               Examples.failing_callback
               (Examples.remote "https://example.org/cat.yml") in
  run =
  (Raise (RuntimeError "callback failed"),
   CatAdder.set_validator_object (Some ICONS_error)
     (Examples.remote "https://example.org/cat.yml"),
   [CatAdder.OpenCatalog (Some "https://example.org/cat.yml");
    CatAdder.DoneCallback "catalog at https://example.org/cat.yml"]) /\
  CatAdder.visible (state_of run) = true.
Proof. split; reflexivity. Qed.

(** Without a done-callback the catalog is still opened, then calling
    [None] fails. *)
Example add_cat_without_callback :
  let run := CatAdder.add_cat string Examples.open_catalog None
               (Examples.remote "https://example.org/cat.yml") in
  result_of run = Raise (TypeError "'NoneType' object is not callable") /\
  events_of run = [CatAdder.OpenCatalog (Some "https://example.org/cat.yml")] /\
  CatAdder.validator_object (state_of run) = Some ICONS_error /\
  CatAdder.visible (state_of run) = true.
Proof. repeat split. Qed.

(** Remote tab and back, then confirm: the button is enabled with nothing
    selected, and the confirm action fails on the empty selection. *)
Example confirm_after_tab_round_trip :
  let s0 := CatAdder.fresh string Examples.tree in
  let s1 := state_of (CatAdder.tabs_active_assign string 1 s0) in
  let s2 := state_of (CatAdder.tabs_active_assign string 0 s1) in
  let run := CatAdder.add_cat string Examples.open_catalog
               Examples.accepting_callback s2 in
  CatAdder.widget_disabled s2 = false /\
  result_of run = Raise (TypeError
    "join() argument must be str, bytes, or os.PathLike object, not 'list'") /\
  events_of run = [] /\
  CatAdder.validator_object (state_of run) = Some ICONS_error.
Proof. repeat split. Qed.

(** * Further properties of the code *)

(** ** FileSelector: assignments and their watchers *)

Section FileSelectorRuns.

Variable fs : filesystem.

Import FileSelector.

Lemma list_eqb_eq (a b : list string) : list_eqb a b = true <-> a = b.
Proof.
  revert b; induction a as [|x a IH]; intros [|y b]; simpl;
    try (split; [discriminate | congruence]); [tauto|].
  rewrite andb_true_iff, String.eqb_eq, IH.
  split; [intros [-> ->]; reflexivity | intros H; injection H; auto].
Qed.

Lemma app_eq_self (a b : string) : (a ++ b)%string = a -> b = "".
Proof.
  induction a as [|c a IH]; simpl; [auto|].
  intros H. injection H. exact IH.
Qed.

(** A run of [main.value = v] that changes the value: the value is stored,
    [move_down] runs and, when it returns, the owner's watcher is told. *)
Lemma main_value_assign_changed (v : list string) (s : t) :
  list_eqb v (main_value s) = false ->
  main_value_assign fs v s =
  bind (move_down fs v) (fun _ => emit (MainValueChanged v))
    (set_main_value v s).
Proof.
  intros H. unfold main_value_assign, bind at 1, get. cbn [fst snd].
  rewrite H. unfold bind at 1, modify. cbn [fst snd app].
  destruct (bind (move_down fs v) (fun _ => emit (MainValueChanged v))
              (set_main_value v s)) as [[r x] ev].
  reflexivity.
Qed.

Lemma main_value_assign_same (v : list string) (s : t) :
  list_eqb v (main_value s) = true ->
  main_value_assign fs v s = (Ok tt, s, []).
Proof.
  intros H. unfold main_value_assign, bind, get. cbn [fst snd].
  now rewrite H.
Qed.

(** The run for a first entry that is not a directory entry. *)
Lemma main_value_assign_file_run (fn : string) (rest : list string) (s : t) :
  list_eqb (fn :: rest) (main_value s) = false ->
  OsPath.endswith fn OsPath.sep = false ->
  main_value_assign fs (fn :: rest) s =
  (Ok tt, set_main_value (fn :: rest) s,
   (if isfile fs (OsPath.join (path s) fn) && has_done_callback s
    then [DoneCallback true] else [])
   ++ [MainValueChanged (fn :: rest)]).
Proof.
  intros Hne Hfile. rewrite (main_value_assign_changed _ _ Hne).
  unfold bind at 1. unfold move_down. rewrite Hfile.
  unfold bind at 1, get. cbn [fst snd app].
  unfold url, selected, lift_result. cbn.
  unfold bind, when, emit, ret, lift_result. cbn.
  change (path (set_main_value (fn :: rest) s)) with (path s).
  destruct (isfile fs (OsPath.join (path s) fn) && has_done_callback s);
    reflexivity.
Qed.

(** The run for a first entry that is a directory entry: the assignment of
    the path text and then [make_options] once more; the owner's watcher is
    told only when both return. *)
Lemma main_value_assign_directory_run (fn : string) (rest : list string)
  (s : t) :
  list_eqb (fn :: rest) (main_value s) = false ->
  OsPath.endswith fn OsPath.sep = true ->
  main_value_assign fs (fn :: rest) s =
  let s1 := set_main_value (fn :: rest) s in
  let r1 := path_text_assign fs (path s ++ fn)%string s1 in
  match result_of r1 with
  | Raise e => (Raise e, state_of r1, events_of r1)
  | Ok _ =>
      let r2 := make_options fs (state_of r1) in
      match result_of r2 with
      | Raise e => (Raise e, state_of r2, events_of r1 ++ events_of r2)
      | Ok _ =>
          (Ok tt, state_of r2,
           events_of r1 ++ events_of r2 ++ [MainValueChanged (fn :: rest)])
      end
  end.
Proof.
  intros Hne Hdir. rewrite (main_value_assign_changed _ _ Hne).
  cbv zeta. unfold bind at 1. unfold move_down. rewrite Hdir.
  unfold bind at 1, get. cbn [fst snd app].
  change (path (set_main_value (fn :: rest) s)) with (path s).
  unfold bind at 1, result_of, state_of, events_of.
  destruct (path_text_assign fs (path s ++ fn)%string
              (set_main_value (fn :: rest) s)) as [[[[]|e] s2] ev1];
    cbn [fst snd]; [|reflexivity].
  destruct (make_options fs s2) as [[[[]|e] s3] ev2]; cbn [fst snd].
  - unfold emit. cbn [fst snd]. now rewrite <- app_assoc.
  - reflexivity.
Qed.

End FileSelectorRuns.

(** X1.  The current directory that [path] reports always ends with the
    separator: it is the path text itself when that already ends with one,
    and the path text followed by one otherwise; writing it back into the
    path text does not change it. *)
Theorem path_is_normalized (s : FileSelector.t) :
  OsPath.endswith (FileSelector.path s) OsPath.sep = true /\
  (exists r, FileSelector.path s = (r ++ OsPath.sep)%string) /\
  FileSelector.path s =
    (if OsPath.endswith (FileSelector.path_text_value s) OsPath.sep
     then FileSelector.path_text_value s
     else (FileSelector.path_text_value s ++ OsPath.sep)%string) /\
  FileSelector.path
    (FileSelector.set_path_text_value (FileSelector.path s) s)
  = FileSelector.path s.
Proof.
  pose proof (path_endswith_sep s) as H.
  split; [exact H|]. split; [now apply endswith_iff|].
  split; [reflexivity|].
  apply path_of_normalized; [reflexivity | exact H].
Qed.

(** X2.  Assigning the path text.  When the text is the one already there,
    nothing happens and nothing is notified.  Otherwise the text is
    assigned and the watchers run in their order: the error indicator is
    set exactly when the new directory is not valid and the callback, if
    configured, is called once with [False], also when the listing of the
    new directory then raises; when the listing succeeds the selection is
    cleared and the entries are the listing; when it raises, the
    assignment raises and the selection and the entries stay as they
    were. *)
Theorem path_text_assign_refreshes (fs : filesystem) (v : string)
  (s : FileSelector.t) :
  let run := FileSelector.path_text_assign fs v s in
  let s' := state_of run in
  if String.eqb v (FileSelector.path_text_value s)
  then run = (Ok tt, s, [])
  else
    FileSelector.path_text_value s' = v /\
    Browse.indicator_current fs s' /\
    FileSelector.filters s' = FileSelector.filters s /\
    FileSelector.has_done_callback s' = FileSelector.has_done_callback s /\
    FileSelector.notifications (events_of run) =
      (if FileSelector.has_done_callback s then [false] else []) /\
    match FileSelector.options_out fs
            (FileSelector.set_path_text_value v s) with
    | Ok out =>
        result_of run = Ok tt /\
        FileSelector.main_value s' = [] /\
        FileSelector.main_options s' = dict (zip out out) /\
        Browse.listed fs s'
    | Raise e =>
        result_of run = Raise e /\
        FileSelector.main_value s' = FileSelector.main_value s /\
        FileSelector.main_options s' = FileSelector.main_options s
    end.
Proof. exact (path_text_assign_cases fs v s). Qed.

(** X3.  [go_home] leaves the path text at the working directory followed
    by the separator, where a new FileSelector starts; pressing it again
    changes nothing and notifies nothing. *)
Theorem go_home_absorbs (fs : filesystem) (flt : list string) (cb : bool)
  (s : FileSelector.t) :
  let s1 := state_of (FileSelector.go_home fs s) in
  FileSelector.path_text_value s1 = (getcwd fs ++ OsPath.sep)%string /\
  FileSelector.path s1 = (getcwd fs ++ OsPath.sep)%string /\
  FileSelector.path s1 = FileSelector.path (FileSelector.fresh fs flt cb) /\
  FileSelector.go_home fs s1 = (Ok tt, s1, []).
Proof.
  cbv zeta. unfold FileSelector.go_home.
  pose proof (path_text_assign_value fs (getcwd fs ++ OsPath.sep)%string s)
    as H.
  set (s1 := state_of (FileSelector.path_text_assign fs _ s)) in *.
  assert (P : FileSelector.path s1 = (getcwd fs ++ OsPath.sep)%string).
  { apply path_of_normalized; [exact H | apply endswith_app]. }
  split; [exact H|]. split; [exact P|]. split.
  - rewrite P. symmetry.
    apply path_of_normalized; [|apply endswith_app].
    unfold FileSelector.fresh, FileSelector.setup.
    rewrite make_options_run.
    destruct (FileSelector.options_out fs _); reflexivity.
  - rewrite path_text_assign_run, H, String.eqb_refl. reflexivity.
Qed.

(** Selection of a file: changing the selection to a list whose first entry
    is not a directory entry: the selection is stored, nothing else changes, and
    [done_callback(True)] is called, once, exactly when a callback is
    configured and the entry joined to the current directory is an existing
    file; [url] is then that joined path. *)
Lemma select_file_cases (fs : filesystem) (fn : string)
  (rest : list string) (s : FileSelector.t) :
  list_eqb (fn :: rest) (FileSelector.main_value s) = false ->
  OsPath.endswith fn OsPath.sep = false ->
  let run := FileSelector.main_value_assign fs (fn :: rest) s in
  result_of run = Ok tt /\
  state_of run = FileSelector.set_main_value (fn :: rest) s /\
  FileSelector.notifications (events_of run) =
    (if isfile fs (OsPath.join (FileSelector.path s) fn)
        && FileSelector.has_done_callback s
     then [true] else []) /\
  FileSelector.url (state_of run) =
    Ok (Some (OsPath.join (FileSelector.path s) fn)).
Proof.
  intros Hne Hfile. cbv zeta.
  rewrite (main_value_assign_file_run fs _ _ _ Hne Hfile).
  unfold result_of, state_of, events_of; cbn [fst snd].
  repeat split.
  destruct (isfile fs _ && FileSelector.has_done_callback s); reflexivity.
Qed.

(** X5.  Changing the selection to a list whose first entry is not a
    directory entry: the selection is stored, nothing else changes, and
    [done_callback(True)] is called, once, exactly when a callback is
    configured and the entry joined to the current directory is an existing
    file; [url] is then that joined path. *)
Theorem select_file_entry (fs : filesystem) (fn : string)
  (rest : list string) (s : FileSelector.t) :
  list_eqb (fn :: rest) (FileSelector.main_value s) = false ->
  OsPath.endswith fn OsPath.sep = false ->
  let run := FileSelector.main_value_assign fs (fn :: rest) s in
  result_of run = Ok tt /\
  state_of run = FileSelector.set_main_value (fn :: rest) s /\
  FileSelector.notifications (events_of run) =
    (if isfile fs (OsPath.join (FileSelector.path s) fn)
        && FileSelector.has_done_callback s
     then [true] else []) /\
  FileSelector.url (state_of run) =
    Ok (Some (OsPath.join (FileSelector.path s) fn)).
Proof. exact (select_file_cases fs fn rest s). Qed.

Lemma select_file_entry_witness :
  let s := FileSelector.fresh Examples.tree FileSelector.default_filters true in
  let run := FileSelector.main_value_assign Examples.tree ["x.yml"] s in
  state_of run = FileSelector.set_main_value ["x.yml"] s /\
  FileSelector.notifications (events_of run) = [true] /\
  FileSelector.url (state_of run) = Ok (Some "/a/b/x.yml").
Proof.
  cbv zeta.
  destruct (select_file_entry Examples.tree "x.yml" []
              (FileSelector.fresh Examples.tree FileSelector.default_filters true)
              eq_refl eq_refl) as [_ [H2 [H3 H4]]].
  split; [exact H2|]. split; [exact H3 | exact H4].
Defined.

Section DirectorySelection.

Variable fs : filesystem.

Import FileSelector.

Lemma options_out_frame (s s' : t) :
  filters s' = filters s -> path_text_value s' = path_text_value s ->
  options_out fs s' = options_out fs s.
Proof.
  intros Hf Hp. unfold options_out, path. now rewrite Hf, Hp.
Qed.

Lemma entering_changes_text (fn : string) (s : t) :
  OsPath.endswith fn OsPath.sep = true ->
  String.eqb (path s ++ fn) (path_text_value s) = false.
Proof.
  intros Hdir. apply String.eqb_neq. intros E.
  assert (Hfn : fn <> "").
  { intros ->. discriminate. }
  unfold path in E.
  destruct (OsPath.endswith (path_text_value s) OsPath.sep).
  - apply app_eq_self in E. contradiction.
  - rewrite string_app_assoc in E. apply app_eq_self in E. discriminate.
Qed.

(** Navigation by selection: changing the selection to a list whose first
    entry is a directory entry assigns the current directory followed by
    the entry to the path text, and the error indicator tells whether the
    new directory is valid.  When the listing of the new directory
    succeeds, the selection is cleared, the entries are the listing and the
    callback, if configured, is called twice, with [False] (by the watcher
    of the path text and by [move_down] itself).  When the listing raises,
    the assignment raises, the directory entry stays selected, the entries
    stay those of the previous directory and the callback was called once,
    with [False].  It is never called with [True]. *)
Lemma select_directory_cases (fn : string) (rest : list string) (s : t) :
  list_eqb (fn :: rest) (main_value s) = false ->
  OsPath.endswith fn OsPath.sep = true ->
  let run := main_value_assign fs (fn :: rest) s in
  let s' := state_of run in
  let new := (path s ++ fn)%string in
  path_text_value s' = new /\
  Browse.indicator_current fs s' /\
  filters s' = filters s /\
  has_done_callback s' = has_done_callback s /\
  match options_out fs (set_path_text_value new s) with
  | Ok out =>
      result_of run = Ok tt /\
      main_value s' = [] /\
      Browse.listed fs s' /\
      notifications (events_of run) =
        (if has_done_callback s then [false; false] else [])
  | Raise e =>
      result_of run = Raise e /\
      main_value s' = fn :: rest /\
      main_options s' = main_options s /\
      notifications (events_of run) =
        (if has_done_callback s then [false] else [])
  end.
Proof.
  intros Hne Hdir. cbv zeta.
  rewrite (main_value_assign_directory_run fs _ _ _ Hne Hdir). cbv zeta.
  set (s1 := set_main_value (fn :: rest) s).
  pose proof (path_text_assign_cases fs (path s ++ fn)%string s1) as C.
  cbv zeta in C.
  change (path_text_value s1) with (path_text_value s) in C.
  rewrite (entering_changes_text fn s Hdir) in C.
  change (options_out fs (set_path_text_value (path s ++ fn) s1))
    with (options_out fs (set_path_text_value (path s ++ fn) s)) in C.
  change (has_done_callback s1) with (has_done_callback s) in C.
  change (filters s1) with (filters s) in C.
  change (main_value s1) with (fn :: rest) in C.
  change (main_options s1) with (main_options s) in C.
  destruct C as [C1 [C2 [C3 [C4 [C5 C6]]]]].
  set (r1 := path_text_assign fs (path s ++ fn)%string s1) in *.
  destruct (options_out fs (set_path_text_value (path s ++ fn) s))
    as [out|e] eqn:O.
  - destruct C6 as [R1 [M1 [_ L1]]]. rewrite R1.
    assert (O2 : options_out fs (state_of r1) = Ok out).
    { rewrite <- O. apply options_out_frame; [exact C3 | exact C1]. }
    rewrite make_options_run, O2, M1, C4.
    unfold result_of at 1. cbn [fst snd].
    unfold state_of at 1 3 5 7 9 11, result_of, events_of at 1.
    cbn [fst snd].
    split; [exact C1|]. split; [exact C2|]. split; [exact C3|].
    split; [exact C4|].
    split; [reflexivity|]. split; [reflexivity|]. split.
    + exists out. split; [|reflexivity].
      rewrite <- O2. apply options_out_frame; reflexivity.
    + unfold events_of in *. cbn [fst snd].
      unfold notifications in *. rewrite !flat_map_app, C5.
      destruct (has_done_callback s); reflexivity.
  - destruct C6 as [R1 [M1 O1]]. rewrite R1.
    unfold result_of, state_of, events_of in *. cbn [fst snd].
    repeat split; assumption.
Qed.

Lemma main_value_assign_frame (v : list string) (s : t) :
  filters (state_of (main_value_assign fs v s)) = filters s /\
  has_done_callback (state_of (main_value_assign fs v s))
  = has_done_callback s.
Proof.
  destruct (list_eqb v (main_value s)) eqn:E.
  - rewrite (main_value_assign_same fs _ _ E). split; reflexivity.
  - destruct v as [|fn rest].
    + rewrite (main_value_assign_changed fs _ _ E). split; reflexivity.
    + destruct (OsPath.endswith fn OsPath.sep) eqn:D.
      * destruct (select_directory_cases fn rest s E D)
          as [_ [_ [F [C _]]]]. now split.
      * rewrite (main_value_assign_file_run fs _ _ _ E D).
        split; reflexivity.
Qed.

End DirectorySelection.

(** X6.  Changing the selection to a list whose first entry is a directory
    entry assigns the current directory followed by the entry to the path
    text, and the error indicator tells whether the new directory is valid.
    When the listing of the new directory succeeds, the selection is
    cleared, the entries are the listing and the callback, if configured,
    is called twice, with [False].  When the listing raises, the assignment
    raises, the directory entry stays selected, the entries stay those of
    the previous directory and the callback was called once, with [False].
    It is never called with [True]. *)
Theorem select_directory_entry (fs : filesystem) (fn : string)
  (rest : list string) (s : FileSelector.t) :
  list_eqb (fn :: rest) (FileSelector.main_value s) = false ->
  OsPath.endswith fn OsPath.sep = true ->
  let run := FileSelector.main_value_assign fs (fn :: rest) s in
  let s' := state_of run in
  let new := (FileSelector.path s ++ fn)%string in
  FileSelector.path_text_value s' = new /\
  Browse.indicator_current fs s' /\
  FileSelector.filters s' = FileSelector.filters s /\
  FileSelector.has_done_callback s' = FileSelector.has_done_callback s /\
  match FileSelector.options_out fs
          (FileSelector.set_path_text_value new s) with
  | Ok out =>
      result_of run = Ok tt /\
      FileSelector.main_value s' = [] /\
      Browse.listed fs s' /\
      FileSelector.notifications (events_of run) =
        (if FileSelector.has_done_callback s then [false; false] else [])
  | Raise e =>
      result_of run = Raise e /\
      FileSelector.main_value s' = fn :: rest /\
      FileSelector.main_options s' = FileSelector.main_options s /\
      FileSelector.notifications (events_of run) =
        (if FileSelector.has_done_callback s then [false] else [])
  end.
Proof. exact (select_directory_cases fs fn rest s). Qed.

(** Entering a directory that can be read, and one that cannot. *)
Lemma select_directory_entry_witness :
  let s := FileSelector.fresh Examples.tree FileSelector.default_filters true in
  let run := FileSelector.main_value_assign Examples.tree ["data/"] s in
  let h := FileSelector.fresh Examples.locked FileSelector.default_filters true in
  let denied := FileSelector.main_value_assign Examples.locked ["private/"] h in
  (FileSelector.path_text_value (state_of run) = "/a/b/data/" /\
   FileSelector.main_value (state_of run) = [] /\
   FileSelector.notifications (events_of run) = [false; false]) /\
  (FileSelector.path_text_value (state_of denied) = "/home/private/" /\
   result_of denied = Raise Examples.permission_denied /\
   FileSelector.main_value (state_of denied) = ["private/"] /\
   keys (FileSelector.main_options (state_of denied))
     = ["cat.yaml"; "private/"] /\
   FileSelector.notifications (events_of denied) = [false]).
Proof.
  cbv zeta. split.
  - destruct (select_directory_entry Examples.tree "data/" []
                (FileSelector.fresh Examples.tree
                   FileSelector.default_filters true)
                eq_refl eq_refl) as [H1 [_ [_ [_ H]]]].
    cbv zeta in H. vm_compute in H. destruct H as [_ [H2 [_ H3]]].
    split; [exact H1|]. split; [exact H2 | exact H3].
  - destruct (select_directory_entry Examples.locked "private/" []
                (FileSelector.fresh Examples.locked
                   FileSelector.default_filters true)
                eq_refl eq_refl) as [H1 _].
    split; [exact H1|].
    split; [vm_compute; reflexivity|]. split; [vm_compute; reflexivity|].
    split; vm_compute; reflexivity.
Defined.

(** X7.  With an entry selected, [url] is the current directory followed
    directly by the first selected entry, unless the entry starts with the
    separator: then [os.path.join] drops the directory and [url] is the
    entry alone. *)
Theorem url_concatenates (s : FileSelector.t) (x : string)
  (rest : list string) :
  FileSelector.main_value s = x :: rest ->
  FileSelector.url s =
    Ok (Some (if OsPath.startswith x OsPath.sep then x
              else (FileSelector.path s ++ x)%string)).
Proof.
  intros H. unfold FileSelector.url, FileSelector.selected. rewrite H.
  cbn [FileSelector.os_path_join]. unfold OsPath.join.
  destruct (OsPath.startswith x OsPath.sep); [reflexivity|].
  rewrite path_endswith_sep, orb_true_r. reflexivity.
Qed.

Lemma url_concatenates_witness :
  let s := FileSelector.set_main_value ["data.yaml"; "x.yml"]
             (FileSelector.fresh Examples.tree FileSelector.default_filters true) in
  FileSelector.main_value s = ["data.yaml"; "x.yml"] /\
  FileSelector.url s = Ok (Some "/a/b/data.yaml").
Proof.
  cbv zeta. split; [reflexivity|].
  exact (url_concatenates
           (FileSelector.set_main_value ["data.yaml"; "x.yml"]
              (FileSelector.fresh Examples.tree
                 FileSelector.default_filters true))
           "data.yaml" ["x.yml"] eq_refl).
Defined.

(** ** Parent directories *)

Section PathFacts.

Lemma string_last_char (s : string) :
  s <> "" -> exists t c, s = (t ++ String c "")%string.
Proof.
  induction s as [|x s IH]; [congruence|]. intros _.
  destruct s as [|y s].
  - exists "", x. reflexivity.
  - destruct IH as [t [c E]]; [discriminate|].
    exists (String x t), c. simpl. now rewrite <- E.
Qed.

Lemma has_sep_app (a b : string) :
  Browse.has_sep (a ++ b) = Browse.has_sep a || Browse.has_sep b.
Proof.
  induction a as [|x a IH]; simpl; [reflexivity|].
  now rewrite IH, orb_assoc.
Qed.

Lemma all_sep_app (a b : string) :
  OsPath.all_sep (a ++ b) = OsPath.all_sep a && OsPath.all_sep b.
Proof.
  induction a as [|x a IH]; simpl; [reflexivity|].
  now rewrite IH, andb_assoc.
Qed.

Lemma rev_string_snoc (t : string) (c : ascii) :
  OsPath.rev_string (t ++ String c "") = String c (OsPath.rev_string t).
Proof. rewrite rev_string_app. reflexivity. Qed.

(** A string that ends with something else than the separator keeps its
    end. *)
Lemma rstrip_sep_keeps (t : string) (c : ascii) :
  Ascii.eqb c OsPath.sep_char = false ->
  OsPath.rstrip_sep (t ++ String c "") = (t ++ String c "")%string.
Proof.
  intros H. unfold OsPath.rstrip_sep. rewrite rev_string_snoc.
  cbn [OsPath.lstrip_sep]. rewrite H.
  rewrite <- rev_string_snoc. apply rev_string_involutive.
Qed.

Lemma rstrip_sep_app_sep (s : string) :
  OsPath.rstrip_sep (s ++ OsPath.sep) = OsPath.rstrip_sep s.
Proof.
  unfold OsPath.rstrip_sep, OsPath.sep. rewrite rev_string_snoc.
  reflexivity.
Qed.

Lemma rfind_sep_from_app (a b : string) (i last : Z) :
  OsPath.rfind_sep_from (a ++ b) i last =
  OsPath.rfind_sep_from b (i + Z.of_nat (String.length a))
    (OsPath.rfind_sep_from a i last).
Proof.
  revert i last; induction a as [|x a IH]; intros i last.
  - simpl. now rewrite Z.add_0_r.
  - cbn [append OsPath.rfind_sep_from String.length]. rewrite IH.
    f_equal. lia.
Qed.

Lemma rfind_sep_from_none (b : string) (i last : Z) :
  Browse.has_sep b = false -> OsPath.rfind_sep_from b i last = last.
Proof.
  revert i last; induction b as [|x b IH]; intros i last H; simpl in *.
  - reflexivity.
  - apply orb_false_iff in H as [Hx Hb]. rewrite Hx. now apply IH.
Qed.

Lemma substring_prefix (a b : string) :
  String.substring 0 (String.length a) (a ++ b) = a.
Proof.
  induction a as [|x a IH]; simpl.
  - destruct b; reflexivity.
  - now rewrite IH.
Qed.

Lemma nonsep_end (q : string) :
  q <> "" -> OsPath.endswith q OsPath.sep = false ->
  exists t c, q = (t ++ String c "")%string /\
              Ascii.eqb c OsPath.sep_char = false.
Proof.
  intros Hq He. destruct (string_last_char q Hq) as [t [c E]].
  exists t, c. split; [exact E|].
  destruct (Ascii.eqb c OsPath.sep_char) eqn:Hc; [|reflexivity].
  apply Ascii.eqb_eq in Hc. subst c q.
  change (String OsPath.sep_char "") with OsPath.sep in He.
  rewrite endswith_app in He. discriminate.
Qed.

Lemma nonsep_end_of_name (name : string) :
  name <> "" -> Browse.has_sep name = false ->
  exists t c, name = (t ++ String c "")%string /\
              Ascii.eqb c OsPath.sep_char = false.
Proof.
  intros Hn Hs. destruct (string_last_char name Hn) as [t [c E]].
  exists t, c. split; [exact E|].
  subst name. rewrite has_sep_app in Hs.
  apply orb_false_iff in Hs as [_ Hs]. simpl in Hs.
  now rewrite orb_false_r in Hs.
Qed.

(** [os.path.dirname] of a name directly under the directory [q]. *)
Lemma dirname_child (q name : string) :
  q <> "" -> OsPath.endswith q OsPath.sep = false ->
  Browse.has_sep name = false ->
  OsPath.dirname (q ++ OsPath.sep ++ name) = q.
Proof.
  intros Hq He Hn.
  destruct (nonsep_end q Hq He) as [t [c [E Hc]]].
  unfold OsPath.dirname, OsPath.rfind_sep.
  rewrite rfind_sep_from_app.
  change (OsPath.sep ++ name)%string with (String OsPath.sep_char name).
  cbn [OsPath.rfind_sep_from]. rewrite Ascii.eqb_refl.
  rewrite (rfind_sep_from_none name _ _ Hn).
  unfold OsPath.slice_to.
  replace (Z.to_nat (0 + Z.of_nat (String.length q) + 1))
    with (String.length (q ++ OsPath.sep)).
  2:{ assert (L : forall a b, String.length (a ++ b)
                    = String.length a + String.length b).
      { intros a b. induction a as [|x a IH]; simpl; [reflexivity|].
        now rewrite IH. }
      rewrite L. simpl. lia. }
  change (String OsPath.sep_char name) with (OsPath.sep ++ name)%string.
  rewrite <- string_app_assoc, substring_prefix.
  assert (Hne : String.eqb (q ++ OsPath.sep) "" = false).
  { apply String.eqb_neq. destruct q; [congruence | discriminate]. }
  assert (Hall : OsPath.all_sep (q ++ OsPath.sep) = false).
  { rewrite all_sep_app, E, all_sep_app. simpl. rewrite Hc.
    now rewrite andb_false_r. }
  rewrite Hne, Hall. cbn [negb andb].
  rewrite rstrip_sep_app_sep, E. now apply rstrip_sep_keeps.
Qed.

End PathFacts.

Lemma move_up_run (fs : filesystem) (s : FileSelector.t) :
  FileSelector.move_up fs s =
  FileSelector.path_text_assign fs
    (OsPath.dirname (OsPath.rstrip_sep (FileSelector.path s)) ++ OsPath.sep)%string
    s.
Proof.
  unfold FileSelector.move_up, bind, get. cbn [fst snd].
  destruct (FileSelector.path_text_assign fs _ s) as [[r x] ev].
  reflexivity.
Qed.

(** X4.  Entering a subdirectory and moving up again returns to the start.
    From a current directory [q/] other than the root, written with a
    single trailing separator, and with no directory entry left selected:
    selecting the entry [name/] (a name without separator) makes [q/name/]
    the current directory, and [move_up] then makes it [q/] again, also
    when a listing raises on the way.  The selection is empty at the end
    when one of the two operations returned: it is left only when the
    listings of both directories raise. *)
Theorem enter_then_move_up (fs : filesystem) (s : FileSelector.t)
  (q name : string) :
  FileSelector.path_text_value s = (q ++ OsPath.sep)%string ->
  q <> "" -> OsPath.endswith q OsPath.sep = false ->
  name <> "" -> Browse.has_sep name = false ->
  Browse.no_directory_selected s ->
  let r1 := FileSelector.main_value_assign fs
              [(name ++ OsPath.sep)%string] s in
  let s1 := state_of r1 in
  let r2 := FileSelector.move_up fs s1 in
  let s2 := state_of r2 in
  FileSelector.path s1 = (q ++ OsPath.sep ++ name ++ OsPath.sep)%string /\
  FileSelector.path s2 = FileSelector.path s /\
  FileSelector.path_text_value s2 = FileSelector.path_text_value s /\
  (result_of r1 = Ok tt \/ result_of r2 = Ok tt ->
   FileSelector.main_value s2 = []).
Proof.
  intros Hp Hq He Hn Hs Hsel r1 s1 r2 s2.
  assert (Ps : FileSelector.path s = (q ++ OsPath.sep)%string).
  { apply path_of_normalized; [exact Hp | apply endswith_app]. }
  assert (Hne : list_eqb [(name ++ OsPath.sep)%string]
                  (FileSelector.main_value s) = false).
  { unfold Browse.no_directory_selected in Hsel.
    destruct (FileSelector.main_value s) as [|fn rest]; [reflexivity|].
    simpl. destruct (String.eqb_spec (name ++ OsPath.sep) fn) as [E|_];
      [|reflexivity].
    subst fn. rewrite endswith_app in Hsel. discriminate. }
  destruct (select_directory_cases fs (name ++ OsPath.sep)%string [] s Hne
              (endswith_app name OsPath.sep)) as [V1 [_ [_ [_ C1]]]].
  fold r1 s1 in V1, C1. rewrite Ps, string_app_assoc in V1.
  assert (P1 : FileSelector.path s1
               = (q ++ OsPath.sep ++ name ++ OsPath.sep)%string).
  { apply path_of_normalized; [exact V1|].
    rewrite <- !string_app_assoc. apply endswith_app. }
  assert (Up : r2 = FileSelector.path_text_assign fs (q ++ OsPath.sep)%string s1).
  { subst r2. rewrite move_up_run, P1.
    replace (OsPath.rstrip_sep (q ++ OsPath.sep ++ name ++ OsPath.sep))
      with (q ++ OsPath.sep ++ name)%string.
    2:{ rewrite <- !string_app_assoc, rstrip_sep_app_sep.
        destruct (nonsep_end_of_name name Hn Hs) as [t [c [E Hc]]].
        rewrite E, <- string_app_assoc. symmetry.
        now apply rstrip_sep_keeps. }
    now rewrite (dirname_child q name Hq He Hs). }
  assert (V2 : FileSelector.path_text_value s2 = (q ++ OsPath.sep)%string).
  { subst s2. rewrite Up. apply path_text_assign_value. }
  split; [exact P1|]. split.
  { rewrite Ps. apply path_of_normalized; [exact V2 | apply endswith_app]. }
  split; [now rewrite Hp|].
  assert (Hchg : String.eqb (q ++ OsPath.sep)
                   (FileSelector.path_text_value s1) = false).
  { apply String.eqb_neq. rewrite V1. intros E. symmetry in E.
    rewrite <- string_app_assoc in E. apply app_eq_self in E.
    destruct name; discriminate. }
  pose proof (path_text_assign_cases fs (q ++ OsPath.sep)%string s1) as C2.
  cbv zeta in C2. rewrite Hchg, <- Up in C2. fold s2 in C2.
  destruct C2 as [_ [_ [_ [_ [_ C2]]]]].
  intros [R|R].
  - assert (M1 : FileSelector.main_value s1 = []).
    { destruct (FileSelector.options_out fs _) in C1.
      - tauto.
      - destruct C1 as [C1 _]. rewrite C1 in R. discriminate. }
    destruct (FileSelector.options_out fs _) in C2.
    + tauto.
    + destruct C2 as [_ [C2 _]]. now rewrite C2.
  - destruct (FileSelector.options_out fs _) in C2.
    + tauto.
    + destruct C2 as [C2 _]. rewrite C2 in R. discriminate.
Qed.

Lemma enter_then_move_up_witness :
  let s := FileSelector.fresh Examples.tree FileSelector.default_filters true in
  let s1 := state_of (FileSelector.main_value_assign Examples.tree ["data/"] s) in
  let s2 := state_of (FileSelector.move_up Examples.tree s1) in
  FileSelector.path_text_value s = "/a/b/" /\
  Browse.no_directory_selected s /\
  FileSelector.path s1 = "/a/b/data/" /\
  FileSelector.path s2 = "/a/b/".
Proof.
  cbv zeta.
  assert (A : "/a/b" <> "") by discriminate.
  assert (B : "data" <> "") by discriminate.
  destruct (enter_then_move_up Examples.tree
              (FileSelector.fresh Examples.tree
                 FileSelector.default_filters true)
              "/a/b" "data" eq_refl A eq_refl B eq_refl I)
    as [H1 [H2 _]].
  split; [reflexivity|]. split; [exact I|].
  split; [exact H1 | exact H2].
Defined.

(** ** What every sequence of operations keeps *)

Section BrowseFacts.

Variable fs : filesystem.

Import FileSelector.

Lemma set_main_value_same (s : t) (v : list string) :
  main_value s = v -> set_main_value v s = s.
Proof. intros <-. destruct s; reflexivity. Qed.

Lemma setstate_state (st : state) (s : t) :
  state_of (setstate fs st s) =
  let r1 := path_text_assign fs (st_path st) s in
  match result_of r1, st_selected st with
  | Ok _, PList l => state_of (main_value_assign fs l (state_of r1))
  | _, _ => state_of r1
  end.
Proof.
  cbv zeta. unfold setstate, bind, result_of, state_of.
  destruct (path_text_assign fs (st_path st) s) as [[[[]|e] s1] ev1];
    cbn [fst snd]; [|destruct (st_selected st); reflexivity].
  destruct (st_selected st) as [|x|l]; cbn [main_value_assign_any];
    try reflexivity.
  destruct (main_value_assign fs l s1) as [[r2 s2] ev2]. reflexivity.
Qed.

(** The indicator is kept current by every operation, whether it returns
    or raises: [validate] runs before the directory is listed. *)
Lemma path_text_assign_indicator (v : string) :
  Browse.kept (Browse.indicator_current fs) (path_text_assign fs v).
Proof.
  intros s H. pose proof (path_text_assign_cases fs v s) as C.
  cbv zeta in C. destruct (String.eqb v (path_text_value s)).
  - now rewrite C.
  - tauto.
Qed.

Lemma make_options_indicator :
  Browse.kept (Browse.indicator_current fs) (make_options fs).
Proof.
  intros s H. rewrite make_options_run.
  destruct (options_out fs s); exact H.
Qed.

Lemma main_value_assign_indicator (v : list string) :
  Browse.kept (Browse.indicator_current fs) (main_value_assign fs v).
Proof.
  intros s H. destruct (list_eqb v (main_value s)) eqn:E.
  - now rewrite (main_value_assign_same fs _ _ E).
  - destruct v as [|fn rest].
    + rewrite (main_value_assign_changed fs _ _ E). exact H.
    + destruct (OsPath.endswith fn OsPath.sep) eqn:D.
      * now destruct (select_directory_cases fs fn rest s E D) as [_ [I _]].
      * rewrite (main_value_assign_file_run fs _ _ _ E D). exact H.
Qed.

Lemma step_indicator (a : Browse.action) :
  Browse.kept (Browse.indicator_current fs) (Browse.step fs a).
Proof.
  destruct a as [| |v|v| | |st]; cbn [Browse.step].
  - intros s H. rewrite move_up_run. now apply path_text_assign_indicator.
  - apply path_text_assign_indicator.
  - apply path_text_assign_indicator.
  - apply main_value_assign_indicator.
  - apply make_options_indicator.
  - intros s _. rewrite validate_run. reflexivity.
  - intros s H. rewrite setstate_state. cbv zeta.
    pose proof (path_text_assign_indicator (st_path st) s H) as K.
    destruct (result_of (path_text_assign fs (st_path st) s));
      [|exact K].
    destruct (st_selected st); try exact K.
    now apply main_value_assign_indicator.
Qed.

Lemma run_kept (P : t -> Prop) :
  (forall a, Browse.kept P (Browse.step fs a)) ->
  forall l s, P s -> P (fst (Browse.run fs l s)).
Proof.
  intros K l. induction l as [|a l IH]; intros s H; simpl.
  - exact H.
  - pose proof (K a s H) as H1. unfold state_of in H1.
    destruct (Browse.step fs a s) as [[r s1] ev1]. cbn [fst snd] in H1.
    pose proof (IH s1 H1) as H2.
    destruct (Browse.run fs l s1) as [s2 ev2]. exact H2.
Qed.

(** Where every directory can be listed. *)
Hypothesis readable : Browse.all_readable fs.

Lemma options_out_ok (s : t) : exists out, options_out fs s = Ok out.
Proof.
  unfold options_out. destruct (isdir fs (path s)) eqn:D.
  - destruct (readable _ D) as [names ->]. eexists; reflexivity.
  - eexists; reflexivity.
Qed.

Lemma steady_set_main_value (flt : list string) (cb : bool) (s : t)
  (v : list string) :
  Browse.steady fs flt cb s ->
  match v with [] => True | fn :: _ => OsPath.endswith fn OsPath.sep = false end ->
  Browse.steady fs flt cb (set_main_value v s).
Proof.
  intros [L [_ [F C]]] Hv. split; [|split; [|split]].
  - exact L.
  - unfold Browse.no_directory_selected. simpl. destruct v; exact Hv.
  - exact F.
  - exact C.
Qed.

Lemma steady_listing (flt : list string) (cb : bool) (s s' : t) :
  Browse.steady fs flt cb s ->
  Browse.listed fs s' -> main_value s' = [] ->
  filters s' = filters s -> has_done_callback s' = has_done_callback s ->
  Browse.steady fs flt cb s'.
Proof.
  intros [_ [_ [F C]]] L M F' C'. split; [exact L|]. split.
  - unfold Browse.no_directory_selected. now rewrite M.
  - split; congruence.
Qed.

Lemma path_text_assign_steady (flt : list string) (cb : bool) (v : string) :
  Browse.kept (Browse.steady fs flt cb) (path_text_assign fs v).
Proof.
  intros s H. pose proof (path_text_assign_cases fs v s) as C.
  cbv zeta in C. destruct (String.eqb v (path_text_value s)).
  - now rewrite C.
  - destruct C as [_ [_ [F [B [_ C]]]]].
    destruct (options_out_ok (set_path_text_value v s)) as [out O].
    rewrite O in C. destruct C as [_ [M [_ L]]].
    now apply (steady_listing flt cb s).
Qed.

Lemma make_options_steady (flt : list string) (cb : bool) :
  Browse.kept (Browse.steady fs flt cb) (make_options fs).
Proof.
  intros s H. rewrite make_options_run.
  destruct (options_out_ok s) as [out O]. rewrite O.
  apply (steady_listing flt cb s _ H); try reflexivity.
  exists out. split; [|reflexivity].
  rewrite <- O. apply options_out_frame; reflexivity.
Qed.

Lemma main_value_assign_steady (flt : list string) (cb : bool)
  (v : list string) :
  Browse.kept (Browse.steady fs flt cb) (main_value_assign fs v).
Proof.
  intros s H. destruct (list_eqb v (main_value s)) eqn:E.
  - now rewrite (main_value_assign_same fs _ _ E).
  - destruct v as [|fn rest].
    + rewrite (main_value_assign_changed fs _ _ E).
      now apply (steady_set_main_value flt cb s []).
    + destruct (OsPath.endswith fn OsPath.sep) eqn:D.
      * destruct (select_directory_cases fs fn rest s E D)
          as [_ [_ [F [B C]]]].
        destruct (options_out_ok
                    (set_path_text_value (path s ++ fn) s)) as [out O].
        rewrite O in C. destruct C as [_ [M [L _]]].
        now apply (steady_listing flt cb s).
      * rewrite (main_value_assign_file_run fs _ _ _ E D).
        now apply steady_set_main_value.
Qed.

Lemma step_steady (flt : list string) (cb : bool) (a : Browse.action) :
  Browse.kept (Browse.steady fs flt cb) (Browse.step fs a).
Proof.
  destruct a as [| |v|v| | |st]; cbn [Browse.step].
  - intros s H. rewrite move_up_run. now apply path_text_assign_steady.
  - apply path_text_assign_steady.
  - apply path_text_assign_steady.
  - apply main_value_assign_steady.
  - apply make_options_steady.
  - intros s [L [N [F C]]]. rewrite validate_run.
    split; [exact L|]. split; [exact N|]. split; assumption.
  - intros s H. rewrite setstate_state. cbv zeta.
    pose proof (path_text_assign_steady flt cb (st_path st) s H) as K.
    destruct (result_of (path_text_assign fs (st_path st) s));
      [|exact K].
    destruct (st_selected st); try exact K.
    now apply main_value_assign_steady.
Qed.

End BrowseFacts.

(** X8.  On a filesystem whose directories can all be listed: whatever the
    sequence of button presses, path edits, selection changes, refreshes,
    validations and restores on a new FileSelector, the entries shown are
    the listing of the current directory, the first selected entry is never
    a directory entry (selecting one navigates instead), and the filters
    and the presence of a callback are those given to the constructor.
    (A directory that cannot be listed breaks this: entering it leaves the
    directory entry selected and the entries of the previous directory.) *)
Theorem entries_follow_directory (fs : filesystem) (flt : list string)
  (cb : bool) (l : list Browse.action) :
  Browse.all_readable fs ->
  let s := fst (Browse.run fs l (FileSelector.fresh fs flt cb)) in
  Browse.listed fs s /\
  Browse.no_directory_selected s /\
  FileSelector.filters s = flt /\
  FileSelector.has_done_callback s = cb.
Proof.
  intros R. cbv zeta.
  apply (run_kept fs (Browse.steady fs flt cb) (step_steady fs R flt cb)).
  unfold FileSelector.fresh, FileSelector.setup.
  rewrite make_options_run.
  destruct (options_out_ok fs R (FileSelector.widgets_at_setup fs flt cb))
    as [out O].
  rewrite O. split.
  - exists out. split; [|reflexivity].
    rewrite <- O. apply options_out_frame; reflexivity.
  - repeat split.
Qed.

Lemma entries_follow_directory_witness :
  let s := fst (Browse.run Examples.tree
                  [Browse.Select ["data/"]; Browse.MoveUp;
                   Browse.Select ["x.yml"]]
                  (FileSelector.fresh Examples.tree
                     FileSelector.default_filters true)) in
  Browse.all_readable Examples.tree /\
  keys (FileSelector.main_options s) = ["data/"; "data.yaml"; "x.yml"] /\
  Browse.listed Examples.tree s /\
  Browse.no_directory_selected s.
Proof.
  cbv zeta.
  assert (R : Browse.all_readable Examples.tree).
  { intros d _. unfold Examples.tree, listdir.
    destruct (String.eqb d "/a/b/"); [eexists; reflexivity|].
    destruct (String.eqb d "/a/"); [eexists; reflexivity|].
    destruct (Examples.in_list d ["/"; "//"]); eexists; reflexivity. }
  destruct (entries_follow_directory Examples.tree
              FileSelector.default_filters true
              [Browse.Select ["data/"]; Browse.MoveUp; Browse.Select ["x.yml"]]
              R) as [L [N _]].
  split; [exact R|]. split; [reflexivity|]. split; [exact L | exact N].
Defined.

(** X9.  When the working directory is a valid directory, the error
    indicator of a FileSelector tells, after every sequence of operations,
    whether the current directory is valid: it is clear exactly for a valid
    directory. *)
Theorem indicator_follows_directory (fs : filesystem) (flt : list string)
  (cb : bool) (l : list Browse.action) :
  isdir fs (getcwd fs ++ OsPath.sep)%string = true ->
  let s := fst (Browse.run fs l (FileSelector.fresh fs flt cb)) in
  Browse.indicator_current fs s /\
  (FileSelector.validator_object s = None <->
   isdir fs (FileSelector.path s) = true).
Proof.
  intros Hcwd. cbv zeta.
  assert (I0 : Browse.indicator_current fs (FileSelector.fresh fs flt cb)).
  { unfold FileSelector.fresh, FileSelector.setup.
    apply make_options_indicator. unfold Browse.indicator_current.
    assert (P : FileSelector.path (FileSelector.widgets_at_setup fs flt cb)
                = (getcwd fs ++ OsPath.sep)%string).
    { apply path_of_normalized; [reflexivity | apply endswith_app]. }
    rewrite P, Hcwd. reflexivity. }
  pose proof (run_kept fs (Browse.indicator_current fs) (step_indicator fs)
                l _ I0) as H.
  split; [exact H|].
  unfold Browse.indicator_current in H. rewrite H. clear H.
  destruct (isdir fs (FileSelector.path _)); split; intros E;
    try reflexivity; discriminate E.
Qed.

Lemma indicator_follows_directory_witness :
  let s := fst (Browse.run Examples.tree
                  [Browse.TypePath "/nowhere"; Browse.Select ["x.yml"]]
                  (FileSelector.fresh Examples.tree
                     FileSelector.default_filters true)) in
  isdir Examples.tree (getcwd Examples.tree ++ OsPath.sep)%string = true /\
  FileSelector.path s = "/nowhere/" /\
  FileSelector.validator_object s = Some ICONS_error /\
  Browse.indicator_current Examples.tree s.
Proof.
  cbv zeta. split; [reflexivity|]. split; [reflexivity|].
  split; [reflexivity|].
  exact (proj1 (indicator_follows_directory Examples.tree
                  FileSelector.default_filters true
                  [Browse.TypePath "/nowhere"; Browse.Select ["x.yml"]]
                  eq_refl)).
Defined.

Section NotificationFacts.

Variable fs : filesystem.

Import FileSelector.

Lemma main_value_assign_true (v : list string) (s : t) :
  In true (notifications (events_of (main_value_assign fs v s))) ->
  has_done_callback s = true /\
  exists fn rest,
    v = fn :: rest /\ OsPath.endswith fn OsPath.sep = false /\
    isfile fs (OsPath.join (path s) fn) = true /\
    state_of (main_value_assign fs v s) = set_main_value v s /\
    url (state_of (main_value_assign fs v s))
    = Ok (Some (OsPath.join (path s) fn)).
Proof.
  destruct (list_eqb v (main_value s)) eqn:E.
  - rewrite (main_value_assign_same fs _ _ E). intros [].
  - destruct v as [|fn rest].
    + rewrite (main_value_assign_changed fs _ _ E). intros [].
    + destruct (OsPath.endswith fn OsPath.sep) eqn:D.
      * pose proof (select_directory_cases fs fn rest s E D) as C.
        cbv zeta in C. destruct C as [_ [_ [_ [_ C]]]].
        destruct (options_out fs _) as [out|e].
        -- destruct C as [_ [_ [_ N]]]. rewrite N.
           destruct (has_done_callback s); simpl; intuition congruence.
        -- destruct C as [_ [_ [_ N]]]. rewrite N.
           destruct (has_done_callback s); simpl; intuition congruence.
      * destruct (select_file_cases fs fn rest s E D) as [_ [S [N U]]].
        rewrite N.
        destruct (isfile fs (OsPath.join (path s) fn)) eqn:F;
          [|intros []].
        destruct (has_done_callback s); [|intros []].
        intros _. split; [reflexivity|].
        exists fn, rest. repeat split; assumption.
Qed.

Lemma path_text_assign_false (v : string) (s : t) :
  ~ In true (notifications (events_of (path_text_assign fs v s))).
Proof.
  destruct (path_text_assign_props fs v s) as [_ [_ [_ [_ [_ N]]]]].
  rewrite N.
  destruct (String.eqb v (path_text_value s)); [intros []|].
  destruct (has_done_callback s); simpl; intuition congruence.
Qed.

End NotificationFacts.

(** X10.  [done_callback(True)] is only ever called for a selection that
    resolves to an existing file: if an operation calls it, then a callback
    is configured, the operation was a change of the selection (directly or
    in a restore) and afterwards [url] is the path of an existing file.
    The buttons, path edits, refreshes and validations never call it with
    [True]. *)
Theorem notified_true_means_file (fs : filesystem) (a : Browse.action)
  (s : FileSelector.t) :
  let run := Browse.step fs a s in
  In true (FileSelector.notifications (events_of run)) ->
  FileSelector.has_done_callback s = true /\
  (exists v, a = Browse.Select v \/
             exists p, a = Browse.Restore
                             {| FileSelector.st_path := p;
                                FileSelector.st_selected := PList v |}) /\
  exists p, FileSelector.url (state_of run) = Ok (Some p) /\
            isfile fs p = true.
Proof.
  cbv zeta. destruct a as [| |v|v| | |st]; cbn [Browse.step].
  - rewrite move_up_run.
    intros H. exfalso. exact (path_text_assign_false fs _ s H).
  - intros H. exfalso. exact (path_text_assign_false fs _ s H).
  - intros H. exfalso. exact (path_text_assign_false fs _ s H).
  - intros H. destruct (main_value_assign_true fs v s H)
      as [C [fn [rest [-> [_ [F [_ U]]]]]]].
    split; [exact C|]. split; [exists (fn :: rest); now left|].
    exists (OsPath.join (FileSelector.path s) fn). now split.
  - rewrite make_options_run. unfold events_of.
    intros H. exfalso.
    destruct (FileSelector.options_out fs s); cbn [snd] in H;
    destruct (FileSelector.has_done_callback s), (FileSelector.main_value s);
      simpl in H; intuition congruence.
  - rewrite validate_run. intros [].
  - unfold FileSelector.setstate, bind.
    pose proof (path_text_assign_false fs (FileSelector.st_path st) s) as N.
    destruct (path_text_assign_props fs (FileSelector.st_path st) s)
      as [_ [_ [C1 _]]].
    unfold result_of, events_of, state_of in *.
    destruct (FileSelector.path_text_assign fs _ s) as [[r s1] ev1].
    cbn [fst snd] in *.
    destruct r as [[]|e]; [|cbn [snd]; intros H; contradiction].
    destruct st as [p sel]. cbn [FileSelector.st_selected] in *.
    destruct sel as [|x|v]; cbn [FileSelector.main_value_assign_any].
    + unfold raise. cbn [fst snd]. rewrite app_nil_r.
      intros H. contradiction.
    + unfold raise. cbn [fst snd]. rewrite app_nil_r.
      intros H. contradiction.
    + pose proof (main_value_assign_true fs v s1) as T.
      unfold events_of, state_of in T.
      destruct (FileSelector.main_value_assign fs v s1) as [[r2 s2] ev2].
      cbn [fst snd] in *.
      unfold FileSelector.notifications in *. rewrite flat_map_app.
      intros H. apply in_app_or in H as [H|H]; [contradiction|].
      destruct (T H) as [C [fn [rest [-> [_ [F [_ U]]]]]]].
      split; [congruence|].
      split; [exists (fn :: rest); right; now exists p|].
      exists (OsPath.join (FileSelector.path s1) fn). now split.
Qed.

Lemma notified_true_means_file_witness :
  let s := FileSelector.fresh Examples.tree FileSelector.default_filters true in
  let run := Browse.step Examples.tree (Browse.Select ["data.yaml"]) s in
  In true (FileSelector.notifications (events_of run)) /\
  exists p, FileSelector.url (state_of run) = Ok (Some p) /\
            isfile Examples.tree p = true.
Proof.
  cbv zeta.
  assert (H : In true (FileSelector.notifications
                (events_of (Browse.step Examples.tree
                   (Browse.Select ["data.yaml"])
                   (FileSelector.fresh Examples.tree
                      FileSelector.default_filters true))))).
  { left. reflexivity. }
  split; [exact H|].
  exact (proj2 (proj2 (notified_true_means_file Examples.tree
                         (Browse.Select ["data.yaml"]) _ H))).
Defined.

(** X11.  Restoring a state without selection is idempotent once it has
    returned: restoring the same state a second time changes nothing,
    notifies nothing and returns.  (The first restore raises when the
    directory of the restored path cannot be listed.) *)
Theorem setstate_twice (fs : filesystem) (st : FileSelector.state)
  (s : FileSelector.t) :
  FileSelector.st_selected st = PList [] ->
  result_of (FileSelector.setstate fs st s) = Ok tt ->
  let s1 := state_of (FileSelector.setstate fs st s) in
  FileSelector.setstate fs st s1 = (Ok tt, s1, []).
Proof.
  intros Hsel Hok. cbv zeta.
  destruct (setstate_no_selection fs st s Hsel) as [P [_ [_ M]]].
  specialize (M Hok).
  set (s1 := state_of (FileSelector.setstate fs st s)) in *.
  unfold FileSelector.setstate, bind.
  rewrite path_text_assign_run, P, String.eqb_refl, Hsel.
  cbn [FileSelector.main_value_assign_any fst snd].
  rewrite main_value_assign_nil, main_value_clear_run, M.
  now rewrite (set_main_value_same s1 [] M).
Qed.

Lemma setstate_twice_witness :
  let st := {| FileSelector.st_path := "/a/";
               FileSelector.st_selected := PList [] |} in
  let s := FileSelector.fresh Examples.tree FileSelector.default_filters true in
  let s1 := state_of (FileSelector.setstate Examples.tree st s) in
  FileSelector.notifications
    (events_of (FileSelector.setstate Examples.tree st s)) = [false] /\
  FileSelector.setstate Examples.tree st s1 = (Ok tt, s1, []).
Proof.
  cbv zeta. split; [reflexivity|].
  exact (setstate_twice Examples.tree
           {| FileSelector.st_path := "/a/";
              FileSelector.st_selected := PList [] |}
           (FileSelector.fresh Examples.tree FileSelector.default_filters true)
           eq_refl eq_refl).
Defined.

(** ** CatAdder: what the confirm action can do *)

(** X12.  [add_cat] ends in one of two ways.  Either it returns normally:
    then the catalog was opened once, the done-callback was called once
    with the handle that [open_catalog] returned, and the component is
    hidden.  Or it raises: then the error indicator is set, nothing else
    changed, and at most the catalog was opened once and the callback
    called once (when it is the callback that failed).  It never retries
    and never calls the callback without a handle. *)
Theorem add_cat_outcomes (catalog : Type)
  (open_catalog : option string -> result catalog)
  (done_callback : option (catalog -> result unit))
  (s : CatAdder.t) :
  let run := CatAdder.add_cat catalog open_catalog done_callback s in
  (result_of run = Ok tt /\
   state_of run = CatAdder.visible_assign false s /\
   exists u c, open_catalog u = Ok c /\
     events_of run = [CatAdder.OpenCatalog u; CatAdder.DoneCallback c]) \/
  (exists e,
     result_of run = Raise e /\
     state_of run = CatAdder.set_validator_object (Some ICONS_error) s /\
     (events_of run = [] \/
      (exists u, open_catalog u = Raise e /\
                 events_of run = [CatAdder.OpenCatalog u]) \/
      (exists u c, open_catalog u = Ok c /\ done_callback = None /\
                   events_of run = [CatAdder.OpenCatalog u]) \/
      (exists u c f, open_catalog u = Ok c /\ done_callback = Some f /\
                     f c = Raise e /\
                     events_of run =
                       [CatAdder.OpenCatalog u; CatAdder.DoneCallback c]))).
Proof.
  cbv zeta. unfold CatAdder.add_cat, try_except, bind.
  rewrite cat_run.
  destruct (result_of (CatAdder.cat_url catalog s)) as [u|e0].
  - destruct (open_catalog u) as [c|e0] eqn:Ho.
    + unfold CatAdder.call_done_callback.
      destruct done_callback as [f|].
      * unfold bind, emit, lift_result. cbn [fst snd app].
        destruct (f c) as [[]|e1] eqn:Hf.
        -- left. unfold result_of, state_of, events_of; cbn.
           split; [reflexivity|]. split; [reflexivity|].
           exists u, c. split; [exact Ho | reflexivity].
        -- right. exists e1. unfold result_of, state_of, events_of; cbn.
           split; [reflexivity|]. split; [reflexivity|].
           right; right; right. exists u, c, f. repeat split; assumption.
      * right. exists (TypeError "'NoneType' object is not callable").
        unfold result_of, state_of, events_of; cbn.
        split; [reflexivity|]. split; [reflexivity|].
        right; right; left. exists u, c. repeat split; assumption.
    + right. exists e0. unfold result_of, state_of, events_of; cbn.
      split; [reflexivity|]. split; [reflexivity|].
      right; left. exists u. split; [exact Ho | reflexivity].
  - right. exists e0. unfold result_of, state_of, events_of; cbn.
    split; [reflexivity|]. split; [reflexivity|]. now left.
Qed.

(** X13.  The confirm action on the local tab with nothing selected, or
    with an active tab index that names no tab, fails before anything is
    opened or called: a TypeError from joining the empty selection, an
    IndexError from the lookup of the tab; the error indicator is set and
    the component stays as visible as it was. *)
Theorem add_cat_unresolved (catalog : Type)
  (open_catalog : option string -> result catalog)
  (done_callback : option (catalog -> result unit))
  (s : CatAdder.t) :
  (CatAdder.tabs_active s = 0%Z /\
   FileSelector.main_value (CatAdder.fs s) = []) \/
  (CatAdder.tabs_active s > 1)%Z ->
  let run := CatAdder.add_cat catalog open_catalog done_callback s in
  events_of run = [] /\
  state_of run = CatAdder.set_validator_object (Some ICONS_error) s /\
  exists msg,
    let e := if (CatAdder.tabs_active s =? 0)%Z
             then TypeError msg else IndexError msg in
    result_of run = Raise e /\
    result_of (CatAdder.cat_url catalog s) = Raise e.
Proof.
  intros H. cbv zeta.
  assert (U : exists msg,
             result_of (CatAdder.cat_url catalog s) =
             Raise (if (CatAdder.tabs_active s =? 0)%Z
                    then TypeError msg else IndexError msg)).
  { unfold CatAdder.cat_url, bind, get, lift_result, result_of.
    cbn [fst snd]. unfold index2.
    destruct H as [[Ht Hm]|Ht].
    - rewrite Ht. cbn.
      unfold FileSelector.url, FileSelector.selected. rewrite Hm. cbn.
      eexists; reflexivity.
    - destruct (Z.eqb_spec (CatAdder.tabs_active s) 0) as [E|_]; [lia|].
      destruct (Z.eqb_spec (CatAdder.tabs_active s) (-2)) as [E|_]; [lia|].
      destruct (Z.eqb_spec (CatAdder.tabs_active s) 1) as [E|_]; [lia|].
      destruct (Z.eqb_spec (CatAdder.tabs_active s) (-1)) as [E|_]; [lia|].
      cbn. eexists; reflexivity. }
  destruct U as [msg U].
  unfold CatAdder.add_cat, try_except, bind.
  rewrite cat_run, U.
  unfold result_of, state_of, events_of; cbn.
  split; [reflexivity|]. split; [reflexivity|].
  exists msg. cbv zeta. split; reflexivity.
Qed.

Lemma add_cat_unresolved_witness :
  let s := CatAdder.fresh string Examples.tree in
  let run := CatAdder.add_cat string Examples.open_catalog
               Examples.accepting_callback s in
  (CatAdder.tabs_active s = 0%Z /\
   FileSelector.main_value (CatAdder.fs s) = []) /\
  events_of run = [] /\
  CatAdder.validator_object (state_of run) = Some ICONS_error /\
  CatAdder.visible (state_of run) = true.
Proof.
  cbv zeta.
  assert (H : CatAdder.tabs_active (CatAdder.fresh string Examples.tree) = 0%Z /\
              FileSelector.main_value
                (CatAdder.fs (CatAdder.fresh string Examples.tree)) = []).
  { split; reflexivity. }
  destruct (add_cat_unresolved string Examples.open_catalog
              Examples.accepting_callback _ (or_introl H)) as [E [S _]].
  split; [exact H|]. split; [exact E|]. rewrite S. split; reflexivity.
Defined.

(** X14.  On the remote tab the confirm action always reaches
    [open_catalog], with the text of the input as it is: the text is not
    validated, and the empty text is passed on like any other. *)
Theorem add_cat_remote_opens (catalog : Type)
  (open_catalog : option string -> result catalog)
  (done_callback : option (catalog -> result unit))
  (s : CatAdder.t) :
  CatAdder.tabs_active s = 1%Z ->
  let run := CatAdder.add_cat catalog open_catalog done_callback s in
  let text := URLSelector.main_value (CatAdder.url s) in
  result_of (CatAdder.cat_url catalog s) = Ok (Some text) /\
  exists rest, events_of run = CatAdder.OpenCatalog (Some text) :: rest.
Proof.
  intros Ht. cbv zeta.
  assert (U : result_of (CatAdder.cat_url catalog s)
              = Ok (Some (URLSelector.main_value (CatAdder.url s)))).
  { unfold CatAdder.cat_url, bind, get, lift_result, ret, result_of.
    cbn [fst snd]. rewrite Ht. reflexivity. }
  split; [exact U|].
  unfold CatAdder.add_cat, try_except, bind. rewrite cat_run, U.
  destruct (open_catalog _) as [c|e].
  - unfold CatAdder.call_done_callback.
    destruct done_callback as [f|].
    + unfold bind, emit, lift_result. cbn [fst snd app].
      destruct (f c) as [[]|e1]; unfold events_of; cbn;
        eexists; reflexivity.
    + unfold events_of; cbn. eexists; reflexivity.
  - unfold events_of; cbn. eexists; reflexivity.
Qed.

Lemma add_cat_remote_opens_witness :
  let s := Examples.remote "" in
  CatAdder.tabs_active s = 1%Z /\
  events_of (CatAdder.add_cat string Examples.open_catalog
               Examples.accepting_callback s)
  = [CatAdder.OpenCatalog (Some "")].
Proof.
  cbv zeta. split; [reflexivity|].
  destruct (add_cat_remote_opens string Examples.open_catalog
              Examples.accepting_callback (Examples.remote "") eq_refl)
    as [_ [rest E]].
  rewrite E. vm_compute in E. injection E as <-. reflexivity.
Defined.

(** ** CatAdder: the children drive the button and the indicator *)

(** X15.  In a CatAdder whose watchers are registered, changing the
    selection of the FileSelector to a non-directory entry stores the
    selection, clears the error indicator and enables the confirm button
    exactly when the entry joined to the current directory is an existing
    file; for a missing file the button stays as it was.  Visibility and
    the active tab are untouched. *)
Theorem selecting_entry_in_cat_adder (catalog : Type) (filesys : filesystem)
  (s : CatAdder.t) (fn : string) (rest : list string) :
  CatAdder.watching s = true ->
  FileSelector.has_done_callback (CatAdder.fs s) = true ->
  list_eqb (fn :: rest) (FileSelector.main_value (CatAdder.fs s)) = false ->
  OsPath.endswith fn OsPath.sep = false ->
  let run := CatAdder.in_fs catalog
               (FileSelector.main_value_assign filesys (fn :: rest)) s in
  let s' := state_of run in
  result_of run = Ok tt /\
  CatAdder.fs s' = FileSelector.set_main_value (fn :: rest) (CatAdder.fs s) /\
  CatAdder.validator_object s' = None /\
  CatAdder.widget_disabled s' =
    (if isfile filesys (OsPath.join (FileSelector.path (CatAdder.fs s)) fn)
     then false else CatAdder.widget_disabled s) /\
  CatAdder.visible s' = CatAdder.visible s /\
  CatAdder.tabs_active s' = CatAdder.tabs_active s.
Proof.
  intros Hw Hcb Hne Hfile. cbv zeta. unfold CatAdder.in_fs.
  rewrite (main_value_assign_file_run filesys _ _ _ Hne Hfile).
  rewrite Hcb, andb_true_r.
  unfold result_of, state_of; cbn [fst snd].
  destruct (isfile filesys _); cbn; rewrite Hw; repeat split.
Qed.

Lemma selecting_entry_in_cat_adder_witness :
  let s := CatAdder.fresh string Examples.tree in
  let s' := state_of (CatAdder.in_fs string
              (FileSelector.main_value_assign Examples.tree ["data.yaml"]) s) in
  CatAdder.widget_disabled s = true /\
  CatAdder.widget_disabled s' = false /\
  CatAdder.validator_object s' = None.
Proof.
  cbv zeta.
  destruct (selecting_entry_in_cat_adder string Examples.tree
              (CatAdder.fresh string Examples.tree) "data.yaml" []
              eq_refl eq_refl eq_refl eq_refl) as [_ [_ [V [D _]]]].
  split; [reflexivity|]. split; [exact D | exact V].
Defined.


(** X16.  In a CatAdder, every assignment that changes the path text of
    the FileSelector (an edit of the text, [move_up], [go_home]) disables
    the confirm button, whatever it was before, and leaves the
    FileSelector at the new text; the visibility and the active tab are
    untouched.  When the new directory can be listed (or is no directory)
    the assignment returns and the selection is empty; when listing it
    raises, the assignment raises that exception and the selection is
    left as it was. *)
Theorem navigating_disables_confirm (catalog : Type) (filesys : filesystem)
  (s : CatAdder.t) (v : string) :
  FileSelector.has_done_callback (CatAdder.fs s) = true ->
  String.eqb v (FileSelector.path_text_value (CatAdder.fs s)) = false ->
  let run := CatAdder.in_fs catalog
               (FileSelector.path_text_assign filesys v) s in
  let s' := state_of run in
  CatAdder.widget_disabled s' = true /\
  FileSelector.path_text_value (CatAdder.fs s') = v /\
  CatAdder.visible s' = CatAdder.visible s /\
  CatAdder.tabs_active s' = CatAdder.tabs_active s /\
  match FileSelector.options_out filesys
          (FileSelector.set_path_text_value v (CatAdder.fs s)) with
  | Ok _ =>
      result_of run = Ok tt /\
      FileSelector.main_value (CatAdder.fs s') = []
  | Raise e =>
      result_of run = Raise e /\
      FileSelector.main_value (CatAdder.fs s')
        = FileSelector.main_value (CatAdder.fs s)
  end.
Proof.
  intros Hcb Hne. cbv zeta. unfold CatAdder.in_fs.
  rewrite path_text_assign_run, Hne. cbv zeta. rewrite make_options_run.
  rewrite (options_out_frame filesys
             (FileSelector.set_path_text_value v (CatAdder.fs s)))
    by reflexivity.
  cbn [FileSelector.has_done_callback FileSelector.main_value
       FileSelector.set_validator_object FileSelector.set_path_text_value].
  rewrite Hcb.
  destruct (FileSelector.options_out filesys _) as [out|e];
    unfold result_of, state_of; cbn [fst snd].
  - destruct (FileSelector.main_value (CatAdder.fs s)); cbn;
      [|destruct (CatAdder.watching s)]; repeat split.
  - cbn. repeat split.
Qed.

Lemma navigating_disables_confirm_witness :
  let s := state_of (CatAdder.in_fs string
             (FileSelector.main_value_assign Examples.tree ["data.yaml"])
             (CatAdder.fresh string Examples.tree)) in
  let s' := state_of (CatAdder.in_fs string
              (FileSelector.path_text_assign Examples.tree "/a/") s) in
  CatAdder.widget_disabled s = false /\
  CatAdder.widget_disabled s' = true /\
  FileSelector.main_value (CatAdder.fs s') = [].
Proof.
  cbv zeta.
  destruct (navigating_disables_confirm string Examples.tree
              (state_of (CatAdder.in_fs string
                 (FileSelector.main_value_assign Examples.tree ["data.yaml"])
                 (CatAdder.fresh string Examples.tree)))
              "/a/" eq_refl eq_refl) as [D [_ [_ [_ M]]]].
  split; [reflexivity|]. split; [exact D | exact (proj2 M)].
Defined.

(** X17.  In a CatAdder whose watchers are registered, an edit of the URL
    text that changes it clears the error indicator and stores the text;
    the confirm button, the visibility, the active tab and the
    FileSelector are untouched. *)
Theorem editing_url_clears_error (catalog : Type) (s : CatAdder.t)
  (v : string) :
  CatAdder.watching s = true ->
  String.eqb v (URLSelector.main_value (CatAdder.url s)) = false ->
  let run := CatAdder.in_url catalog (URLSelector.main_value_assign v) s in
  let s' := state_of run in
  result_of run = Ok tt /\
  CatAdder.validator_object s' = None /\
  URLSelector.main_value (CatAdder.url s') = v /\
  CatAdder.widget_disabled s' = CatAdder.widget_disabled s /\
  CatAdder.visible s' = CatAdder.visible s /\
  CatAdder.tabs_active s' = CatAdder.tabs_active s /\
  CatAdder.fs s' = CatAdder.fs s.
Proof.
  intros Hw Hne. cbv zeta.
  unfold CatAdder.in_url, URLSelector.main_value_assign, bind, get.
  cbn [fst snd]. rewrite Hne.
  unfold modify, emit, result_of, state_of. cbn. rewrite Hw.
  repeat split.
Qed.

Lemma editing_url_clears_error_witness :
  let s := state_of (CatAdder.add_cat string Examples.open_catalog
                       Examples.accepting_callback
                       (Examples.remote "/tmp/nonexistent.yaml")) in
  let s' := state_of (CatAdder.in_url string
              (URLSelector.main_value_assign "https://example.org/cat.yml") s) in
  CatAdder.validator_object s = Some ICONS_error /\
  CatAdder.validator_object s' = None.
Proof.
  cbv zeta.
  destruct (editing_url_clears_error string
              (state_of (CatAdder.add_cat string Examples.open_catalog
                           Examples.accepting_callback
                           (Examples.remote "/tmp/nonexistent.yaml")))
              "https://example.org/cat.yml" eq_refl eq_refl) as [_ [V _]].
  split; [reflexivity | exact V].
Defined.

(** X18.  Restoring a captured state without selection into any CatAdder,
    whatever it showed before, when the path text of the state can be
    assigned (it is the text already there, or its directory can be
    listed): the restore calls nothing outside; the directory, the empty
    selection and the URL text are those of the state; the visible flag is
    the state's, or true when the state has no ['visible'] entry.  When the
    component ends up visible and the state's ['active'] is not the index
    of one of the two tabs, the assignment to the tabs raises ValueError
    and the active tab is left as it was; in all other cases the restore
    returns, and the active tab is the state's when the component ends up
    visible and is left as it was otherwise. *)
Theorem setstate_overwrites (catalog : Type) (filesys : filesystem)
  (st : CatAdder.state) (s : CatAdder.t) :
  FileSelector.st_selected (CatAdder.st_local st) = PList [] ->
  Browse.assignable filesys
    (FileSelector.st_path (CatAdder.st_local st)) (CatAdder.fs s) ->
  let run := CatAdder.setstate catalog filesys st s in
  let v := match CatAdder.st_visible st with Some v => v | None => true end in
  events_of run = [] /\
  CatAdder.visible (state_of run) = v /\
  FileSelector.path_text_value (CatAdder.fs (state_of run))
    = FileSelector.st_path (CatAdder.st_local st) /\
  FileSelector.main_value (CatAdder.fs (state_of run)) = [] /\
  URLSelector.main_value (CatAdder.url (state_of run))
    = URLSelector.st_url (CatAdder.st_remote st) /\
  if v && negb ((0 <=? CatAdder.st_active st)%Z
                && (CatAdder.st_active st <=? 1)%Z)
  then (exists msg, result_of run = Raise (ValueError msg)) /\
       CatAdder.tabs_active (state_of run) = CatAdder.tabs_active s
  else result_of run = Ok tt /\
       CatAdder.tabs_active (state_of run)
         = (if v then CatAdder.st_active st else CatAdder.tabs_active s).
Proof. exact (setstate_any_target catalog filesys st s). Qed.

Lemma setstate_overwrites_witness :
  let st := {| CatAdder.st_visible := None;
               CatAdder.st_local :=
                 {| FileSelector.st_path := "/a/";
                    FileSelector.st_selected := PList [] |};
               CatAdder.st_remote := {| URLSelector.st_url := "s3://bucket/cat.yml" |};
               CatAdder.st_active := 1%Z |} in
  let run := CatAdder.setstate string Examples.tree st Examples.added_remote in
  let bad := CatAdder.setstate string Examples.tree
               {| CatAdder.st_visible := CatAdder.st_visible st;
                  CatAdder.st_local := CatAdder.st_local st;
                  CatAdder.st_remote := CatAdder.st_remote st;
                  CatAdder.st_active := 2%Z |}
               (CatAdder.fresh string Examples.tree) in
  CatAdder.visible Examples.added_remote = false /\
  result_of run = Ok tt /\
  CatAdder.visible (state_of run) = true /\
  CatAdder.tabs_active (state_of run) = 1%Z /\
  URLSelector.main_value (CatAdder.url (state_of run)) = "s3://bucket/cat.yml" /\
  (exists msg, result_of bad = Raise (ValueError msg)) /\
  CatAdder.tabs_active (state_of bad) = 0%Z.
Proof.
  cbv zeta.
  assert (A : forall s, Browse.assignable Examples.tree "/a/" (CatAdder.fs s)).
  { intros s. right. eexists. reflexivity. }
  destruct (setstate_overwrites string Examples.tree
              {| CatAdder.st_visible := None;
                 CatAdder.st_local :=
                   {| FileSelector.st_path := "/a/";
                      FileSelector.st_selected := PList [] |};
                 CatAdder.st_remote :=
                   {| URLSelector.st_url := "s3://bucket/cat.yml" |};
                 CatAdder.st_active := 1%Z |}
              Examples.added_remote eq_refl (A _))
    as [_ [V [_ [_ [U [R T]]]]]].
  destruct (setstate_overwrites string Examples.tree
              {| CatAdder.st_visible := None;
                 CatAdder.st_local :=
                   {| FileSelector.st_path := "/a/";
                      FileSelector.st_selected := PList [] |};
                 CatAdder.st_remote :=
                   {| URLSelector.st_url := "s3://bucket/cat.yml" |};
                 CatAdder.st_active := 2%Z |}
              (CatAdder.fresh string Examples.tree) eq_refl (A _))
    as [_ [_ [_ [_ [_ [R' T']]]]]].
  split; [reflexivity|]. split; [exact R|]. split; [exact V|].
  split; [exact T|]. split; [exact U|]. split; [exact R' | exact T'].
Defined.

(** ** The lazy GUI root: the other outcomes of the factory *)

(** X19.  When panel is recent enough but the initialisation of the GUI
    fails, whatever the failure, the factory yields the second stub: every
    request for the string representation raises the same RuntimeError,
    whose message asks to update panel to [panel>=0.9.5] and does not
    depend on the failure; the other accesses are those of a plain
    object. *)
Theorem update_stub_answers (value : Type) (env : Gui.environment value)
  (v : list Gui.component) (e : exn) (l : list Gui.access) :
  Gui.import_panel value env = Gui.PanelVersion v ->
  Gui.version_lt v Gui.minimum_version = Ok false ->
  Gui.init_gui value env = Raise e ->
  Gui.do_import value env = Ok Gui.StubUpdate /\
  fst (fst (Gui.session value env l Gui.init)) =
    map (Gui.stub value env Gui.update_message) l /\
  Gui.stub value env Gui.update_message Gui.Repr =
    Raise (RuntimeError Gui.update_message) /\
  Gui.contains Gui.update_message "panel>=0.9.5" = true.
Proof.
  intros Hp Hv Hi.
  assert (E : Gui.do_import value env = Ok Gui.StubUpdate).
  { unfold Gui.do_import. now rewrite Hp, Hv, Hi. }
  assert (F : Gui.factory value env = Ok Gui.StubUpdate).
  { unfold Gui.factory. now rewrite E. }
  split; [exact E|]. split.
  - unfold Gui.init. rewrite session_uncached, F. reflexivity.
  - split; reflexivity.
Qed.

Lemma update_stub_answers_witness :
  let env := {| Gui.import_panel := Gui.PanelVersion (Gui.numeric [1; 0]);
                Gui.init_gui := Raise (AttributeError "no attribute 'extension'");
                Gui.construct_gui := Ok tt;
                Gui.real_gui := fun _ => Ok "<GUI>";
                Gui.object_getattr := Examples.plain_object_getattr;
                Gui.object_dir := "[]" |} in
  fst (fst (Gui.session string env [Gui.Repr] Gui.init)) =
  [Raise (RuntimeError
     "Initialisation of GUI failed, even though panel is installed. Please update it to a more recent version (`conda install -c conda-forge panel>=0.9.5`).")].
Proof.
  cbv zeta.
  destruct (update_stub_answers string
              {| Gui.import_panel := Gui.PanelVersion (Gui.numeric [1; 0]);
                 Gui.init_gui := Raise (AttributeError "no attribute 'extension'");
                 Gui.construct_gui := Ok tt;
                 Gui.real_gui := fun _ => Ok "<GUI>";
                 Gui.object_getattr := Examples.plain_object_getattr;
                 Gui.object_dir := "[]" |}
              (Gui.numeric [1; 0])
              (AttributeError "no attribute 'extension'") [Gui.Repr]
              eq_refl eq_refl eq_refl) as [_ [R _]].
  rewrite R. reflexivity.
Defined.

(** X20.  [do_import] returns the real GUI class exactly when panel
    imports, its version compares as not below 0.9.5 and the
    initialisation of the GUI succeeds.  Then, when [GUI()] returns, every
    access of a session is answered by the real GUI and the factory ran
    once; when [GUI()] raises, every access raises that exception, the
    factory runs at every access and nothing is cached. *)
Theorem real_gui_answers (value : Type) (env : Gui.environment value)
  (l : list Gui.access) :
  (Gui.do_import value env = Ok Gui.RealGUI <->
   exists v, Gui.import_panel value env = Gui.PanelVersion v /\
             Gui.version_lt v Gui.minimum_version = Ok false /\
             Gui.init_gui value env = Ok tt) /\
  (Gui.do_import value env = Ok Gui.RealGUI ->
   let run := Gui.session value env l Gui.init in
   match Gui.construct_gui value env with
   | Ok _ =>
       fst (fst run) = map (Gui.real_gui value env) l /\
       Gui.factory_calls (snd run) = match l with [] => 0 | _ :: _ => 1 end
   | Raise e =>
       fst (fst run) = map (fun _ => Raise e) l /\
       Gui.factory_calls (snd run) = List.length l /\
       snd (fst run) = Gui.init
   end).
Proof.
  split.
  - unfold Gui.do_import.
    destruct (Gui.import_panel value env) as [e|e|v]; cbn beta iota.
    + split; [discriminate | intros [v [H _]]; discriminate].
    + split; [discriminate | intros [v [H _]]; discriminate].
    + destruct (Gui.version_lt v Gui.minimum_version) as [[|]|e] eqn:Hv;
        cbn beta iota.
      * split; [discriminate|].
        intros [v' [H [H' _]]]. injection H as <-. congruence.
      * destruct (Gui.init_gui value env) as [[]|e] eqn:Hi.
        -- split; [|reflexivity]. intros _. exists v. auto.
        -- split; [discriminate|].
           intros [v' [_ [_ H]]]. discriminate.
      * split; [discriminate|].
        intros [v' [H [H' _]]]. injection H as <-. congruence.
  - intros E. cbv zeta. unfold Gui.init. rewrite session_uncached.
    unfold Gui.factory. rewrite E. cbn [Gui.construct].
    destruct (Gui.construct_gui value env) as [[]|e]; cbn [fst snd].
    + split; [reflexivity|]. destruct l as [|a l]; [reflexivity|].
      change (Gui.factory_calls (Gui.DoImport :: ?x))
        with (S (Gui.factory_calls x)).
      now rewrite factory_calls_forward.
    + split; [reflexivity|].
      split; [apply factory_calls_repeat | reflexivity].
Qed.

(** X21.  What a first session leaves decides a later one, whatever has
    become of the environment in between (panel installed, updated or
    removed).  When the factory yielded an instance in the first session,
    the later session never runs the factory: every access is forwarded to
    the instance of the first session.  When the factory raised in the
    first session, the InstanceMaker is as new, and the later session is
    the one of a new InstanceMaker in the later environment. *)
Theorem session_resumes (value : Type) (env env' : Gui.environment value)
  (l1 l2 : list Gui.access) :
  l1 <> [] ->
  let run1 := Gui.session value env l1 Gui.init in
  let run2 := Gui.session value env' l2 (snd (fst run1)) in
  match Gui.factory value env with
  | Ok c =>
      let i0 := {| Gui.id := 0; Gui.cls := c |} in
      fst (fst run2) = map (Gui.respond value env' i0) l2 /\
      snd run2 = map (Gui.Forward i0) l2 /\
      Gui.factory_calls (snd run2) = 0 /\
      snd (fst run2) = snd (fst run1)
  | Raise _ => run2 = Gui.session value env' l2 Gui.init
  end.
Proof.
  intros Hne. cbv zeta.
  pose proof (session_uncached value env l1 0) as U.
  fold Gui.init in U.
  destruct (Gui.factory value env) as [c|e]; rewrite U; cbn [fst snd];
    [|reflexivity].
  destruct l1 as [|a l1]; [congruence|].
  rewrite session_cached. cbn [fst snd].
  split; [reflexivity|]. split; [reflexivity|].
  split; [apply factory_calls_forward | reflexivity].
Qed.

(** Installing panel after the first access does not help: the stub of the
    first session keeps answering.  After a failed comparison of versions
    it does: the next session starts afresh. *)
Lemma session_resumes_witness :
  fst (fst (Gui.session string Examples.recent_panel [Gui.Repr]
              (snd (fst (Gui.session string Examples.no_panel [Gui.Dir]
                           Gui.init))))) =
  [Raise (RuntimeError
     (Gui.install_message (Some "No module named 'panel'")))] /\
  fst (fst (Gui.session string Examples.recent_panel [Gui.Repr]
              (snd (fst (Gui.session string Examples.dev_panel [Gui.Dir]
                           Gui.init))))) =
  [Ok "<GUI>"].
Proof.
  assert (N : [Gui.Dir] <> []) by discriminate.
  pose proof (session_resumes string Examples.no_panel Examples.recent_panel
                [Gui.Dir] [Gui.Repr] N) as H1.
  pose proof (session_resumes string Examples.dev_panel Examples.recent_panel
                [Gui.Dir] [Gui.Repr] N) as H2.
  cbv zeta in H1, H2.
  change (Gui.factory string Examples.no_panel)
    with (Ok (A := Gui.gui_class)
            (Gui.StubInstall (Some "No module named 'panel'"))) in H1.
  destruct H1 as [R1 _]. split; [rewrite R1; reflexivity|].
  vm_compute in H2. vm_compute. reflexivity.
Defined.
